(** * The natural-language-to-SQL agent (client.py, mysql_utils.py, server.py)

    A shallow embedding of [SimpleMCPAgent], of
    [fetch_employees_by_department] and of the tool built on it, with
    the properties of the specification stated over it.

    Modelling conventions.

    - A Python [str] is a [string] holding its UTF-8 bytes (a lone
      surrogate as the three bytes UTF-8 would give it); [chars] cuts it
      into its characters.  [strip] removes the characters for which
      [str.isspace] holds, the white space of Unicode.  [upper] and
      [lower] map the ASCII letters themselves and take the mapping of
      every other character from the library record [PyLib]; the
      properties are proved for every such record, so for whatever the
      Unicode database says.  [find], [rfind] and slicing are only
      applied with the ASCII needles of the source, for which byte
      offsets and code-point offsets select the same substrings.
    - [json.loads] has three outcomes: a value, JSONDecodeError for a
      text that is no JSON, and the exception of an interpreter limit
      met on the way (ValueError for an integer of too many digits,
      RecursionError for containers nested too deep).  The limits and
      their messages are fields of [PyLib].
    - The MySQL driver, the HTTP endpoint and the terminal are the
      outside world.  The world is a script: [db w n] is the behaviour of
      the connection opened at tick [n], [llm w n p] the reply to the
      request posted at tick [n]; the terminal is the list [stdin] of
      pending input events.  Every effect is recorded in a trace.
    - A Python exception is a value of [exn]; code that can raise lives in
      the monad [M].  An interrupt (Ctrl-C) is delivered where the
      terminal script says so, at a call of [input()]; an interrupt that
      arrives during a request to the model, a driver call or a [print]
      is not part of the script.  Standard output accepts what is
      printed: [print] records the text and returns.  ([printable] marks
      the texts a UTF-8 terminal can encode; on any other text the real
      [print] raises UnicodeEncodeError.) *)

From Stdlib Require Import String Ascii List ZArith Lia Bool Arith.
From Stdlib Require Import Numbers.DecimalString.
Import ListNotations.
Open Scope list_scope.
Open Scope string_scope.
Open Scope nat_scope.

Set Warnings "-register-all".

Set Implicit Arguments.

(* ===================================================================== *)
(** * What is taken from CPython *)
(* ===================================================================== *)

(** The embedding takes these from CPython without defining them.

    - Whether the float written [lexeme] is non-zero, how [str] prints
      it, and the [repr] of a string (used only inside the [str] of a
      list or dict).
    - The case mappings of the Unicode database, outside the ASCII
      range: [to_upper x] is the upper-casing of the one character [x];
      [to_lower before x after] is the lower-casing of [x] where it
      stands ([str.lower] looks around a capital sigma).  Characters go
      in and come out as UTF-8.
    - The limits of the interpreter that [json.loads] can meet: the
      largest number of digits [int] converts ([max_str_digits], 0 for
      no limit) and the number of containers that can be open at once
      before the recursion limit is hit ([max_depth]), each with the
      message of the exception raised. *)
Record PyLib : Type := {
  float_truthy : string -> bool;
  float_str : string -> string;
  str_repr : string -> string;
  to_upper : string -> string;
  to_lower : string -> string -> string -> string;
  max_str_digits : nat;
  int_limit_message : nat -> string;
  max_depth : nat;
  depth_message : bool -> string          (* true: an object; false: an array *)
}.

(* ===================================================================== *)
(** * Python strings *)
(* ===================================================================== *)

Module PyStr.

Definition dq : string := String "034"%char EmptyString.
Definition nl : string := String "010"%char EmptyString.

Definition code (c : ascii) : nat := nat_of_ascii c.

Definition is_ascii (c : ascii) : bool := code c <? 128.

Definition is_lower (c : ascii) : bool :=
  let n := code c in (97 <=? n) && (n <=? 122).

Definition is_upper (c : ascii) : bool :=
  let n := code c in (65 <=? n) && (n <=? 90).

Definition upper_char (c : ascii) : ascii :=
  if is_lower c then ascii_of_nat (code c - 32) else c.

Definition lower_char (c : ascii) : ascii :=
  if is_upper c then ascii_of_nat (code c + 32) else c.

(** A continuation byte of a UTF-8 sequence. *)
Definition is_cont (c : ascii) : bool := (128 <=? code c) && (code c <? 192).

Definition opens_with_cont (x : string) : bool :=
  match x with
  | String d _ => is_cont d
  | EmptyString => false
  end.

(** The characters of a string, each as its UTF-8 bytes: a byte outside
    the ASCII range takes the continuation bytes that follow it. *)
Fixpoint chars (s : string) : list string :=
  match s with
  | EmptyString => []
  | String c r =>
      match chars r with
      | x :: xs =>
          if negb (is_ascii c) && opens_with_cont x then String c x :: xs
          else String c EmptyString :: x :: xs
      | [] => [String c EmptyString]
      end
  end.

Definition bytes (l : list nat) : string :=
  fold_right (fun n s => String (ascii_of_nat n) s) EmptyString l.

(** The characters for which [str.isspace] holds: TAB..CR, FS..US, the
    blank, U+0085, U+00A0, U+1680, U+2000..U+200A, U+2028, U+2029,
    U+202F, U+205F and U+3000. *)
Definition whitespace : list string :=
  map bytes
    [[9]; [10]; [11]; [12]; [13]; [28]; [29]; [30]; [31]; [32];
     [194; 133]; [194; 160]; [225; 154; 128];
     [226; 128; 128]; [226; 128; 129]; [226; 128; 130]; [226; 128; 131];
     [226; 128; 132]; [226; 128; 133]; [226; 128; 134]; [226; 128; 135];
     [226; 128; 136]; [226; 128; 137]; [226; 128; 138];
     [226; 128; 168]; [226; 128; 169]; [226; 128; 175]; [226; 129; 159];
     [227; 128; 128]].

Definition is_space (x : string) : bool := existsb (String.eqb x) whitespace.

(** [s.lstrip()] and [s.rstrip()], on the characters: a character at the
    end goes when it is a space and everything after it has gone. *)
Fixpoint lstrip (l : list string) : list string :=
  match l with
  | [] => []
  | x :: r => if is_space x then lstrip r else l
  end.

Fixpoint rstrip (l : list string) : list string :=
  match l with
  | [] => []
  | x :: r =>
      match rstrip r with
      | [] => if is_space x then [] else [x]
      | r' => x :: r'
      end
  end.

(** [s.strip()] *)
Definition strip (s : string) : string :=
  String.concat EmptyString (rstrip (lstrip (chars s))).

(** [s.upper()]: character by character. *)
Definition upper_of (L : PyLib) (x : string) : string :=
  match x with
  | String c EmptyString =>
      if is_ascii c then String (upper_char c) EmptyString else to_upper L x
  | _ => to_upper L x
  end.

Definition upper (L : PyLib) (s : string) : string :=
  String.concat EmptyString (map (upper_of L) (chars s)).

(** [s.lower()]: character by character, each where it stands. *)
Definition lower_of (L : PyLib) (before x after : string) : string :=
  match x with
  | String c EmptyString =>
      if is_ascii c then String (lower_char c) EmptyString
      else to_lower L before x after
  | _ => to_lower L before x after
  end.

Fixpoint lower_from (L : PyLib) (before : string) (l : list string) : string :=
  match l with
  | [] => EmptyString
  | x :: r =>
      lower_of L before x (String.concat EmptyString r) ++ lower_from L (before ++ x) r
  end.

Definition lower (L : PyLib) (s : string) : string := lower_from L EmptyString (chars s).

(** [s.startswith(p)] *)
Definition startswith (p s : string) : bool := String.prefix p s.

(** [s.find(c)] for a one-character needle: the first index, or -1. *)
Fixpoint find_from (c : ascii) (s : string) (i : Z) : Z :=
  match s with
  | EmptyString => (-1)%Z
  | String d r => if Ascii.eqb c d then i else find_from c r (i + 1)%Z
  end.
Definition find (c : ascii) (s : string) : Z := find_from c s 0%Z.

(** [s.rfind(c)]: the last index, or -1. *)
Fixpoint rfind_from (c : ascii) (s : string) (i : Z) (last : Z) : Z :=
  match s with
  | EmptyString => last
  | String d r => rfind_from c r (i + 1)%Z (if Ascii.eqb c d then i else last)
  end.
Definition rfind (c : ascii) (s : string) : Z := rfind_from c s 0%Z (-1)%Z.

(** A slice bound as Python normalises it: a negative bound counts
    from the end, and both ends are clamped to [0, len]. *)
Definition clamp (len k : Z) : Z :=
  if (k <? 0)%Z then Z.max 0 (k + len) else Z.min k len.

(** [s[i:j]] *)
Definition slice (s : string) (i j : Z) : string :=
  let len := Z.of_nat (String.length s) in
  let a := clamp len i in
  let b := clamp len j in
  String.substring (Z.to_nat a) (Z.to_nat (b - a)) s.

(** [sub in s] *)
Fixpoint contains (sub s : string) : bool :=
  String.prefix sub s ||
  match s with
  | EmptyString => false
  | String _ r => contains sub r
  end.

(** [sep.join(l)] *)
Definition join (sep : string) (l : list string) : string :=
  String.concat sep l.

(** [s * n] *)
Fixpoint repeat_str (s : string) (n : nat) : string :=
  match n with
  | O => EmptyString
  | S k => s ++ repeat_str s k
  end.

(** [str(n)] for an [int] *)
Definition of_Z (z : Z) : string := NilEmpty.string_of_int (Z.to_int z).
Definition of_nat (n : nat) : string := of_Z (Z.of_nat n).

End PyStr.
Import PyStr.

(* ===================================================================== *)
(** * Python values *)
(* ===================================================================== *)

(** The values [json.loads] produces.  A number written with a fraction
    or an exponent (and the constants NaN, Infinity, -Infinity) is kept
    as it is written: what [float] makes of it is the library's
    business, see [PyLib]. *)
Inductive pyval : Type :=
| VNone
| VBool (b : bool)
| VInt (z : Z)
| VFloat (lexeme : string)
| VStr (s : string)
| VList (l : list pyval)
| VDict (d : list (string * pyval)).

(** A [dict] keeps its keys in insertion order; assigning to a key that
    is present replaces the value where it stands. *)
Section Dict.
Variable V : Type.

Definition dict := list (string * V).

(** [d.get(k)] *)
Fixpoint dict_get (k : string) (d : dict) : option V :=
  match d with
  | [] => None
  | (k', v) :: r => if String.eqb k k' then Some v else dict_get k r
  end.

(** [d[k] = v] *)
Fixpoint dict_set (k : string) (v : V) (d : dict) : dict :=
  match d with
  | [] => [(k, v)]
  | (k', v') :: r =>
      if String.eqb k k' then (k', v) :: r else (k', v') :: dict_set k v r
  end.

(** [dict(pairs)] *)
Definition dict_of (pairs : list (string * V)) : dict :=
  fold_left (fun d kv => dict_set (fst kv) (snd kv) d) pairs [].

Definition keys (d : dict) : list string := map fst d.
Definition values (d : dict) : list V := map snd d.
End Dict.

Section Values.
Variable L : PyLib.

(** [bool(v)] *)
Definition truthy (v : pyval) : bool :=
  match v with
  | VNone => false
  | VBool b => b
  | VInt z => negb (Z.eqb z 0)
  | VFloat x => float_truthy L x
  | VStr s => negb (String.eqb s "")
  | VList l => match l with [] => false | _ => true end
  | VDict d => match d with [] => false | _ => true end
  end.

(** [repr(v)] *)
Fixpoint py_repr (v : pyval) : string :=
  match v with
  | VNone => "None"
  | VBool true => "True"
  | VBool false => "False"
  | VInt z => of_Z z
  | VFloat x => float_str L x
  | VStr s => str_repr L s
  | VList l => "[" ++ join ", " (map py_repr l) ++ "]"
  | VDict d =>
      "{" ++ join ", "
        (map (fun kv => match kv with
                        | (k, x) => str_repr L k ++ ": " ++ py_repr x
                        end) d) ++ "}"
  end.

(** [str(v)], which is what an f-string field prints *)
Definition py_str (v : pyval) : string :=
  match v with
  | VStr s => s
  | _ => py_repr v
  end.
End Values.

(** [type(v).__name__], as it appears in an [AttributeError] *)
Definition type_name (v : pyval) : string :=
  match v with
  | VNone => "NoneType"
  | VBool _ => "bool"
  | VInt _ => "int"
  | VFloat _ => "float"
  | VStr _ => "str"
  | VList _ => "list"
  | VDict _ => "dict"
  end.

(** A cell of a result set.  Values other than NULL, integers and text
    (Decimal, date, float, bytes) are known by the name of their class
    and by their [str]. *)
Inductive dbval : Type :=
| DbNull
| DbInt (z : Z)
| DbStr (s : string)
| DbObj (cls text : string).

Definition db_str (v : dbval) : string :=
  match v with
  | DbNull => "None"
  | DbInt z => of_Z z
  | DbStr s => s
  | DbObj _ t => t
  end.

Definition db_type_name (v : dbval) : string :=
  match v with
  | DbNull => "NoneType"
  | DbInt _ => "int"
  | DbStr _ => "str"
  | DbObj c _ => c
  end.

(* ===================================================================== *)
(** * json.loads *)
(* ===================================================================== *)

(** The decoder of the standard library, as far as the agent can tell.
    Lexing and parsing are both by structural recursion, so the decoder
    is total.  The parser reads the tokens from left to right and stops
    at the first thing that is wrong, as the scanner of the library
    does: a text that is no JSON ([JSONDecodeError]), an integer with
    more digits than [int] converts ([ValueError]), a container opened
    beyond the depth the recursion limit leaves ([RecursionError]). *)
Module Json.

Inductive token : Type :=
| TLBrace | TRBrace | TLBracket | TRBracket | TComma | TColon
| TString (s : string)
| TAtom (v : pyval)
| TInt (z : Z) (digits : nat)       (* an integer and the length of its digit string *)
| TBad.                             (* no token starts here *)

Definition is_ws (c : ascii) : bool :=
  let n := code c in (n =? 32) || (n =? 9) || (n =? 10) || (n =? 13).

Definition is_digit (c : ascii) : bool :=
  let n := code c in (48 <=? n) && (n <=? 57).

Definition hex_val (c : ascii) : option N :=
  let n := N_of_ascii c in
  if is_digit c then Some (n - 48)%N
  else if ((97 <=? n) && (n <=? 102))%N then Some (n - 87)%N
  else if ((65 <=? n) && (n <=? 70))%N then Some (n - 55)%N
  else None.

Definition hex4 (a b c d : ascii) : option N :=
  match hex_val a, hex_val b, hex_val c, hex_val d with
  | Some x, Some y, Some z, Some w => Some (((x * 16 + y) * 16 + z) * 16 + w)%N
  | _, _, _, _ => None
  end.

Definition byte (n : N) : string := String (ascii_of_N n) EmptyString.

(** The UTF-8 bytes of a code point (a lone surrogate gets the three
    bytes its number asks for). *)
Definition utf8 (n : N) : string :=
  if (n <? 128)%N then byte n
  else if (n <? 2048)%N then byte (192 + n / 64) ++ byte (128 + n mod 64)
  else if (n <? 65536)%N then
    byte (224 + n / 4096) ++ byte (128 + (n / 64) mod 64) ++ byte (128 + n mod 64)
  else
    byte (240 + n / 262144) ++ byte (128 + (n / 4096) mod 64)
      ++ byte (128 + (n / 64) mod 64) ++ byte (128 + n mod 64).

Definition is_high (n : N) : bool := ((55296 <=? n) && (n <=? 56319))%N.
Definition is_low (n : N) : bool := ((56320 <=? n) && (n <=? 57343))%N.

(** The low half of a surrogate pair, when [s] opens with its escape. *)
Definition low_escape (s : string) : option N :=
  match s with
  | String b (String u (String h1 (String h2 (String h3 (String h4 _))))) =>
      if Ascii.eqb b "\" && Ascii.eqb u "u" then
        match hex4 h1 h2 h3 h4 with
        | Some lo => if is_low lo then Some lo else None
        | None => None
        end
      else None
  | _ => None
  end.

Definition unescape (e : ascii) : option ascii :=
  if Ascii.eqb e "034" then Some "034"%char
  else if Ascii.eqb e "\" then Some "\"%char
  else if Ascii.eqb e "/" then Some "/"%char
  else if Ascii.eqb e "b" then Some "008"%char
  else if Ascii.eqb e "f" then Some "012"%char
  else if Ascii.eqb e "n" then Some "010"%char
  else if Ascii.eqb e "r" then Some "013"%char
  else if Ascii.eqb e "t" then Some "009"%char
  else None.

Definition grow (pre : string) (k : nat) (r : option (string * nat))
  : option (string * nat) :=
  match r with
  | Some (t, n) => Some (pre ++ t, n + k)
  | None => None
  end.

(** The body of a string literal, after its opening quote: the decoded
    text and the number of characters read, closing quote included. *)
Fixpoint scan_string (s : string) : option (string * nat) :=
  match s with
  | EmptyString => None
  | String c r =>
      if Ascii.eqb c "034" then Some (EmptyString, 1)
      else if Ascii.eqb c "\" then
        match r with
        | EmptyString => None
        | String e r1 =>
            if Ascii.eqb e "u" then
              match r1 with
              | String h1 (String h2 (String h3 (String h4 r2))) =>
                  match hex4 h1 h2 h3 h4 with
                  | None => None
                  | Some hi =>
                      match (if is_high hi then low_escape r2 else None), r2 with
                      | Some lo, String _ (String _ (String _ (String _
                                   (String _ (String _ r3))))) =>
                          grow (utf8 (65536 + (hi - 55296) * 1024 + (lo - 56320))%N)
                               12 (scan_string r3)
                      | _, _ => grow (utf8 hi) 6 (scan_string r2)
                      end
                  end
              | _ => None
              end
            else
              match unescape e with
              | Some ch => grow (String ch EmptyString) 2 (scan_string r1)
              | None => None
              end
        end
      else if code c <? 32 then None
      else grow (String c EmptyString) 1 (scan_string r)
  end.

Fixpoint span_digits (s : string) : string * string :=
  match s with
  | EmptyString => (EmptyString, EmptyString)
  | String c r =>
      if is_digit c then let (ds, t) := span_digits r in (String c ds, t)
      else (EmptyString, s)
  end.

Fixpoint digits_value (s : string) (acc : Z) : Z :=
  match s with
  | EmptyString => acc
  | String c r => digits_value r (acc * 10 + Z.of_nat (code c - 48))%Z
  end.

(** The optional fraction: a point followed by at least one digit. *)
Definition scan_frac (s : string) : string * string :=
  match s with
  | String c r =>
      if Ascii.eqb c "." then
        match span_digits r with
        | (EmptyString, _) => (EmptyString, s)
        | (ds, t) => (String c ds, t)
        end
      else (EmptyString, s)
  | EmptyString => (EmptyString, s)
  end.

(** The optional exponent: e or E, an optional sign, at least one digit. *)
Definition scan_exp (s : string) : string * string :=
  match s with
  | String c r =>
      if Ascii.eqb c "e" || Ascii.eqb c "E" then
        let (sg, r') :=
          match r with
          | String g t =>
              if Ascii.eqb g "+" || Ascii.eqb g "-"
              then (String g EmptyString, t) else (EmptyString, r)
          | EmptyString => (EmptyString, r)
          end in
        match span_digits r' with
        | (EmptyString, _) => (EmptyString, s)
        | (ds, t) => (String c (sg ++ ds), t)
        end
      else (EmptyString, s)
  | EmptyString => (EmptyString, s)
  end.

(** A number at the head of [s]: its token and the characters read. *)
Definition scan_number (s : string) : option (token * nat) :=
  let (neg, s1) :=
    match s with
    | String c r => if Ascii.eqb c "-" then (true, r) else (false, s)
    | EmptyString => (false, s)
    end in
  match s1 with
  | String d r =>
      if is_digit d then
        let (ds, r1) :=
          if Ascii.eqb d "0" then (EmptyString, r) else span_digits r in
        let ip := String d ds in
        let (fr, r2) := scan_frac r1 in
        let (ex, _) := scan_exp r2 in
        let lexeme := (if neg then "-" else "") ++ ip ++ fr ++ ex in
        let t :=
          match fr, ex with
          | EmptyString, EmptyString =>
              TInt (if neg then - digits_value ip 0 else digits_value ip 0)%Z
                   (String.length ip)
          | _, _ => TAtom (VFloat lexeme)
          end in
        Some (t, String.length lexeme)
      else None
  | EmptyString => None
  end.

(** A number or a constant at the head of [s]. *)
Definition scan_atom (s : string) : option (token * nat) :=
  match scan_number s with
  | Some r => Some r
  | None =>
      if String.prefix "null" s then Some (TAtom VNone, 4)
      else if String.prefix "true" s then Some (TAtom (VBool true), 4)
      else if String.prefix "false" s then Some (TAtom (VBool false), 5)
      else if String.prefix "NaN" s then Some (TAtom (VFloat "NaN"), 3)
      else if String.prefix "Infinity" s then Some (TAtom (VFloat "Infinity"), 8)
      else if String.prefix "-Infinity" s then Some (TAtom (VFloat "-Infinity"), 9)
      else None
  end.

(** The tokens of [s], up to the first place where no token starts.
    [skip] characters at the head belong to the token found just before
    them. *)
Fixpoint lex (skip : nat) (s : string) : list token :=
  match s with
  | EmptyString => []
  | String c r =>
      match skip with
      | S k => lex k r
      | O =>
          if is_ws c then lex 0 r
          else if Ascii.eqb c "{" then TLBrace :: lex 0 r
          else if Ascii.eqb c "}" then TRBrace :: lex 0 r
          else if Ascii.eqb c "[" then TLBracket :: lex 0 r
          else if Ascii.eqb c "]" then TRBracket :: lex 0 r
          else if Ascii.eqb c "," then TComma :: lex 0 r
          else if Ascii.eqb c ":" then TColon :: lex 0 r
          else if Ascii.eqb c "034" then
            match scan_string r with
            | Some (t, n) => TString t :: lex n r
            | None => [TBad]
            end
          else
            match scan_atom s with
            | Some (t, n) => t :: lex (n - 1) r
            | None => [TBad]
            end
      end
  end.

(** A container under construction. *)
Inductive frame : Type :=
| FArray (acc : list pyval)
| FObject (d : dict pyval)
| FField (d : dict pyval) (key : string).

(** What the parser waits for. *)
Inductive mode : Type :=
| MValue
| MValueOrClose
| MKeyOrClose
| MKey
| MColon (key : string)
| MDone (v : pyval).

(** What one token does to the parser. *)
Inductive stepped : Type :=
| Next (m : mode) (stk : list frame)
| Stuck                                 (* JSONDecodeError *)
| Over (cls msg : string).              (* a limit of the interpreter *)

(** [int] refuses a digit string longer than the limit. *)
Definition too_long (L : PyLib) (digits : nat) : bool :=
  negb (max_str_digits L =? 0) && (max_str_digits L <? digits).

(** No room for one more container. *)
Definition too_deep (L : PyLib) (stk : list frame) : bool :=
  max_depth L <=? List.length stk.

Definition open_value (L : PyLib) (stk : list frame) (t : token) : stepped :=
  match t with
  | TAtom v => Next (MDone v) stk
  | TInt z digits =>
      if too_long L digits then Over "ValueError" (int_limit_message L digits)
      else Next (MDone (VInt z)) stk
  | TString s => Next (MDone (VStr s)) stk
  | TLBracket =>
      if too_deep L stk then Over "RecursionError" (depth_message L false)
      else Next MValueOrClose (FArray [] :: stk)
  | TLBrace =>
      if too_deep L stk then Over "RecursionError" (depth_message L true)
      else Next MKeyOrClose (FObject [] :: stk)
  | _ => Stuck
  end.

Definition step (L : PyLib) (m : mode) (stk : list frame) (t : token) : stepped :=
  match m, t, stk with
  | MValue, _, _ => open_value L stk t
  | MValueOrClose, TRBracket, FArray acc :: rest =>
      Next (MDone (VList (rev acc))) rest
  | MValueOrClose, _, _ => open_value L stk t
  | MKeyOrClose, TRBrace, FObject d :: rest => Next (MDone (VDict d)) rest
  | MKeyOrClose, TString k, _ => Next (MColon k) stk
  | MKey, TString k, _ => Next (MColon k) stk
  | MColon k, TColon, FObject d :: rest => Next MValue (FField d k :: rest)
  | MDone v, TComma, FArray acc :: rest => Next MValue (FArray (v :: acc) :: rest)
  | MDone v, TRBracket, FArray acc :: rest =>
      Next (MDone (VList (rev (v :: acc)))) rest
  | MDone v, TComma, FField d k :: rest =>
      Next MKey (FObject (dict_set k v d) :: rest)
  | MDone v, TRBrace, FField d k :: rest =>
      Next (MDone (VDict (dict_set k v d))) rest
  | _, _, _ => Stuck
  end.

(** What [json.loads] makes of a text: a value, [JSONDecodeError], or
    the exception of a limit. *)
Inductive decoded : Type :=
| Value (v : pyval)
| Malformed
| Refused (cls msg : string).

Fixpoint parse (L : PyLib) (m : mode) (stk : list frame) (ts : list token) : decoded :=
  match ts with
  | [] => match m, stk with
          | MDone v, [] => Value v
          | _, _ => Malformed
          end
  | t :: r => match step L m stk t with
              | Next m' stk' => parse L m' stk' r
              | Stuck => Malformed
              | Over cls msg => Refused cls msg
              end
  end.

Definition decode (L : PyLib) (s : string) : decoded := parse L MValue [] (lex 0 s).

(** [json.loads(s)], when it returns. *)
Definition loads (L : PyLib) (s : string) : option pyval :=
  match decode L s with
  | Value v => Some v
  | _ => None
  end.

End Json.

(* ===================================================================== *)
(** * Exceptions, the outside world, and the monad of effects *)
(* ===================================================================== *)

Inductive exn : Type :=
| MySQLError (msg : string)         (* mysql.connector.Error and its subclasses *)
| JSONDecodeError                   (* json.JSONDecodeError *)
| PyException (cls msg : string)    (* any other subclass of Exception *)
| KeyboardInterrupt.                (* a BaseException that is no Exception *)

(** [isinstance(e, Exception)] *)
Definition is_Exception (e : exn) : bool :=
  match e with
  | KeyboardInterrupt => false
  | _ => true
  end.

(** [str(e)].  The text of the decoder's diagnostic is not modelled: the
    agent never prints it. *)
Definition exn_str (e : exn) : string :=
  match e with
  | MySQLError m => m
  | JSONDecodeError => ""
  | PyException _ m => m
  | KeyboardInterrupt => ""
  end.

(** [getattr] on a value without the attribute *)
Definition attribute_error (v : pyval) (attr : string) : exn :=
  PyException "AttributeError"
    ("'" ++ type_name v ++ "' object has no attribute '" ++ attr ++ "'").

(** What a driver call can raise: an error of the driver's own class, or
    anything else (a TypeError for a statement that is no string, say). *)
Inductive fault : Type :=
| DriverError (msg : string)
| Crash (cls msg : string).

Definition exn_of (f : fault) : exn :=
  match f with
  | DriverError m => MySQLError m
  | Crash c m => PyException c m
  end.

(** One connection of mysql.connector, as the calls made on it behave.
    [None] in an [option fault] is a call that returns. *)
Record Driver : Type := {
  connect : option fault;
  cursor : option fault;
  execute : pyval -> list string -> option fault;
  column_names : pyval -> list string;
  fetchall : pyval -> fault + list (list dbval);
  rowcount : pyval -> Z;
  commit : option fault;
  close : option fault;
  is_connected : nat -> bool        (* the n-th call of conn.is_connected() *)
}.

(** What [requests.post] does: raise (connection refused, timeout), or
    hand back a response with a status and a body. *)
Inductive http_reply : Type :=
| Unreachable (cls msg : string)
| Reply (status : Z) (body : string).

Record World : Type := {
  db : nat -> Driver;
  llm : nat -> string -> string -> http_reply    (* tick, model, prompt *)
}.

(** What the terminal delivers to one [input()]. *)
Inductive input_event : Type :=
| Line (s : string)
| Interrupt         (* Ctrl-C *)
| Eof.              (* Ctrl-D *)

Record state : Type := {
  stdin : list input_event;
  tick : nat
}.

Inductive event : Type :=
| EvConnect
| EvCursor
| EvExecute (sql : pyval) (params : list string)
| EvFetchall
| EvCommit
| EvClose
| EvPost (model prompt : string)
| EvPrint (text : string)
| EvInput (prompt : string)
| EvLogInfo (text : string)
| EvLogError (text : string) (e : exn).

Inductive outcome (A : Type) : Type :=
| Returned (a : A)
| Raised (e : exn).
Arguments Raised {A} e.

Record run (A : Type) : Type := Run {
  result : outcome A;
  trace : list event;
  final : state
}.

Definition M (A : Type) : Type := state -> run A.

Definition ret {A} (a : A) : M A := fun st => Run (Returned a) [] st.

Definition raise {A} (e : exn) : M A := fun st => Run (Raised e) [] st.

(** The run [r], with the events [tr] that came before it. *)
Definition after {A} (tr : list event) (r : run A) : run A :=
  match r with
  | Run x tr' st => Run x (tr ++ tr')%list st
  end.

Definition bind {A B} (m : M A) (f : A -> M B) : M B :=
  fun st =>
    match m st with
    | Run (Returned a) tr st' => after tr (f a st')
    | Run (Raised e) tr st' => Run (Raised e) tr st'
    end.

Notation "x <- m ;; k" := (bind m (fun x => k))
  (at level 61, m at next level, right associativity).
Notation "m ;; k" := (bind m (fun _ => k))
  (at level 61, right associativity).

(** [try: m except ...: h]; [h e = None] when no clause matches [e]. *)
Definition try_except {A} (m : M A) (h : exn -> option (M A)) : M A :=
  fun st =>
    match m st with
    | Run (Returned a) tr st' => Run (Returned a) tr st'
    | Run (Raised e) tr st' =>
        match h e with
        | Some k => after tr (k st')
        | None => Run (Raised e) tr st'
        end
    end.

(** [try: m finally: f].  An exception raised by [f] replaces whatever
    [m] was about to return or raise. *)
Definition finally {A} (m : M A) (f : M unit) : M A :=
  fun st =>
    match m st with
    | Run x tr st' =>
        match f st' with
        | Run (Returned _) tr2 st2 => Run x (tr ++ tr2)%list st2
        | Run (Raised e) tr2 st2 => Run (Raised e) (tr ++ tr2)%list st2
        end
    end.

Definition emit (ev : event) : M unit := fun st => Run (Returned tt) [ev] st.

(** A driver call: returns, or raises its fault. *)
Definition check (f : option fault) : M unit :=
  match f with
  | None => ret tt
  | Some x => raise (exn_of x)
  end.

Definition next_tick : M nat :=
  fun st => Run (Returned (tick st)) [] {| stdin := stdin st; tick := S (tick st) |}.

(** [print(text)] *)
Definition print (text : string) : M unit := emit (EvPrint text).

(** [input(prompt)] *)
Definition input (prompt : string) : M string :=
  fun st =>
    match stdin st with
    | Line s :: rest =>
        Run (Returned s) [EvInput prompt] {| stdin := rest; tick := tick st |}
    | Interrupt :: rest =>
        Run (Raised KeyboardInterrupt) [EvInput prompt] {| stdin := rest; tick := tick st |}
    | Eof :: rest =>
        Run (Raised (PyException "EOFError" "EOF when reading a line"))
            [EvInput prompt] {| stdin := rest; tick := tick st |}
    | [] =>
        Run (Raised (PyException "EOFError" "EOF when reading a line"))
            [EvInput prompt] st
    end.

(** [with mysql.connector.connect(...) as conn: body].  Leaving
    the block, by return or by exception, closes the connection. *)
Definition with_connection {A} (w : World) (body : Driver -> M A) : M A :=
  n <- next_tick ;;
  let conn := db w n in
  emit EvConnect ;;
  check (connect conn) ;;
  finally (body conn) (emit EvClose ;; check (close conn)).

(** [v.get(key, default)] *)
Definition get_method (v : pyval) (key : string) (default : pyval) : M pyval :=
  match v with
  | VDict d => ret (match dict_get key d with Some x => x | None => default end)
  | _ => raise (attribute_error v "get")
  end.

(** [v.strip()], [v.upper()] *)
Definition strip_method (v : pyval) : M string :=
  match v with
  | VStr s => ret (strip s)
  | _ => raise (attribute_error v "strip")
  end.

Definition upper_method (L : PyLib) (v : pyval) : M string :=
  match v with
  | VStr s => ret (upper L s)
  | _ => raise (attribute_error v "upper")
  end.

(** [json.loads(s)] *)
Definition json_loads (L : PyLib) (s : string) : M pyval :=
  match Json.decode L s with
  | Json.Value v => ret v
  | Json.Malformed => raise JSONDecodeError
  | Json.Refused cls msg => raise (PyException cls msg)
  end.

(* ===================================================================== *)
(** * client.py: SimpleMCPAgent *)
(* ===================================================================== *)

Definition row : Type := dict dbval.

(** The dictionary [execute_sql] returns, by its ['type']. *)
Inductive exec_result : Type :=
| Select (data : list row)
| Modify (rows_affected : Z)
| Error (message : string).

Record Schema : Type := {
  table : string;
  columns : list string;
  structure : string
}.

Record Agent : Type := {
  llm_model : string;
  schema : Schema
}.

(** The first two cells of every row of DESCRIBE: [col[0]], [col[1]]. *)
Fixpoint describe_rows (cols : list (list dbval)) : M (list (dbval * dbval)) :=
  match cols with
  | [] => ret []
  | (name :: ty :: _) :: r => xs <- describe_rows r ;; ret ((name, ty) :: xs)
  | _ :: _ => raise (PyException "IndexError" "tuple index out of range")
  end.

(** The items of [', '.join(items)], which must all be strings. *)
Fixpoint str_items (i : nat) (items : list dbval) : M (list string) :=
  match items with
  | [] => ret []
  | DbStr s :: r => xs <- str_items (S i) r ;; ret (s :: xs)
  | v :: _ =>
      raise (PyException "TypeError"
               ("sequence item " ++ of_nat i ++ ": expected str instance, "
                ++ db_type_name v ++ " found"))
  end.

(** [_get_table_info] *)
Definition _get_table_info (w : World) : M Schema :=
  try_except
    (with_connection w (fun conn =>
       let stmt := VStr "DESCRIBE employees" in
       emit EvCursor ;; check (cursor conn) ;;
       emit (EvExecute stmt []) ;; check (execute conn stmt []) ;;
       emit EvFetchall ;;
       match fetchall conn stmt with
       | inl f => raise (exn_of f)
       | inr [] => raise (PyException "Exception" "No columns found in employees table")
       | inr cols =>
           cells <- describe_rows cols ;;
           let struct_text :=
             join ", " (map (fun c => db_str (fst c) ++ "(" ++ db_str (snd c) ++ ")")
                            cells) in
           names <- str_items 0 (map fst cells) ;;
           let sch :=
             {| table := "employees"; columns := names; structure := struct_text |} in
           emit (EvLogInfo ("📋 Detected columns: " ++ join ", " (columns sch))) ;;
           ret sch
       end))
    (fun e =>
       if is_Exception e then
         Some (emit (EvLogError "❌ Schema detection failed: " e) ;;
               raise (PyException "RuntimeError"
                 "Could not read schema. Please ensure the 'employees' table exists."))
       else None).

(** [ask_llm] *)
Definition ask_llm (L : PyLib) (a : Agent) (w : World) (prompt : string) : M string :=
  try_except
    (n <- next_tick ;;
     emit (EvPost (llm_model a) prompt) ;;
     match llm w n (llm_model a) prompt with
     | Unreachable cls msg => raise (PyException cls msg)
     | Reply _ body =>
         j <- json_loads L body ;;
         r <- get_method j "response" (VStr "") ;;
         strip_method r
     end)
    (fun e =>
       if is_Exception e then
         Some (emit (EvLogError "LLM request failed: " e) ;; ret "")
       else None).

(** [sql.strip().upper().startswith('SELECT')] *)
Definition is_select (L : PyLib) (sql : pyval) : M bool :=
  s <- strip_method sql ;; ret (startswith "SELECT" (upper L s)).

(** A row of a dictionary cursor: [dict(zip(column_names, row))]. *)
Definition row_dict (names : list string) (cells : list dbval) : row :=
  dict_of (combine names cells).

(** [execute_sql]; [params] is [None] when the caller passes none. *)
Definition execute_sql (L : PyLib) (w : World) (sql : pyval)
  (params : option (list string)) : M exec_result :=
  try_except
    (with_connection w (fun conn =>
       let args := match params with Some l => l | None => [] end in
       emit EvCursor ;; check (cursor conn) ;;
       emit (EvExecute sql args) ;; check (execute conn sql args) ;;
       sel <- is_select L sql ;;
       if sel then
         emit EvFetchall ;;
         match fetchall conn sql with
         | inl f => raise (exn_of f)
         | inr rows => ret (Select (map (row_dict (column_names conn sql)) rows))
         end
       else
         emit EvCommit ;; check (commit conn) ;;
         ret (Modify (rowcount conn sql))))
    (fun e =>
       match e with
       | MySQLError msg => Some (ret (Error msg))
       | _ => None
       end).

(** [_format_select_results] *)
Fixpoint format_rows (i : nat) (data : list row) : string :=
  match data with
  | [] => ""
  | r :: rest =>
      let line := join " | " (map (fun kv => fst kv ++ ": " ++ db_str (snd kv)) r) in
      of_nat i ++ ". " ++ line ++ nl ++ format_rows (S i) rest
  end.

Definition _format_select_results (data : list row) : string :=
  match data with
  | [] => "📋 No records found"
  | _ =>
      "📋 Found " ++ of_nat (List.length data) ++ " record(s):" ++ nl
        ++ repeat_str "-" 50 ++ nl ++ format_rows 1 data
  end.

(** The loop of [_collect_data_for_insert]: [inl] is the early return. *)
Fixpoint collect_fields (fields : list string) (data : dict string)
  : M (string + dict string) :=
  match fields with
  | [] => ret (inr data)
  | field :: rest =>
      line <- input ("Enter " ++ field ++ ": ") ;;
      let value := strip line in
      if String.eqb value "" then ret (inl "❌ All fields are required")
      else collect_fields rest (dict_set field value data)
  end.

Definition insertable (sch : Schema) : list string :=
  filter (fun col => negb (String.eqb col "id" || String.eqb col "hire_date"))
         (columns sch).

Definition insert_statement (data : dict string) : string :=
  let cols := join ", " (keys data) in
  let placeholders := join ", " (repeat "%s" (List.length data)) in
  "INSERT INTO employees (" ++ cols ++ ") VALUES (" ++ placeholders ++ ")".

(** [_collect_data_for_insert] *)
Definition _collect_data_for_insert (L : PyLib) (a : Agent) (w : World) : M string :=
  print (nl ++ "📝 Adding new employee:") ;;
  try_except
    (r <- collect_fields (insertable (schema a)) [] ;;
     match r with
     | inl message => ret message
     | inr data =>
         res <- execute_sql L w (VStr (insert_statement data)) (Some (values data)) ;;
         match res with
         | Error message => ret ("❌ Insert failed: " ++ message)
         | _ =>
             let name := match dict_get "name" data with Some x => x | None => "" end in
             ret ("✅ Employee " ++ name ++ " added!")
         end
     end)
    (fun e =>
       match e with
       | KeyboardInterrupt => Some (ret "❌ Insert cancelled")
       | _ => None
       end).

(** The f-string that opens [process_user_request]. *)
Definition build_prompt (sch : Schema) (user_input : string) : string :=
  nl ++ "You are a helpful SQL assistant." ++ nl
  ++ nl
  ++ "Database Info:" ++ nl
  ++ "- Table: " ++ table sch ++ nl
  ++ "- Columns: " ++ join ", " (columns sch) ++ nl
  ++ "- Structure: " ++ structure sch ++ nl
  ++ nl
  ++ "User Request: " ++ dq ++ user_input ++ dq ++ nl
  ++ nl
  ++ "Reply in EXACTLY this JSON format:" ++ nl
  ++ "{" ++ nl
  ++ "  " ++ dq ++ "action" ++ dq ++ ": " ++ dq ++ "SELECT|INSERT|UPDATE|DELETE|HELP" ++ dq ++ "," ++ nl
  ++ "  " ++ dq ++ "sql" ++ dq ++ ": " ++ dq ++ "SQL statement or null" ++ dq ++ "," ++ nl
  ++ "  " ++ dq ++ "explanation" ++ dq ++ ": " ++ dq ++ "Brief reasoning" ++ dq ++ "," ++ nl
  ++ "  " ++ dq ++ "needs_data" ++ dq ++ ": false" ++ nl
  ++ "}" ++ nl
  ++ nl
  ++ "Rules:" ++ nl
  ++ "- Use ORDER BY id for SELECTs." ++ nl
  ++ "- Use LIKE '%term%' for searches." ++ nl
  ++ "- For INSERT, set needs_data = true if values are missing." ++ nl.

(** What [process_user_request] answers once the statement has run:
    the three tests on [db_result['type']] that end its [try] block. *)
Definition render (L : PyLib) (action : string) (db_result : exec_result) : string :=
  match db_result with
  | Error message => "❌ Database Error: " ++ message
  | Select data => _format_select_results data
  | Modify rows =>
      if Z.eqb rows 0 then "⚠️ No rows affected"
      else "✅ " ++ of_Z rows ++ " record(s) " ++ lower L action ++ "d."
  end.

Section Dispatch.
Variable L : PyLib.

(** The body of the [try] of [process_user_request]. *)
Definition dispatch (a : Agent) (w : World) (llm_response : string) : M string :=
  let json_start := find "{" llm_response in
  let json_end := (rfind "}" llm_response + 1)%Z in
  res <- json_loads L (slice llm_response json_start json_end) ;;
  act <- get_method res "action" (VStr "") ;;
  action <- upper_method L act ;;
  if String.eqb action "HELP" then
    e <- get_method res "explanation" VNone ;;
    ret ("💡 " ++ py_str L e)
  else
    nd <- get_method res "needs_data" VNone ;;
    if truthy L nd then _collect_data_for_insert L a w
    else
      sql <- get_method res "sql" VNone ;;
      if negb (truthy L sql) then ret "❌ No SQL generated"
      else
        db_result <- execute_sql L w sql None ;;
        ret (render L action db_result).

(** [process_user_request] *)
Definition process_user_request (a : Agent) (w : World) (user_input : string)
  : M string :=
  llm_response <- ask_llm L a w (build_prompt (schema a) user_input) ;;
  try_except (dispatch a w llm_response)
    (fun e =>
       match e with
       | JSONDecodeError => Some (ret "❌ Failed to parse LLM response")
       | KeyboardInterrupt => None
       | _ => Some (ret ("❌ Error: " ++ exn_str e))
       end).
End Dispatch.

(** [test_connections] *)
Definition test_connections (L : PyLib) (a : Agent) (w : World) : M bool :=
  print "🔍 Testing connections..." ;;
  db_ok <-
    try_except
      (res <- execute_sql L w (VStr "SELECT COUNT(*) as count FROM employees") None ;;
       match res with
       | Select data =>
           match data with
           | [] => raise (PyException "IndexError" "list index out of range")
           | first :: _ =>
               match dict_get "count" first with
               | Some c =>
                   print ("✅ Database OK: " ++ db_str c ++ " employees") ;; ret true
               | None => raise (PyException "KeyError" "'count'")
               end
           end
       | Error message => print ("❌ Database: " ++ message) ;; ret false
       | Modify _ => print ("❌ Database: " ++ "error") ;; ret false
       end)
      (fun e =>
         if is_Exception e then
           Some (print ("❌ DB Test Failed: " ++ exn_str e) ;; ret false)
         else None) ;;
  if negb db_ok then ret false
  else
    llm_ok <-
      try_except
        (test <- ask_llm L a w "Reply with only OK" ;;
         (if contains "OK" (upper L test)
          then print ("✅ LLM OK: " ++ llm_model a)
          else print "⚠️ LLM responded, but not as expected") ;;
         ret true)
        (fun e =>
           if is_Exception e then
             Some (print ("❌ LLM Test Failed: " ++ exn_str e) ;; ret false)
           else None) ;;
    if negb llm_ok then ret false else ret true.

(** How a run of [main] ends, as far as the model follows it. *)
Inductive main_end : Type :=
| Exited          (* main returned *)
| Looping.        (* the interactive loop is still reading requests *)

Section Main.
Variable L : PyLib.

(** The [while True] of [main], followed for [fuel] turns. *)
Fixpoint interactive_loop (fuel : nat) (a : Agent) (w : World) : M main_end :=
  match fuel with
  | O => ret Looping
  | S k =>
      again <-
        try_except
          (line <- input "🗣️ You: " ;;
           let user_input := strip line in
           let cmd := lower L user_input in
           if String.eqb cmd "exit" || String.eqb cmd "quit" || String.eqb cmd "q"
           then print "👋 Goodbye!" ;; ret false
           else if negb (String.eqb user_input "") then
             response <- process_user_request L a w user_input ;;
             print (nl ++ "🤖 " ++ response) ;;
             ret true
           else ret true)
          (fun e =>
             match e with
             | KeyboardInterrupt => Some (print (nl ++ "👋 Exiting.") ;; ret false)
             | _ => Some (print ("❌ Unexpected Error: " ++ exn_str e) ;; ret true)
             end) ;;
      if again then interactive_loop k a w else ret Exited
  end.

(** [main]; [model] is what OLLAMA_MODEL gives. *)
Definition main (fuel : nat) (model : string) (w : World) : M main_end :=
  print "🤖 Dynamic MCP Database Agent" ;;
  print (repeat_str "=" 40) ;;
  sch <- _get_table_info w ;;
  let agent := {| llm_model := model; schema := sch |} in
  ok <- test_connections L agent w ;;
  if negb ok then
    print "❌ Connection test failed. Check your `.env` and DB." ;;
    ret Exited
  else
    print (nl ++ "💬 Ask anything. Type 'quit' to exit." ++ nl) ;;
    interactive_loop fuel agent w.
End Main.

(* ===================================================================== *)
(** * mysql_utils.py *)
(* ===================================================================== *)

(** What [fetch_employees_by_department] hands back: the rows, the error
    text, or [None] when the function falls off its end. *)
Inductive fetch_result : Type :=
| FetchRows (rows : list (list dbval))
| FetchMessage (text : string)
| FetchNone.

(** Reading a local name that was never bound (the wording is that of
    CPython 3.11 and later). *)
Definition unbound_conn : exn :=
  PyException "UnboundLocalError"
    "cannot access local variable 'conn' where it is not associated with a value".

(** [fetch_employees_by_department].  The local name [conn] is bound
    only if [connect] returns; the [finally] block reads it. *)
Definition fetch_employees_by_department (w : World) (dept : string)
  : M fetch_result :=
  n <- next_tick ;;
  let c := db w n in
  let conn : option Driver :=
    match connect c with None => Some c | Some _ => None end in
  finally
    (try_except
       (emit EvConnect ;; check (connect c) ;;
        if is_connected c 0 then
          let stmt :=
            VStr "SELECT id, name, department FROM employees WHERE department = %s" in
          emit EvCursor ;; check (cursor c) ;;
          emit (EvExecute stmt [dept]) ;; check (execute c stmt [dept]) ;;
          emit EvFetchall ;;
          match fetchall c stmt with
          | inl f => raise (exn_of f)
          | inr rows => ret (FetchRows rows)
          end
        else ret FetchNone)
       (fun e =>
          match e with
          | MySQLError msg => Some (ret (FetchMessage ("MySQL Error: " ++ msg)))
          | _ => None
          end))
    (match conn with
     | None => raise unbound_conn
     | Some c' => if is_connected c' 1 then emit EvClose ;; check (close c') else ret tt
     end).

(* ===================================================================== *)
(** * server.py *)
(* ===================================================================== *)

(** One line of the tool's answer: [row[0]], [row[1]], [row[2]] of a
    result tuple, each printed by [str]. *)
Definition employee_line (r : list dbval) : M string :=
  match r with
  | i :: name :: dept :: _ =>
      ret ("ID: " ++ db_str i ++ ", Name: " ++ db_str name ++ ", Dept: " ++ db_str dept)
  | _ => raise (PyException "IndexError" "tuple index out of range")
  end.

(** The list comprehension over the rows. *)
Fixpoint employee_lines (rows : list (list dbval)) : M (list string) :=
  match rows with
  | [] => ret []
  | r :: rest =>
      x <- employee_line r ;;
      xs <- employee_lines rest ;;
      ret (x :: xs)
  end.

(** The tool [get_employees_by_department]. *)
Definition get_employees_by_department (w : World) (department : string) : M string :=
  res <- fetch_employees_by_department w department ;;
  match res with
  | FetchMessage text => ret text
  | FetchNone | FetchRows [] =>
      ret ("No employees found in " ++ department ++ " department.")
  | FetchRows rows =>
      lines <- employee_lines rows ;;
      ret (join nl lines)
  end.

(* ===================================================================== *)
(** * Sample worlds *)
(* ===================================================================== *)

Definition q (s : string) : string := dq ++ s ++ dq.

(** A stand-in for [PyLib], for runs that meet no float, print no list
    or dict and change the case of ASCII letters only; the limits are
    the defaults of CPython 3.11 (4300 digits) and a depth that a
    recursion limit of 1000 leaves. *)
Definition plain_lib : PyLib :=
  {| float_truthy := fun _ => true;
     float_str := fun x => x;
     str_repr := fun s => "'" ++ s ++ "'";
     to_upper := fun x => x;
     to_lower := fun _ x _ => x;
     max_str_digits := 4300;
     int_limit_message := fun n =>
       "Exceeds the limit (4300 digits) for integer string conversion: value has "
       ++ of_nat n ++ " digits; use sys.set_int_max_str_digits() to increase the limit";
     max_depth := 900;
     depth_message := fun object =>
       "maximum recursion depth exceeded while decoding a JSON "
       ++ (if object then "object" else "array") ++ " from a unicode string" |}.

(** A connection on which every call returns: [names] and [rows] are
    the result set, [n] the row count. *)
Definition healthy (names : list string) (rows : list (list dbval)) (n : Z) : Driver :=
  {| connect := None;
     cursor := None;
     execute := fun _ _ => None;
     column_names := fun _ => names;
     fetchall := fun _ => inr rows;
     rowcount := fun _ => n;
     commit := None;
     close := None;
     is_connected := fun _ => true |}.

(** A server that refuses the connection. *)
Definition refusing (msg : string) : Driver :=
  {| connect := Some (DriverError msg);
     cursor := None;
     execute := fun _ _ => None;
     column_names := fun _ => [];
     fetchall := fun _ => inr [];
     rowcount := fun _ => 0%Z;
     commit := None;
     close := None;
     is_connected := fun _ => false |}.

(** A connection whose [execute] fails with [f]. *)
Definition failing (f : fault) : Driver :=
  {| connect := None;
     cursor := None;
     execute := fun _ _ => Some f;
     column_names := fun _ => [];
     fetchall := fun _ => inr [];
     rowcount := fun _ => 0%Z;
     commit := None;
     close := None;
     is_connected := fun _ => true |}.

(** A world with the same connection behaviour and the same reply at
    every tick. *)
Definition steady (d : Driver) (r : http_reply) : World :=
  {| db := fun _ => d; llm := fun _ _ _ => r |}.

Definition start (lines : list input_event) : state :=
  {| stdin := lines; tick := 0 |}.

Definition employees : Schema :=
  {| table := "employees";
     columns := ["id"; "name"; "department"; "salary"; "hire_date"];
     structure := "id(int), name(varchar(100)), department(varchar(50)), salary(decimal(10,2)), hire_date(date)" |}.

Definition agent0 : Agent := {| llm_model := "llama3.2"; schema := employees |}.

(** A server on which DESCRIBE works and every other statement fails. *)
Definition describe_only : Driver :=
  {| connect := None;
     cursor := None;
     execute := fun sql _ =>
       match sql with
       | VStr s => if String.eqb s "DESCRIBE employees" then None
                   else Some (DriverError "Table 'company.employees' is read-protected")
       | _ => Some (Crash "TypeError" "statement must be a string")
       end;
     column_names := fun _ => ["Field"; "Type"];
     fetchall := fun _ => inr [[DbStr "id"; DbStr "int"]; [DbStr "name"; DbStr "varchar(100)"]];
     rowcount := fun _ => 0%Z;
     commit := None;
     close := None;
     is_connected := fun _ => true |}.

Fixpoint json_escape (s : string) : string :=
  match s with
  | EmptyString => EmptyString
  | String c r =>
      (if Ascii.eqb c "034" then "\" ++ dq
       else if Ascii.eqb c "\" then "\\"
       else if Ascii.eqb c "010" then "\n"
       else String c EmptyString) ++ json_escape r
  end.

(** The endpoint answering [text]: status 200 and a body whose
    'response' is [text]. *)
Definition says (text : string) : http_reply :=
  Reply 200 ("{" ++ q "model" ++ ": " ++ q "llama3.2" ++ ", "
             ++ q "response" ++ ": " ++ dq ++ json_escape text ++ dq ++ "}").

(** A reply that lacks 'action'. *)
Definition reply_without_action : string :=
  "Here you go: {" ++ q "sql" ++ ": " ++ q "SELECT * FROM employees ORDER BY id"
  ++ ", " ++ q "needs_data" ++ ": false}".

(** A reply whose 'sql' is the empty string. *)
Definition reply_with_empty_sql : string :=
  "{" ++ q "action" ++ ": " ++ q "SELECT" ++ ", " ++ q "sql" ++ ": " ++ q ""
  ++ ", " ++ q "explanation" ++ ": " ++ q "nothing to run" ++ ", "
  ++ q "needs_data" ++ ": false}".

Definition reply_help : string :=
  "{" ++ q "action" ++ ": " ++ q "help" ++ ", " ++ q "sql" ++ ": null, "
  ++ q "explanation" ++ ": " ++ q "Ask me about employees." ++ ", "
  ++ q "needs_data" ++ ": false}".

(** A reply whose 'action' is a number. *)
Definition reply_numeric_action : string :=
  "{" ++ q "action" ++ ": 7, " ++ q "sql" ++ ": null}".

(** A reply that asks for a statement the server will reject. *)
Definition reply_bad_delete : string :=
  "{" ++ q "action" ++ ": " ++ q "DELETE" ++ ", " ++ q "sql" ++ ": " ++ q "DELETE FROM"
  ++ ", " ++ q "needs_data" ++ ": false}".

(** A connection that is made but reports itself not connected. *)
Definition dropped : Driver :=
  {| connect := None;
     cursor := None;
     execute := fun _ _ => None;
     column_names := fun _ => [];
     fetchall := fun _ => inr [];
     rowcount := fun _ => 0%Z;
     commit := None;
     close := None;
     is_connected := fun _ => false |}.

(** The IT department of a small company. *)
Definition it_rows : list (list dbval) :=
  [[DbInt 1; DbStr "Ann"; DbStr "IT"]; [DbInt 4; DbStr "Bob"; DbStr "IT"]].



(** A library that knows one letter outside ASCII: the long s, whose
    capital is S. *)
Definition long_s : string := bytes [197; 191].

Definition folding_lib : PyLib :=
  {| float_truthy := float_truthy plain_lib;
     float_str := float_str plain_lib;
     str_repr := str_repr plain_lib;
     to_upper := fun x => if String.eqb x long_s then "S" else x;
     to_lower := to_lower plain_lib;
     max_str_digits := max_str_digits plain_lib;
     int_limit_message := int_limit_message plain_lib;
     max_depth := max_depth plain_lib;
     depth_message := depth_message plain_lib |}.

(** A reply whose statement is an integer of 4301 digits. *)
Definition reply_long_integer : string :=
  "{" ++ q "action" ++ ": " ++ q "SELECT" ++ ", " ++ q "sql" ++ ": "
  ++ repeat_str "7" 4301 ++ "}".

(** U+00A0 and U+3000, two spaces outside ASCII. *)
Definition nbsp : string := bytes [194; 160].
Definition wide_space : string := bytes [227; 128; 128].

(* ===================================================================== *)
(** * The vocabulary of the statements *)
(* ===================================================================== *)

(** The calls of one [execute_sql] end with the driver's own error [m]
    in flight: raised by the call itself, or by the [close] that leaves
    the [with] block. *)
Inductive driver_error (L : PyLib) (d : Driver) (sql : pyval) (args : list string)
  (m : string) : Prop :=
| at_connect :
    connect d = Some (DriverError m) -> driver_error L d sql args m
| at_close :
    connect d = None -> close d = Some (DriverError m) -> driver_error L d sql args m
| at_cursor :
    connect d = None -> close d = None ->
    cursor d = Some (DriverError m) -> driver_error L d sql args m
| at_execute :
    connect d = None -> close d = None -> cursor d = None ->
    execute d sql args = Some (DriverError m) -> driver_error L d sql args m
| at_fetchall :
    forall s,
    connect d = None -> close d = None -> cursor d = None ->
    execute d sql args = None -> sql = VStr s ->
    startswith "SELECT" (upper L (strip s)) = true ->
    fetchall d sql = inl (DriverError m) -> driver_error L d sql args m
| at_commit :
    forall s,
    connect d = None -> close d = None -> cursor d = None ->
    execute d sql args = None -> sql = VStr s ->
    startswith "SELECT" (upper L (strip s)) = false ->
    commit d = Some (DriverError m) -> driver_error L d sql args m.

(** [params or ()] *)
Definition args_of (params : option (list string)) : list string :=
  match params with Some l => l | None => [] end.

(** A row as the formatter prints it, and behind its number. *)
Definition row_line (r : row) : string :=
  join " | " (map (fun kv => fst kv ++ ": " ++ db_str (snd kv)) r).

Definition numbered (p : nat * row) : string :=
  of_nat (fst p) ++ ". " ++ row_line (snd p) ++ nl.

(** The prompts of the collector for [fields], in order. *)
Definition prompts (fields : list string) : list event :=
  map (fun f => EvInput ("Enter " ++ f ++ ": ")) fields.

(** The dictionary the loop builds from the answers [vals]. *)
Definition fill (fields vals : list string) (data : dict string) : dict string :=
  fold_left (fun d fv => dict_set (fst fv) (snd fv) d)
            (combine fields (map strip vals)) data.

(** A value that is empty once trimmed. *)
Definition blank (v : string) : Prop := strip v = "".

Definition is_prompt (ev : event) : Prop :=
  match ev with EvInput _ => True | _ => False end.

Definition banner : event := EvPrint (nl ++ "📝 Adding new employee:").

(** The answer once the INSERT has run. *)
Definition insert_answer (data : dict string) (r : outcome exec_result)
  : outcome string :=
  match r with
  | Returned (Error message) => Returned ("❌ Insert failed: " ++ message)
  | Returned _ =>
      Returned ("✅ Employee "
                ++ match dict_get "name" data with Some x => x | None => "" end
                ++ " added!")
  | Raised e => Raised e
  end.

(** The answer of a run whose loop ends early, by its return or by an
    exception (the [inr] case is that of a loop that ran to its end). *)
Definition early_answer (r : outcome (string + dict string)) : outcome string :=
  match r with
  | Returned (inl message) => Returned message
  | Returned (inr _) => Returned ""
  | Raised KeyboardInterrupt => Returned "❌ Insert cancelled"
  | Raised e => Raised e
  end.

(** An event of the trace is a call of the driver. *)
Definition driver_call (ev : event) : Prop :=
  match ev with
  | EvConnect | EvCursor | EvExecute _ _ | EvFetchall | EvCommit | EvClose => True
  | _ => False
  end.

(** What [ask_llm] makes of a response body: the trimmed ['response'] of
    a JSON object, and the empty string for anything else. *)
Definition reply_text (L : PyLib) (body : string) : string :=
  match Json.loads L body with
  | Some (VDict d) =>
      match dict_get "response" d with
      | Some (VStr s) => strip s
      | Some _ => ""
      | None => ""
      end
  | _ => ""
  end.

(** The state once a request has gone out. *)
Definition ticked (st : state) : state :=
  {| stdin := stdin st; tick := S (tick st) |}.

(** The read of the self-test, and the lines it can print. *)
Definition count_statement : pyval := VStr "SELECT COUNT(*) as count FROM employees".

Definition llm_warning : event := EvPrint "⚠️ LLM responded, but not as expected".

(** The database read of the self-test failed: [execute_sql] handed
    back the Error variant, or raised. *)
Definition read_failed (r : outcome exec_result) : Prop :=
  (exists m, r = Returned (Error m)) \/ (exists e, r = Raised e).

Definition is_post (ev : event) : Prop :=
  match ev with EvPost _ _ => True | _ => False end.

Definition startup_failure : event :=
  EvPrint "❌ Connection test failed. Check your `.env` and DB.".

(** The answer of the [except json.JSONDecodeError] clause. *)
Definition parse_failure : string := "❌ Failed to parse LLM response".

(** The text handed to the decoder: from the first opening brace to the
    last closing brace, as the slice computes it. *)
Definition span (raw : string) : string :=
  slice raw (find "{" raw) (rfind "}" raw + 1).

(** [d.get(key, default)] on the decoded object *)
Definition field (key : string) (kvs : dict pyval) (default : pyval) : pyval :=
  match dict_get key kvs with Some x => x | None => default end.

(** The two [except] clauses of [process_user_request]. *)
Definition answer_of (r : outcome string) : outcome string :=
  match r with
  | Returned s => Returned s
  | Raised JSONDecodeError => Returned parse_failure
  | Raised KeyboardInterrupt => Raised KeyboardInterrupt
  | Raised e => Returned ("❌ Error: " ++ exn_str e)
  end.

(** What the dispatcher does with the result of the statement. *)
Definition rendered (L : PyLib) (action : string) (x : run exec_result) : run string :=
  match x with
  | Run (Returned res) tr st => Run (Returned (render L action res)) tr st
  | Run (Raised e) tr st => Run (Raised e) tr st
  end.

(** The events that open and that close a connection. *)
Definition opens (ev : event) : bool :=
  match ev with EvConnect => true | _ => false end.

Definition closes (ev : event) : bool :=
  match ev with EvClose => true | _ => false end.

(** A frame of the decoder that belongs to an object. *)
Definition object_frame (f : Json.frame) : Prop :=
  match f with
  | Json.FArray _ => False
  | _ => True
  end.

(** What [input] raises when the terminal has no line to give. *)
Definition eof_error : exn := PyException "EOFError" "EOF when reading a line".

(** The terminal is closed: its next event is the end of input. *)
Definition at_eof (inp : list input_event) : Prop :=
  match inp with
  | [] | Eof :: _ => True
  | _ => False
  end.

(** The statement the collector sends for the columns [cols]. *)
Definition insert_for (cols : list string) : pyval :=
  VStr ("INSERT INTO employees (" ++ join ", " cols ++ ") VALUES ("
        ++ join ", " (repeat "%s" (List.length cols)) ++ ")").

(** What [_get_table_info] raises, whatever went wrong. *)
Definition schema_error : exn :=
  PyException "RuntimeError"
    "Could not read schema. Please ensure the 'employees' table exists.".

Definition describe_statement : pyval := VStr "DESCRIBE employees".

(** [col[0]] and [col[1]] of a DESCRIBE row, and the row as it appears
    in the structure text. *)
Definition cell (i : nat) (r : list dbval) : dbval := nth i r DbNull.

Definition column_text (r : list dbval) : string :=
  db_str (cell 0 r) ++ "(" ++ db_str (cell 1 r) ++ ")".

(** The prompt of the interactive loop, the words that leave it, and
    what one turn on a closed terminal prints. *)
Definition you : event := EvInput "🗣️ You: ".

Definition quit_word (L : PyLib) (s : string) : Prop :=
  lower L (strip s) = "exit" \/ lower L (strip s) = "quit" \/ lower L (strip s) = "q".

Definition eof_turn : list event :=
  [you; EvPrint "❌ Unexpected Error: EOF when reading a line"].

(** The two lines [main] prints first. *)
Definition greeting : list event :=
  [EvPrint "🤖 Dynamic MCP Database Agent"; EvPrint (repeat_str "=" 40)].

(** The one statement of [fetch_employees_by_department]. *)
Definition department_statement : pyval :=
  VStr "SELECT id, name, department FROM employees WHERE department = %s".

(** A result row as the tool prints it. *)
Definition employee_text (r : list dbval) : string :=
  "ID: " ++ db_str (cell 0 r) ++ ", Name: " ++ db_str (cell 1 r)
  ++ ", Dept: " ++ db_str (cell 2 r).

(** The driver's own error [m] is raised inside the [try] of
    [fetch_employees_by_department], after the connection was made. *)
Definition query_error (d : Driver) (dept m : string) : Prop :=
  cursor d = Some (DriverError m) \/
  (cursor d = None /\ execute d department_statement [dept] = Some (DriverError m)) \/
  (cursor d = None /\ execute d department_statement [dept] = None /\
   fetchall d department_statement = inl (DriverError m)).




(* ===================================================================== *)
(** * Properties *)
(* ===================================================================== *)

Arguments startswith : simpl never.
Arguments strip : simpl never.
Arguments upper : simpl never.
Arguments lower : simpl never.
Arguments contains : simpl never.
Arguments join : simpl never.
Arguments of_Z : simpl never.
Arguments of_nat : simpl never.
Arguments slice : simpl never.
Arguments find : simpl never.
Arguments rfind : simpl never.
Arguments repeat_str : simpl never.
Arguments Json.loads : simpl never.
Arguments Json.decode : simpl never.
Arguments describe_rows : simpl never.
Arguments str_items : simpl never.
Arguments execute_sql : simpl never.
Arguments ask_llm : simpl never.
Arguments _get_table_info : simpl never.
Arguments _collect_data_for_insert : simpl never.
Arguments test_connections : simpl never.
Arguments dispatch : simpl never.
Arguments process_user_request : simpl never.
Arguments interactive_loop : simpl never.

Ltac run_unfold :=
  unfold execute_sql, with_connection, is_select, strip_method, upper_method,
    get_method, json_loads, print, try_except, finally, bind, after, check,
    emit, next_tick, ret, raise in *.

(** Split on the innermost thing a [match] of the goal looks at. *)
Ltac split_match :=
  match goal with
  | |- context [match ?x with _ => _ end] =>
      lazymatch x with
      | context [match _ with _ => _ end] => fail
      | _ => let E := fresh "E" in destruct x eqn:E; cbn in *
      end
  end.

Ltac comb_unfold :=
  unfold print, try_except, finally, bind, after, check, emit, ret, raise in *.

(** ** The model at work *)

Example strip_trims : strip "  select 1 " = "select 1".
Proof. reflexivity. Qed.

Example upper_folds : upper plain_lib "Select * from t" = "SELECT * FROM T".
Proof. reflexivity. Qed.

Example slice_of_prose :
  slice "ok {x} done" (find "{" "ok {x} done") (rfind "}" "ok {x} done" + 1) = "{x}".
Proof. reflexivity. Qed.

Example slice_without_braces :
  slice "no json here" (find "{" "no json here") (rfind "}" "no json here" + 1) = "".
Proof. reflexivity. Qed.

Example loads_object :
  Json.loads plain_lib
    ("{" ++ q "action" ++ ": " ++ q "SELECT" ++ ", " ++ q "sql" ++ ": null, "
              ++ q "n" ++ ": [1, -2.5e3, true]}")
  = Some (VDict [("action", VStr "SELECT"); ("sql", VNone);
                 ("n", VList [VInt 1; VFloat "-2.5e3"; VBool true])]).
Proof. reflexivity. Qed.

Example loads_last_key_wins :
  Json.loads plain_lib ("{" ++ q "a" ++ ": 1, " ++ q "b" ++ ": 2, " ++ q "a" ++ ": 3}")
  = Some (VDict [("a", VInt 3); ("b", VInt 2)]).
Proof. reflexivity. Qed.

Example loads_rejects :
  map (Json.decode plain_lib) [""; "}"; "[1,]"; "{,}"; "01"; "1 2"; "nul"; "[[]"]
  = repeat Json.Malformed 8.
Proof. reflexivity. Qed.

Example loads_meets_the_limits :
  Json.decode plain_lib (repeat_str "7" 4300) <> Json.Malformed /\
  Json.decode plain_lib (repeat_str "7" 4301)
  = Json.Refused "ValueError" (int_limit_message plain_lib 4301) /\
  Json.decode plain_lib ("-" ++ repeat_str "7" 4301)
  = Json.Refused "ValueError" (int_limit_message plain_lib 4301) /\
  Json.decode plain_lib ("[} " ++ repeat_str "7" 4301) = Json.Malformed /\
  Json.decode plain_lib (repeat_str "[" 1500)
  = Json.Refused "RecursionError" (depth_message plain_lib false).
Proof.
  repeat split; try (vm_compute; reflexivity).
  vm_compute. discriminate.
Qed.

Example strip_trims_unicode_spaces :
  strip (nbsp ++ " select 1" ++ wide_space ++ nl) = "select 1" /\
  strip wide_space = "" /\
  strip ("a" ++ nbsp ++ "b") = "a" ++ nbsp ++ "b".
Proof. repeat split; vm_compute; reflexivity. Qed.

Example upper_asks_the_library :
  upper folding_lib (long_s ++ "elect 1") = "SELECT 1" /\
  upper plain_lib (long_s ++ "elect 1") = long_s ++ "ELECT 1".
Proof. split; vm_compute; reflexivity. Qed.

Example says_round_trip :
  result (ask_llm plain_lib agent0 (steady (healthy [] [] 0) (says reply_help)) "p" (start []))
  = Returned reply_help.
Proof. reflexivity. Qed.

Example select_run :
  execute_sql plain_lib (steady (healthy ["id"; "name"] [[DbInt 1; DbStr "Ann"]] 0) (says ""))
    (VStr "select * from employees") None (start [])
  = Run (Returned (Select [[("id", DbInt 1); ("name", DbStr "Ann")]]))
        [EvConnect; EvCursor; EvExecute (VStr "select * from employees") [];
         EvFetchall; EvClose]
        {| stdin := []; tick := 1 |}.
Proof. reflexivity. Qed.

Example padded_select_run :
  execute_sql plain_lib (steady (healthy ["id"] [[DbInt 1]] 0) (says ""))
    (VStr (nbsp ++ "select 1")) None (start [])
  = Run (Returned (Select [[("id", DbInt 1)]]))
        [EvConnect; EvCursor; EvExecute (VStr (nbsp ++ "select 1")) [];
         EvFetchall; EvClose]
        {| stdin := []; tick := 1 |}.
Proof. vm_compute. reflexivity. Qed.

Example long_s_select_run :
  execute_sql folding_lib (steady (healthy ["id"] [[DbInt 1]] 0) (says ""))
    (VStr (long_s ++ "ELECT 1")) None (start [])
  = Run (Returned (Select [[("id", DbInt 1)]]))
        [EvConnect; EvCursor; EvExecute (VStr (long_s ++ "ELECT 1")) [];
         EvFetchall; EvClose]
        {| stdin := []; tick := 1 |}.
Proof. vm_compute. reflexivity. Qed.

Example unicode_blank_is_no_value :
  _collect_data_for_insert plain_lib agent0 (steady (healthy [] [] 1) (says ""))
    (start [Line "Ann"; Line nbsp; Line "100"])
  = Run (Returned "❌ All fields are required")
        [banner; EvInput "Enter name: "; EvInput "Enter department: "]
        {| stdin := [Line "100"]; tick := 0 |}.
Proof. vm_compute. reflexivity. Qed.

Example long_integer_is_reported :
  process_user_request plain_lib agent0
    (steady (healthy [] [] 0) (says reply_long_integer)) "count" (start [])
  = Run (Returned ("❌ Error: " ++ int_limit_message plain_lib 4301))
        [EvPost "llama3.2" (build_prompt employees "count")]
        {| stdin := []; tick := 1 |}.
Proof. vm_compute. reflexivity. Qed.

Example insert_run :
  _collect_data_for_insert plain_lib agent0 (steady (healthy [] [] 1) (says ""))
    (start [Line " Ann "; Line "IT"; Line "100"])
  = Run (Returned "✅ Employee Ann added!")
        [banner; EvInput "Enter name: "; EvInput "Enter department: ";
         EvInput "Enter salary: "; EvConnect; EvCursor;
         EvExecute
           (VStr "INSERT INTO employees (name, department, salary) VALUES (%s, %s, %s)")
           ["Ann"; "IT"; "100"];
         EvCommit; EvClose]
        {| stdin := []; tick := 1 |}.
Proof. reflexivity. Qed.

Example interrupted_insert :
  result (_collect_data_for_insert plain_lib agent0 (steady (healthy [] [] 1) (says ""))
            (start [Line "Ann"; Interrupt]))
  = Returned "❌ Insert cancelled".
Proof. reflexivity. Qed.

Example unicode_blank_and_padded_quit :
  interactive_loop plain_lib 2 agent0 (steady (healthy [] [] 0) (says reply_help))
    (start [Line wide_space; Line (nbsp ++ "QUIT"); Line "list everyone"])
  = Run (Returned Exited) [you; you; EvPrint "👋 Goodbye!"]
        {| stdin := [Line "list everyone"]; tick := 0 |}.
Proof. vm_compute. reflexivity. Qed.

Example quit_ends_main :
  result (main plain_lib 3 "llama3.2"
            (steady (healthy ["count"; "Type"] [[DbStr "count"; DbStr "int"]] 0) (says "OK"))
            (start [Line "  "; Line "QUIT"]))
  = Returned Exited.
Proof. reflexivity. Qed.

(** ** Runs *)

Lemma result_after {A} tr (r : run A) : result (after tr r) = result r.
Proof. now destruct r. Qed.

Lemma trace_after {A} tr (r : run A) : trace (after tr r) = (tr ++ trace r)%list.
Proof. now destruct r. Qed.

Lemma final_after {A} tr (r : run A) : final (after tr r) = final r.
Proof. now destruct r. Qed.

Lemma after_nil {A} (r : run A) : after [] r = r.
Proof. now destruct r. Qed.


Lemma bind_returned {A B} (m : M A) (f : A -> M B) st a :
  result (m st) = Returned a ->
  bind m f st = after (trace (m st)) (f a (final (m st))).
Proof. unfold bind. destruct (m st) as [[x | e] tr st']; cbn; congruence. Qed.

Lemma bind_raised {A B} (m : M A) (f : A -> M B) st e :
  result (m st) = Raised e ->
  bind m f st = Run (Raised e) (trace (m st)) (final (m st)).
Proof. unfold bind. destruct (m st) as [[x | e'] tr st']; cbn; congruence. Qed.

Lemma try_except_returned {A} (m : M A) h st a :
  result (m st) = Returned a -> try_except m h st = m st.
Proof. unfold try_except. destruct (m st) as [[x | e] tr st']; cbn; congruence. Qed.

Lemma try_except_raised {A} (m : M A) h st e :
  result (m st) = Raised e ->
  try_except m h st
  = match h e with
    | Some k => after (trace (m st)) (k (final (m st)))
    | None => m st
    end.
Proof.
  unfold try_except. destruct (m st) as [[x | e'] tr st']; cbn; try congruence.
  intro H. inversion H; subst. reflexivity.
Qed.

Lemma bind_print {B} text (f : unit -> M B) st :
  bind (print text) f st = after [EvPrint text] (f tt st).
Proof. reflexivity. Qed.

(** ** execute_sql *)

Lemma execute_sql_raises_no_driver_error L w sql params st m :
  result (execute_sql L w sql params st) <> Raised (MySQLError m).
Proof.
  run_unfold; cbn.
  repeat (split_match; try discriminate).
Qed.

Lemma exn_of_is_Exception f : is_Exception (exn_of f) = true.
Proof. destruct f; reflexivity. Qed.

Lemma execute_sql_raises_exception L w sql params st e :
  result (execute_sql L w sql params st) = Raised e -> is_Exception e = true.
Proof.
  run_unfold; cbn.
  repeat (split_match; try discriminate);
    intro H; inversion H; subst;
    repeat match goal with
           | H : exn_of _ = _ |- _ => rewrite <- H
           | H : Raised _ = Raised _ |- _ => inversion H; clear H; subst
           end;
    try apply exn_of_is_Exception; try reflexivity.
Qed.

(** C5.  Whatever the statement and the parameters, no error of the
    driver's class leaves [execute_sql]; and when the calls end with the
    driver's error [m] in flight, the call returns the Error variant
    carrying [m]. *)
Theorem execute_sql_catches_driver_errors L w sql params st :
  (forall m, result (execute_sql L w sql params st) <> Raised (MySQLError m)) /\
  (forall m,
      driver_error L (db w (tick st)) sql (args_of params) m ->
      result (execute_sql L w sql params st) = Returned (Error m)).
Proof.
  split.
  - intro m. apply execute_sql_raises_no_driver_error.
  - intros m H. unfold args_of in H.
    destruct H; subst; run_unfold; cbn;
      repeat match goal with
             | H : ?x = _ |- context [?x] => rewrite H; cbn
             end; try reflexivity.
    all: repeat (split_match; try discriminate; try reflexivity).
Qed.

Lemma execute_sql_catches_driver_errors_witness :
  driver_error plain_lib (db (steady (failing (DriverError "syntax error")) (Reply 200 "")) 0)
               (VStr "DELETE FROM") (args_of None) "syntax error" /\
  result (execute_sql plain_lib (steady (failing (DriverError "syntax error")) (Reply 200 ""))
            (VStr "DELETE FROM") None (start []))
  = Returned (Error "syntax error").
Proof.
  assert (H : driver_error plain_lib
                (db (steady (failing (DriverError "syntax error")) (Reply 200 "")) 0)
                (VStr "DELETE FROM") (args_of None) "syntax error")
    by (apply at_execute; reflexivity).
  split; [exact H |].
  exact (proj2 (execute_sql_catches_driver_errors plain_lib
                  (steady (failing (DriverError "syntax error")) (Reply 200 ""))
                  (VStr "DELETE FROM") None (start [])) "syntax error" H).
Defined.

(** C1.  On a connection whose calls return, a statement whose trimmed,
    upper-cased text starts with SELECT yields the Select variant with
    every fetched row as a column-to-value mapping, and the calls made
    are connect, cursor, execute, fetchall, close: no commit.  Any other
    statement is committed right after its execution and yields the
    Modify variant with the driver's row count.  Whatever the driver
    does, a SELECT is never followed by a commit. *)
Theorem execute_sql_classification L w s params st :
  let d := db w (tick st) in
  let sql := VStr s in
  let r := execute_sql L w sql params st in
  (connect d = None -> cursor d = None -> execute d sql (args_of params) = None ->
   close d = None ->
   (startswith "SELECT" (upper L (strip s)) = true ->
    forall rows, fetchall d sql = inr rows ->
      result r = Returned (Select (map (row_dict (column_names d sql)) rows)) /\
      trace r = [EvConnect; EvCursor; EvExecute sql (args_of params); EvFetchall; EvClose])
   /\
   (startswith "SELECT" (upper L (strip s)) = false ->
    commit d = None ->
      result r = Returned (Modify (rowcount d sql)) /\
      trace r = [EvConnect; EvCursor; EvExecute sql (args_of params); EvCommit; EvClose]))
  /\
  (startswith "SELECT" (upper L (strip s)) = true -> ~ In EvCommit (trace r)).
Proof.
  cbn zeta. unfold args_of. split.
  - intros Hc Hu He Hx. split.
    + intros Hs rows Hf. run_unfold; cbn.
      rewrite Hc; cbn. rewrite Hu; cbn. rewrite He; cbn. rewrite Hs; cbn.
      rewrite Hf; cbn. rewrite Hx; cbn. split; reflexivity.
    + intros Hs Hm. run_unfold; cbn.
      rewrite Hc; cbn. rewrite Hu; cbn. rewrite He; cbn. rewrite Hs; cbn.
      rewrite Hm; cbn. rewrite Hx; cbn. split; reflexivity.
  - intros Hs. run_unfold; cbn.
    repeat (split_match; try discriminate);
      cbn; intuition discriminate.
Qed.

Lemma execute_sql_classification_witness :
  result (execute_sql folding_lib (steady (healthy ["id"; "name"] [[DbInt 1; DbStr "Ann"]] 0)
                                (Reply 200 ""))
            (VStr (nbsp ++ long_s ++ "elect * from employees")) None (start []))
  = Returned (Select [[("id", DbInt 1); ("name", DbStr "Ann")]])
  /\
  result (execute_sql plain_lib (steady (healthy [] [] 2) (Reply 200 ""))
            (VStr "UPDATE employees SET salary = 1") None (start []))
  = Returned (Modify 2).
Proof.
  split.
  - exact (proj1 (proj1 (proj1 (execute_sql_classification folding_lib
        (steady (healthy ["id"; "name"] [[DbInt 1; DbStr "Ann"]] 0) (Reply 200 ""))
        (nbsp ++ long_s ++ "elect * from employees") None (start []))
        eq_refl eq_refl eq_refl eq_refl) eq_refl _ eq_refl)).
  - exact (proj1 (proj2 (proj1 (execute_sql_classification plain_lib
        (steady (healthy [] [] 2) (Reply 200 ""))
        "UPDATE employees SET salary = 1" None (start []))
        eq_refl eq_refl eq_refl eq_refl) eq_refl eq_refl)).
Defined.

(** ** fetch_employees_by_department *)

(** C9.  When the connection attempt itself raises the driver's error,
    the name [conn] is never bound: the [finally] block raises
    UnboundLocalError, and that is what the caller gets instead of the
    "MySQL Error: ..." text. *)
Theorem fetch_connect_error_raises w dept st m :
  connect (db w (tick st)) = Some (DriverError m) ->
  result (fetch_employees_by_department w dept st) = Raised unbound_conn /\
  result (fetch_employees_by_department w dept st)
    <> Returned (FetchMessage ("MySQL Error: " ++ m)) /\
  trace (fetch_employees_by_department w dept st) = [EvConnect].
Proof.
  intro H. unfold fetch_employees_by_department.
  run_unfold; cbn. rewrite H; cbn.
  repeat split; try reflexivity; discriminate.
Qed.

Lemma fetch_connect_error_raises_witness :
  result (fetch_employees_by_department
            (steady (refusing "Can't connect to MySQL server") (Reply 200 ""))
            "IT" (start []))
  = Raised unbound_conn.
Proof.
  exact (proj1 (fetch_connect_error_raises
                  (steady (refusing "Can't connect to MySQL server") (Reply 200 ""))
                  "IT" (start []) eq_refl)).
Defined.

(** ** The result formatter *)

Lemma append_empty_r (s : string) : s ++ "" = s.
Proof. induction s; cbn; congruence. Qed.

Lemma append_assoc (a b c : string) : (a ++ b) ++ c = a ++ (b ++ c).
Proof. induction a; cbn; congruence. Qed.

Lemma concat_empty_cons (x : string) (l : list string) :
  String.concat "" (x :: l) = x ++ String.concat "" l.
Proof. destruct l; cbn; [now rewrite append_empty_r | reflexivity]. Qed.

Lemma format_rows_enumerates (data : list row) (i : nat) :
  format_rows i data
  = String.concat "" (map numbered (combine (seq i (List.length data)) data)).
Proof.
  revert i. induction data as [|r data IH]; intro i.
  - reflexivity.
  - cbn [format_rows List.length seq combine map].
    rewrite concat_empty_cons, IH. unfold numbered, row_line; cbn [fst snd].
    now rewrite !append_assoc.
Qed.

(** C7.  What the formatter prints is a function of the execution result
    and the action.  No row: the fixed "no records" text.  N rows: a
    header with the count, a rule, then the rows numbered from 1, each
    as its column: value pairs joined by " | ".  A positive row count:
    a success line with the count and the lower-cased action.  A row
    count of 0: the "no rows affected" warning, which is neither the
    success line nor a database error. *)
Theorem result_formatter L (action : string) :
  render L action (Select []) = "📋 No records found" /\
  (forall data, data <> [] ->
     render L action (Select data)
     = "📋 Found " ++ of_nat (List.length data) ++ " record(s):" ++ nl
       ++ repeat_str "-" 50 ++ nl
       ++ String.concat "" (map numbered (combine (seq 1 (List.length data)) data))) /\
  (forall n, (n > 0)%Z ->
     render L action (Modify n)
     = "✅ " ++ of_Z n ++ " record(s) " ++ lower L action ++ "d.") /\
  render L action (Modify 0) = "⚠️ No rows affected" /\
  (forall n, n <> 0%Z -> render L action (Modify 0) <> render L action (Modify n)) /\
  (forall m, render L action (Modify 0) <> render L action (Error m)).
Proof.
  repeat split.
  - intros data H. destruct data as [|r data]; [congruence |].
    unfold render, _format_select_results.
    now rewrite format_rows_enumerates.
  - intros n H. unfold render.
    destruct (Z.eqb_spec n 0); [lia | reflexivity].
  - intros n H. unfold render.
    destruct (Z.eqb_spec n 0); [congruence |]. cbn. discriminate.
  - intros m. cbn. discriminate.
Qed.

Lemma result_formatter_witness :
  render plain_lib "UPDATE" (Modify 3) = "✅ 3 record(s) updated." /\
  render plain_lib "SELECT" (Select [[("id", DbInt 7); ("name", DbStr "Ann")]; [("id", DbInt 9)]])
  = "📋 Found 2 record(s):" ++ nl ++ repeat_str "-" 50 ++ nl
    ++ "1. id: 7 | name: Ann" ++ nl ++ "2. id: 9" ++ nl.
Proof.
  split.
  - exact (proj1 (proj2 (proj2 (result_formatter plain_lib "UPDATE"))) 3%Z eq_refl).
  - refine (eq_trans
      (proj1 (proj2 (result_formatter plain_lib "SELECT"))
         [[("id", DbInt 7); ("name", DbStr "Ann")]; [("id", DbInt 9)]] _) eq_refl).
    discriminate.
Defined.

(** ** The insert collector *)

Lemma blank_dec v : {blank v} + {~ blank v}.
Proof. unfold blank. apply string_dec. Qed.

Lemma eqb_blank v : String.eqb (strip v) "" = true <-> blank v.
Proof. unfold blank. apply String.eqb_eq. Qed.

(** One turn of the loop, on the line [s]. *)
Lemma collect_fields_line f fields data s rest t :
  collect_fields (f :: fields) data {| stdin := Line s :: rest; tick := t |}
  = after [EvInput ("Enter " ++ f ++ ": ")]
      (if String.eqb (strip s) ""
       then Run (Returned (inl "❌ All fields are required")) []
                {| stdin := rest; tick := t |}
       else collect_fields fields (dict_set f (strip s) data)
                {| stdin := rest; tick := t |}).
Proof.
  cbn [collect_fields]. unfold bind at 1, input. cbn [stdin tick].
  destruct (String.eqb (strip s) ""); reflexivity.
Qed.

(** A turn that does not get a line ends the loop with an exception. *)
Lemma collect_fields_no_line f fields data st :
  (forall s rest, stdin st <> Line s :: rest) ->
  exists e,
    collect_fields (f :: fields) data st
    = Run (Raised e) [EvInput ("Enter " ++ f ++ ": ")]
          {| stdin := tl (stdin st); tick := tick st |}
    /\ e <> JSONDecodeError.
Proof.
  intro H. cbn [collect_fields]. unfold bind at 1, input.
  destruct st as [inp t]; cbn [stdin tick] in *.
  destruct inp as [|[s| |] rest]; cbn.
  - eexists; split; [reflexivity | discriminate].
  - exfalso. eapply H; eauto.
  - eexists; split; [reflexivity | discriminate].
  - eexists; split; [reflexivity | discriminate].
Qed.

Lemma collect_fields_step f fields data st :
  (exists s rest,
     stdin st = Line s :: rest /\
     collect_fields (f :: fields) data st
     = after [EvInput ("Enter " ++ f ++ ": ")]
         (if String.eqb (strip s) ""
          then Run (Returned (inl "❌ All fields are required")) []
                   {| stdin := rest; tick := tick st |}
          else collect_fields fields (dict_set f (strip s) data)
                   {| stdin := rest; tick := tick st |}))
  \/
  (exists e st',
     collect_fields (f :: fields) data st
     = Run (Raised e) [EvInput ("Enter " ++ f ++ ": ")] st'
     /\ e <> JSONDecodeError).
Proof.
  destruct st as [inp t]. destruct inp as [|[s| |] rest].
  2: { left. exists s, rest. split; [reflexivity | apply collect_fields_line]. }
  all: right;
    match goal with
    | |- context [collect_fields _ _ ?st] =>
        destruct (@collect_fields_no_line f fields data st) as (e & He & Hne);
        [cbn; congruence | exists e; eexists; split; [exact He | exact Hne]]
    end.
Qed.

Lemma collect_fields_prompts fields : forall data st,
  Forall is_prompt (trace (collect_fields fields data st)).
Proof.
  induction fields as [|f fields IH]; intros data st.
  - constructor.
  - destruct (collect_fields_step f fields data st)
      as [(s & rest & _ & ->) | (e & st' & -> & _)].
    + rewrite trace_after. constructor; [exact I |].
      destruct (String.eqb (strip s) ""); [constructor | apply IH].
    + cbn. repeat constructor.
Qed.

Lemma collect_fields_all fields : forall vals data rest t,
  List.length vals = List.length fields ->
  Forall (fun v => ~ blank v) vals ->
  collect_fields fields data {| stdin := map Line vals ++ rest; tick := t |}
  = Run (Returned (inr (fill fields vals data))) (prompts fields)
        {| stdin := rest; tick := t |}.
Proof.
  induction fields as [|f fields IH]; intros vals data rest t Hlen Hall.
  - destruct vals; [reflexivity | discriminate].
  - destruct vals as [|v vals]; [discriminate |].
    inversion Hall as [|? ? Hv Hvs]; subst.
    cbn [map app]. rewrite collect_fields_line.
    destruct (String.eqb (strip v) "") eqn:E.
    + apply eqb_blank in E. contradiction.
    + rewrite (IH vals (dict_set f (strip v) data) rest t); auto.
Qed.

Lemma collect_fields_blank fields : forall pre v post data rest t,
  List.length pre < List.length fields ->
  Forall (fun v => ~ blank v) pre ->
  blank v ->
  collect_fields fields data {| stdin := map Line (pre ++ v :: post) ++ rest; tick := t |}
  = Run (Returned (inl "❌ All fields are required"))
        (prompts (firstn (S (List.length pre)) fields))
        {| stdin := map Line post ++ rest; tick := t |}.
Proof.
  induction fields as [|f fields IH]; intros pre v post data rest t Hlen Hall Hv.
  - cbn in Hlen. lia.
  - destruct pre as [|p pre]; cbn [map app]; rewrite collect_fields_line.
    + apply eqb_blank in Hv. rewrite Hv. reflexivity.
    + inversion Hall as [|? ? Hp Hps]; subst.
      destruct (String.eqb (strip p) "") eqn:E.
      * apply eqb_blank in E. contradiction.
      * cbn in Hlen.
        rewrite (IH pre v post (dict_set f (strip p) data) rest t); auto. lia.
Qed.

Lemma collect_fields_filled fields : forall data st d,
  result (collect_fields fields data st) = Returned (inr d) ->
  exists vals rest,
    stdin st = (map Line vals ++ rest)%list /\
    List.length vals = List.length fields /\
    Forall (fun v => ~ blank v) vals /\
    d = fill fields vals data /\
    final (collect_fields fields data st) = {| stdin := rest; tick := tick st |} /\
    trace (collect_fields fields data st) = prompts fields.
Proof.
  induction fields as [|f fields IH]; intros data st d H.
  - cbn in H. inversion H; subst. exists [], (stdin st). destruct st; cbn.
    repeat split; auto.
  - destruct (collect_fields_step f fields data st)
      as [(s & rest & Hs & Hrun) | (e & st' & Hrun & _)];
      rewrite Hrun in *; [| discriminate].
    rewrite result_after in H. rewrite final_after, trace_after.
    destruct (String.eqb (strip s) "") eqn:E; [discriminate |].
    destruct (IH _ _ _ H) as (vals & rest' & Hst & Hlen & Hall & Hd & Hfin & Htr).
    cbn in Hst, Hfin. subst rest.
    exists (s :: vals), rest'. cbn. repeat split; auto.
    + constructor; auto. intro Hb. apply eqb_blank in Hb. congruence.
    + rewrite Htr. reflexivity.
Qed.

Lemma collect_fields_early fields : forall data st m,
  result (collect_fields fields data st) = Returned (inl m) ->
  m = "❌ All fields are required".
Proof.
  induction fields as [|f fields IH]; intros data st m H.
  - discriminate.
  - destruct (collect_fields_step f fields data st)
      as [(s & rest & _ & Hrun) | (e & st' & Hrun & _)];
      rewrite Hrun in H; [| discriminate].
    rewrite result_after in H.
    destruct (String.eqb (strip s) ""); [now inversion H | eapply IH; eauto].
Qed.

Lemma collect_fields_no_decode_error fields : forall data st,
  result (collect_fields fields data st) <> Raised JSONDecodeError.
Proof.
  induction fields as [|f fields IH]; intros data st.
  - discriminate.
  - destruct (collect_fields_step f fields data st)
      as [(s & rest & _ & ->) | (e & st' & -> & Hne)].
    + rewrite result_after.
      destruct (String.eqb (strip s) ""); [discriminate | apply IH].
    + cbn. congruence.
Qed.

Lemma first_blank vals :
  Exists blank vals ->
  exists pre v post,
    vals = (pre ++ v :: post)%list /\ Forall (fun v => ~ blank v) pre /\ blank v.
Proof.
  induction vals as [|x vals IH]; intro H.
  - inversion H.
  - destruct (blank_dec x) as [Hx | Hx].
    + exists [], x, vals. repeat split; auto.
    + inversion H; subst; [contradiction |].
      destruct IH as (pre & v & post & -> & Hpre & Hv); auto.
      exists (x :: pre), v, post. repeat split; auto.
Qed.

Lemma dict_set_fresh (k v : string) (d : dict string) :
  ~ In k (keys d) -> dict_set k v d = (d ++ [(k, v)])%list.
Proof.
  induction d as [|[k' v'] d IH]; intro H; cbn.
  - reflexivity.
  - destruct (String.eqb_spec k k') as [-> | Hne].
    + exfalso. apply H. now left.
    + rewrite IH; [reflexivity |]. intro Hin. apply H. now right.
Qed.

Lemma fill_distinct fields : forall vals data,
  NoDup fields ->
  List.length vals = List.length fields ->
  (forall f, In f fields -> ~ In f (keys data)) ->
  fill fields vals data = (data ++ combine fields (map strip vals))%list.
Proof.
  unfold fill.
  induction fields as [|f fields IH]; intros vals data Hnd Hlen Hfresh.
  - cbn. now rewrite app_nil_r.
  - destruct vals as [|v vals]; [discriminate |].
    inversion Hnd as [|? ? Hf Hnd']; subst. cbn.
    rewrite dict_set_fresh by (apply Hfresh; now left).
    rewrite IH; auto.
    + now rewrite <- app_assoc.
    + intros g Hg Hin. unfold keys in Hin. rewrite map_app, in_app_iff in Hin.
      destruct Hin as [Hin | [<- | []]].
      * apply (Hfresh g); [now right | exact Hin].
      * contradiction.
Qed.

Lemma keys_combine (fields vals : list string) :
  List.length vals = List.length fields -> keys (combine fields vals) = fields.
Proof.
  revert vals. induction fields as [|f fields IH]; intros [|v vals] H;
    try discriminate; cbn; [reflexivity |]. f_equal. apply IH. now inversion H.
Qed.

Lemma values_combine (fields vals : list string) :
  List.length vals = List.length fields -> values (combine fields vals) = vals.
Proof.
  revert vals. induction fields as [|f fields IH]; intros [|v vals] H;
    try discriminate; cbn; [reflexivity |]. f_equal. apply IH. now inversion H.
Qed.

(** The only statement a call of [execute_sql] sends is its own. *)
(** *** Assignment to a key that may be present *)











Lemma execute_sql_no_decode_error L w sql params st :
  result (execute_sql L w sql params st) <> Raised JSONDecodeError.
Proof.
  run_unfold; cbn.
  repeat (split_match; try discriminate);
    repeat match goal with
           | f : fault |- _ => destruct f; cbn in *
           end; try discriminate.
  all: destruct sql; cbn in *; discriminate.
Qed.

Lemma collect_unfold L a w st :
  _collect_data_for_insert L a w st
  = after [banner]
      (try_except
         (r <- collect_fields (insertable (schema a)) [] ;;
          match r with
          | inl message => ret message
          | inr data =>
              res <- execute_sql L w (VStr (insert_statement data)) (Some (values data)) ;;
              match res with
              | Error message => ret ("❌ Insert failed: " ++ message)
              | _ =>
                  let name :=
                    match dict_get "name" data with Some x => x | None => "" end in
                  ret ("✅ Employee " ++ name ++ " added!")
              end
          end)
         (fun e =>
            match e with
            | KeyboardInterrupt => Some (ret "❌ Insert cancelled")
            | _ => None
            end) st).
Proof. reflexivity. Qed.

(** A run whose loop ends early, by a return or by an exception, makes
    no driver call. *)
Lemma collect_run_early L a w st :
  (forall d, result (collect_fields (insertable (schema a)) [] st) <> Returned (inr d)) ->
  _collect_data_for_insert L a w st
  = Run (early_answer (result (collect_fields (insertable (schema a)) [] st)))
        (banner :: trace (collect_fields (insertable (schema a)) [] st))
        (final (collect_fields (insertable (schema a)) [] st)).
Proof.
  intro H. rewrite collect_unfold. unfold try_except, bind.
  destruct (collect_fields (insertable (schema a)) [] st) as [[[m | d] | e] tr st'];
    cbn in *.
  - now rewrite app_nil_r.
  - exfalso. now apply (H d).
  - destruct e; cbn; now rewrite ?app_nil_r.
Qed.

(** A run whose loop fills the dictionary [d] sends one INSERT. *)
Lemma collect_run_filled L a w st d tr st' :
  collect_fields (insertable (schema a)) [] st = Run (Returned (inr d)) tr st' ->
  let r := execute_sql L w (VStr (insert_statement d)) (Some (values d)) st' in
  _collect_data_for_insert L a w st
  = Run (insert_answer d (result r)) (banner :: tr ++ trace r)%list (final r).
Proof.
  intros H r. rewrite collect_unfold. unfold try_except, bind at 1. rewrite H.
  unfold bind. fold r.
  pose proof (@execute_sql_raises_exception L w (VStr (insert_statement d))
                (Some (values d)) st') as Hx. fold r in Hx.
  destruct r as [[[rows | n | m] | e] tr2 st2]; cbn in *;
    rewrite ?app_nil_r; try reflexivity.
  specialize (Hx e eq_refl). destruct e; try discriminate; reflexivity.
Qed.

(** A run that sends a statement has filled its dictionary. *)
Lemma collect_sends_filled L a w st sql params :
  In (EvExecute sql params) (trace (_collect_data_for_insert L a w st)) ->
  exists d, result (collect_fields (insertable (schema a)) [] st) = Returned (inr d).
Proof.
  intro Hin.
  destruct (result (collect_fields (insertable (schema a)) [] st))
    as [[m | d] | e] eqn:E; [| now exists d |]; exfalso.
  all: rewrite collect_run_early in Hin by (intro d; rewrite E; discriminate).
  all: cbn [trace] in Hin; destruct Hin as [Hin | Hin]; [discriminate |].
  all: pose proof (collect_fields_prompts (insertable (schema a)) [] st) as Hall.
  all: rewrite Forall_forall in Hall; exact (Hall _ Hin).
Qed.

(** C3.  Whatever the schema and whatever the user types: when one of
    the values typed for the fields (at most one per field) is empty
    once trimmed, the collector answers with the validation failure and
    its trace holds the banner and prompts only, no call of the driver,
    so no INSERT, partial or defaulted, is issued; and an INSERT is sent
    only in a run where every insertable field got a non-empty value. *)
Theorem insert_collector_requires_all_fields L a w st :
  (forall vals rest,
      stdin st = (map Line vals ++ rest)%list ->
      List.length vals <= List.length (insertable (schema a)) ->
      Exists blank vals ->
      result (_collect_data_for_insert L a w st) = Returned "❌ All fields are required" /\
      Forall (fun ev => ~ driver_call ev) (trace (_collect_data_for_insert L a w st))) /\
  (forall sql params,
      In (EvExecute sql params) (trace (_collect_data_for_insert L a w st)) ->
      exists vals rest,
        stdin st = (map Line vals ++ rest)%list /\
        List.length vals = List.length (insertable (schema a)) /\
        Forall (fun v => ~ blank v) vals).
Proof.
  split.
  - intros vals rest Hst Hlen Hex.
    destruct (first_blank Hex) as (pre & v & post & -> & Hpre & Hv).
    assert (Hlt : List.length pre < List.length (insertable (schema a))).
    { rewrite length_app in Hlen. cbn in Hlen. lia. }
    destruct st as [inp t]; cbn in Hst; subst inp.
    pose proof (@collect_fields_blank (insertable (schema a)) pre v post [] rest t
                  Hlt Hpre Hv) as Hrun.
    rewrite collect_run_early by (intro d; rewrite Hrun; discriminate).
    rewrite Hrun. cbn [result trace early_answer]. split; [reflexivity |].
    constructor; [cbn; tauto |].
    unfold prompts. apply Forall_forall. intros ev Hev.
    apply in_map_iff in Hev. destruct Hev as (f & <- & _). cbn. tauto.
  - intros sql params Hin.
    destruct (collect_sends_filled _ _ _ _ _ _ Hin) as [d Hd].
    destruct (collect_fields_filled _ _ _ Hd) as (vals & rest & ? & ? & ? & _).
    exists vals, rest. auto.
Qed.

Lemma insert_collector_requires_all_fields_witness :
  Exists blank ["Ann"; "IT"; nbsp ++ wide_space] /\
  result (_collect_data_for_insert plain_lib agent0
            (steady (healthy [] [] 1) (Reply 200 ""))
            (start [Line "Ann"; Line "IT"; Line (nbsp ++ wide_space)]))
  = Returned "❌ All fields are required".
Proof.
  assert (H : Exists blank ["Ann"; "IT"; nbsp ++ wide_space]).
  { apply Exists_cons_tl, Exists_cons_tl, Exists_cons_hd. reflexivity. }
  split; [exact H |].
  exact (proj1 (proj1 (insert_collector_requires_all_fields plain_lib agent0
                  (steady (healthy [] [] 1) (Reply 200 ""))
                  (start [Line "Ann"; Line "IT"; Line (nbsp ++ wide_space)]))
                 ["Ann"; "IT"; nbsp ++ wide_space] [] eq_refl (le_n 3) H)).
Defined.




(** ** The model client *)

Lemma ask_llm_reply L a w prompt st status body :
  llm w (tick st) (llm_model a) prompt = Reply status body ->
  result (ask_llm L a w prompt st) = Returned (reply_text L body).
Proof.
  intro H. unfold ask_llm, reply_text, Json.loads. run_unfold; cbn. rewrite H; cbn.
  destruct (Json.decode L body) as [v | | c m]; cbn; try reflexivity.
  destruct v; cbn; try reflexivity.
  destruct (dict_get "response" d) as [x|]; cbn; [| reflexivity].
  destruct x; reflexivity.
Qed.

Lemma ask_llm_unreachable L a w prompt st cls msg :
  llm w (tick st) (llm_model a) prompt = Unreachable cls msg ->
  result (ask_llm L a w prompt st) = Returned "".
Proof.
  intro H. unfold ask_llm. run_unfold; cbn. rewrite H; cbn. reflexivity.
Qed.

Lemma ask_llm_returns L a w prompt st :
  exists s, result (ask_llm L a w prompt st) = Returned s.
Proof.
  destruct (llm w (tick st) (llm_model a) prompt) as [c m | status body] eqn:E.
  - exists "". eapply ask_llm_unreachable; eauto.
  - exists (reply_text L body). eapply ask_llm_reply; eauto.
Qed.

Lemma ask_llm_final L a w prompt st :
  final (ask_llm L a w prompt st) = ticked st.
Proof.
  unfold ask_llm, ticked. run_unfold; cbn.
  repeat (split_match; try discriminate); reflexivity.
Qed.


(** C6, at the failing input.  [ask_llm] never looks at the status of
    the response: a reply with status 500 whose body is a JSON object
    with a 'response' comes back as that text, not as the empty
    string. *)
Theorem ask_llm_ignores_status :
  let body := "{" ++ q "response" ++ ": " ++ q "partial answer" ++ "}" in
  let w := steady (healthy [] [] 0) (Reply 500 body) in
  result (ask_llm plain_lib agent0 w "Reply with only OK" (start []))
  = Returned "partial answer"
  /\
  result (ask_llm plain_lib agent0 w "Reply with only OK" (start [])) <> Returned "".
Proof. split; [reflexivity | vm_compute; discriminate]. Qed.

(** ** The startup self-test *)

Lemma execute_sql_quiet L w sql params st :
  Forall (fun ev => ~ is_post ev /\ ~ is_prompt ev) (trace (execute_sql L w sql params st)).
Proof.
  run_unfold; cbn.
  repeat (split_match; try discriminate); repeat constructor; cbn; tauto.
Qed.

Lemma test_connections_db_failed L a w st :
  read_failed (result (execute_sql L w count_statement None st)) ->
  result (test_connections L a w st) = Returned false /\
  Forall (fun ev => ~ is_post ev /\ ~ is_prompt ev) (trace (test_connections L a w st)).
Proof.
  intro H. unfold test_connections. fold count_statement. comb_unfold.
  pose proof (execute_sql_quiet L w count_statement None st) as Hp.
  pose proof (@execute_sql_raises_exception L w count_statement None st) as Hx.
  destruct (execute_sql L w count_statement None st) as [[res | e] tr st'];
    cbn in *.
  - destruct H as [[m Hm] | [e He]]; [inversion Hm; subst | discriminate]. cbn.
    split; [reflexivity |]. constructor; [cbn; tauto |].
    rewrite app_nil_r. apply Forall_app; split; [exact Hp |].
    repeat constructor; cbn; tauto.
  - rewrite (Hx e eq_refl). cbn. split; [reflexivity |].
    constructor; [cbn; tauto |]. rewrite app_nil_r.
    apply Forall_app; split; [exact Hp |]. repeat constructor; cbn; tauto.
Qed.

Lemma test_connections_db_ok L a w st first rest c :
  result (execute_sql L w count_statement None st) = Returned (Select (first :: rest)) ->
  dict_get "count" first = Some c ->
  let st1 := final (execute_sql L w count_statement None st) in
  let r2 := ask_llm L a w "Reply with only OK" st1 in
  result (test_connections L a w st) = Returned true /\
  (forall reply, result r2 = Returned reply ->
     contains "OK" (upper L reply) = false ->
     In llm_warning (trace (test_connections L a w st))).
Proof.
  intros H Hc st1 r2. subst r2 st1.
  unfold test_connections. fold count_statement. comb_unfold.
  destruct (execute_sql L w count_statement None st) as [res tr st'];
    cbn in *. subst res. cbn. rewrite Hc. cbn.
  destruct (ask_llm_returns L a w "Reply with only OK" st') as [s Hs].
  destruct (ask_llm L a w "Reply with only OK" st') as [res2 tr2 st2]; cbn in *.
  subst res2. cbn.
  destruct (contains "OK" (upper L s)) eqn:Eok; cbn.
  - split; [reflexivity |]. intros reply Hr. inversion Hr; subst. congruence.
  - split; [reflexivity |]. intros reply Hr _. right.
    rewrite !in_app_iff. cbn. unfold llm_warning. tauto.
Qed.

Lemma describe_rows_pure cols st :
  trace (describe_rows cols st) = [] /\ final (describe_rows cols st) = st.
Proof.
  induction cols as [|c cols IH].
  - split; reflexivity.
  - destruct IH as [Ht Hf].
    destruct c as [|name [|ty c]]; try (split; reflexivity).
    change (describe_rows ((name :: ty :: c) :: cols))
      with (xs <- describe_rows cols ;; ret ((name, ty) :: xs)).
    unfold bind, after.
    destruct (describe_rows cols st) as [[xs | e] tr st']; cbn in *; subst;
      split; reflexivity.
Qed.

Lemma str_items_pure items : forall i st,
  trace (str_items i items st) = [] /\ final (str_items i items st) = st.
Proof.
  induction items as [|v items IH]; intros i st.
  - split; reflexivity.
  - destruct v; try (split; reflexivity).
    change (str_items i (DbStr s :: items))
      with (xs <- str_items (S i) items ;; ret (s :: xs)).
    unfold bind, after. destruct (IH (S i) st) as [Ht Hf].
    destruct (str_items (S i) items st) as [[xs | e] tr st']; cbn in *; subst;
      split; reflexivity.
Qed.

Lemma get_table_info_quiet w st :
  Forall (fun ev => ~ is_prompt ev) (trace (_get_table_info w st)).
Proof.
  unfold _get_table_info, with_connection, next_tick. comb_unfold; cbn.
  repeat (split_match; try discriminate);
    repeat match goal with
           | H : describe_rows ?c ?s = _ |- _ =>
               let P := fresh in
               pose proof (describe_rows_pure c s) as [P _];
               rewrite H in P; cbn in P; subst; clear H
           | H : str_items ?i ?c ?s = _ |- _ =>
               let P := fresh in
               pose proof (str_items_pure c i s) as [P _];
               rewrite H in P; cbn in P; subst; clear H
           end;
    cbn [app]; repeat constructor; cbn; tauto.
Qed.

Lemma main_stops_on_failed_test L fuel model w st sch :
  let r0 := _get_table_info w st in
  result r0 = Returned sch ->
  let rt := test_connections L {| llm_model := model; schema := sch |} w (final r0) in
  result rt = Returned false ->
  main L fuel model w st
  = Run (Returned Exited)
        ([EvPrint "🤖 Dynamic MCP Database Agent"; EvPrint (repeat_str "=" 40)]
           ++ trace r0 ++ trace rt ++ [startup_failure])%list
        (final rt).
Proof.
  intros r0 H0 rt Ht. unfold main. rewrite !bind_print.
  rewrite (bind_returned _ _ _ H0). fold r0.
  rewrite (bind_returned _ _ _ Ht). fold rt. cbn [negb].
  rewrite bind_print. cbn.
  destruct r0 as [x0 tr0 st0], rt as [xt trt stt]; cbn.
  reflexivity.
Qed.

(** C8.  [test_connections] answers False whenever the COUNT read comes
    back as an error or raises, before the model is even asked; and then
    [main] prints the failure and returns without a single prompt, so
    the interactive loop never starts.  When the read succeeds the
    answer is True whatever the model does: an unreachable model, or a
    reply that has no OK in it once upper-cased, costs one warning line
    and nothing else. *)
Theorem self_test_gates_startup L a w st :
  (read_failed (result (execute_sql L w count_statement None st)) ->
   result (test_connections L a w st) = Returned false /\
   Forall (fun ev => ~ is_post ev) (trace (test_connections L a w st)))
  /\
  (forall first rest c,
     result (execute_sql L w count_statement None st) = Returned (Select (first :: rest)) ->
     dict_get "count" first = Some c ->
     let st1 := final (execute_sql L w count_statement None st) in
     result (test_connections L a w st) = Returned true /\
     (forall reply,
        result (ask_llm L a w "Reply with only OK" st1) = Returned reply ->
        contains "OK" (upper L reply) = false ->
        In llm_warning (trace (test_connections L a w st))) /\
     (forall cls msg,
        llm w (tick st1) (llm_model a) "Reply with only OK" = Unreachable cls msg ->
        In llm_warning (trace (test_connections L a w st))))
  /\
  (forall fuel model sch,
     result (_get_table_info w st) = Returned sch ->
     read_failed (result (execute_sql L w count_statement None
                            (final (_get_table_info w st)))) ->
     result (main L fuel model w st) = Returned Exited /\
     Forall (fun ev => ~ is_prompt ev) (trace (main L fuel model w st)) /\
     In startup_failure (trace (main L fuel model w st))).
Proof.
  split; [| split].
  - intro Hfail.
    destruct (test_connections_db_failed L a w st Hfail) as [Hf Hall].
    split; [exact Hf |].
    eapply Forall_impl; [| exact Hall]. cbn. tauto.
  - intros first rest c Hsel Hcount st1.
    destruct (test_connections_db_ok L a w st Hsel Hcount) as [Ht Hw].
    split; [exact Ht | split; [exact Hw |]].
    intros cls msg Hu. apply (Hw "").
    + eapply ask_llm_unreachable. exact Hu.
    + reflexivity.
  - intros fuel model sch Hsch Hfail.
    destruct (test_connections_db_failed L {| llm_model := model; schema := sch |} w _ Hfail)
      as [Hf Hall].
    rewrite (main_stops_on_failed_test L fuel model w st Hsch Hf). cbn [result trace].
    split; [reflexivity | split].
    + repeat constructor; try (cbn; tauto).
      apply Forall_app; split; [apply get_table_info_quiet |].
      apply Forall_app; split.
      * eapply Forall_impl; [| exact Hall]. cbn. tauto.
      * repeat constructor. cbn. tauto.
    + right. right. rewrite !in_app_iff. cbn. tauto.
Qed.

Lemma self_test_gates_startup_witness :
  result (test_connections plain_lib agent0 (steady (refusing "Access denied") (Unreachable "ConnectionError" "refused"))
            (start []))
  = Returned false
  /\
  result (test_connections plain_lib agent0
            (steady (healthy ["count"] [[DbInt 3]] 0) (Unreachable "ConnectionError" "refused"))
            (start []))
  = Returned true
  /\
  result (main plain_lib 5 "llama3.2" (steady describe_only (Reply 200 "")) (start [Line "list"]))
  = Returned Exited.
Proof.
  split; [| split].
  - refine (proj1 (proj1 (self_test_gates_startup plain_lib agent0
            (steady (refusing "Access denied") (Unreachable "ConnectionError" "refused"))
            (start [])) _)).
    left. exists "Access denied". reflexivity.
  - exact (proj1 (proj1 (proj2 (self_test_gates_startup plain_lib agent0
            (steady (healthy ["count"] [[DbInt 3]] 0) (Unreachable "ConnectionError" "refused"))
            (start []))) [("count", DbInt 3)] [] (DbInt 3) eq_refl eq_refl)).
  - refine (proj1 (proj2 (proj2 (self_test_gates_startup plain_lib agent0
            (steady describe_only (Reply 200 "")) (start [Line "list"])))
            5 "llama3.2"
            {| table := "employees"; columns := ["id"; "name"];
               structure := "id(int), name(varchar(100))" |} eq_refl _)).
    left. eexists. reflexivity.
Defined.

(** ** The response parser and the dispatcher *)

Lemma process_user_request_run L a w u st raw :
  result (ask_llm L a w (build_prompt (schema a) u) st) = Returned raw ->
  let r0 := ask_llm L a w (build_prompt (schema a) u) st in
  let d := dispatch L a w raw (final r0) in
  process_user_request L a w u st
  = Run (answer_of (result d)) (trace r0 ++ trace d)%list (final d).
Proof.
  intros H r0 d. unfold process_user_request.
  rewrite (bind_returned _ _ _ H). fold r0. unfold try_except. fold d.
  destruct d as [[s | e] tr st']; cbn.
  - reflexivity.
  - destruct e; cbn; rewrite ?app_nil_r; reflexivity.
Qed.

Lemma loads_value L s v : Json.loads L s = Some v -> Json.decode L s = Json.Value v.
Proof. unfold Json.loads. destruct (Json.decode L s); congruence. Qed.

Lemma loads_none L s :
  Json.loads L s = None ->
  Json.decode L s = Json.Malformed \/ exists cls msg, Json.decode L s = Json.Refused cls msg.
Proof.
  unfold Json.loads. destruct (Json.decode L s) as [v | | c m]; intro H;
    [discriminate | now left | right; eauto].
Qed.

Lemma dispatch_undecodable L a w raw st :
  Json.decode L (span raw) = Json.Malformed ->
  dispatch L a w raw st = Run (Raised JSONDecodeError) [] st.
Proof.
  intro H. unfold dispatch, json_loads. fold (span raw). rewrite H. reflexivity.
Qed.

(** The dispatcher on a text that meets a limit of the interpreter. *)
Lemma dispatch_refused L a w raw st cls msg :
  Json.decode L (span raw) = Json.Refused cls msg ->
  dispatch L a w raw st = Run (Raised (PyException cls msg)) [] st.
Proof.
  intro H. unfold dispatch, json_loads. fold (span raw). rewrite H. reflexivity.
Qed.

(** The dispatcher on a decoded object whose action is a string. *)
Lemma dispatch_object L a w raw st kvs act :
  Json.loads L (span raw) = Some (VDict kvs) ->
  field "action" kvs (VStr "") = VStr act ->
  dispatch L a w raw st
  = if String.eqb (upper L act) "HELP" then
      Run (Returned ("💡 " ++ py_str L (field "explanation" kvs VNone))) [] st
    else if truthy L (field "needs_data" kvs VNone) then
      _collect_data_for_insert L a w st
    else if truthy L (field "sql" kvs VNone) then
      rendered L (upper L act) (execute_sql L w (field "sql" kvs VNone) None st)
    else Run (Returned "❌ No SQL generated") [] st.
Proof.
  intros H Ha. unfold dispatch, json_loads, field in *. fold (span raw).
  rewrite (loads_value _ _ H).
  unfold get_method, upper_method. unfold bind at 1. cbn.
  unfold bind at 1. cbn. rewrite Ha. unfold bind at 1. cbn.
  destruct (String.eqb (upper L act) "HELP").
  - reflexivity.
  - unfold bind at 1. cbn.
    destruct (truthy L match dict_get "needs_data" kvs with Some x => x | None => VNone end).
    + now rewrite !after_nil.
    + unfold bind at 1. cbn.
      destruct (truthy L match dict_get "sql" kvs with Some x => x | None => VNone end);
        cbn; [| reflexivity].
      unfold bind, rendered. rewrite !after_nil.
      destruct (execute_sql L w _ None st) as [[res | e] tr st']; cbn;
        [now rewrite app_nil_r | reflexivity].
Qed.

(** The dispatcher on anything else the decoder can produce: a value
    that is no object, or an object whose action is no string. *)
Lemma dispatch_malformed L a w raw st v :
  Json.loads L (span raw) = Some v ->
  (forall kvs act, v = VDict kvs -> field "action" kvs (VStr "") <> VStr act) ->
  exists msg, dispatch L a w raw st = Run (Raised (PyException "AttributeError" msg)) [] st.
Proof.
  intros H Hv. unfold dispatch, json_loads. fold (span raw).
  rewrite (loads_value _ _ H).
  destruct v as [| b | z | x | s | l | kvs]; try (eexists; reflexivity).
  unfold get_method, upper_method. unfold bind at 1. cbn. unfold bind at 1. cbn.
  specialize (Hv kvs). unfold field in Hv.
  destruct (dict_get "action" kvs) as [[| b | z | x | s | l | d] |];
    try (eexists; reflexivity).
  - exfalso. now apply (Hv s).
  - exfalso. now apply (Hv "").
Qed.

Lemma collect_never_parse_failure L a w st :
  answer_of (result (_collect_data_for_insert L a w st)) <> Returned parse_failure.
Proof.
  destruct (collect_fields (insertable (schema a)) [] st) as [[[m | d] | e] tr st'] eqn:E.
  - rewrite collect_run_early by (intro d; rewrite E; discriminate).
    rewrite E. cbn.
    assert (m = "❌ All fields are required")
      by (eapply collect_fields_early; rewrite E; reflexivity).
    subst m. discriminate.
  - rewrite (collect_run_filled L a w st E). cbn [result].
    pose proof (execute_sql_no_decode_error L w (VStr (insert_statement d))
                  (Some (values d)) st') as Hn.
    destruct (result (execute_sql L w _ _ st')) as [[| |]| e]; cbn; try discriminate.
    destruct e; cbn; try discriminate. congruence.
  - rewrite collect_run_early by (intro d; rewrite E; discriminate).
    rewrite E. cbn.
    pose proof (collect_fields_no_decode_error (insertable (schema a)) [] st) as Hn.
    rewrite E in Hn. cbn in Hn.
    destruct e; cbn; try discriminate. congruence.
Qed.

Lemma render_never_parse_failure L action res : render L action res <> parse_failure.
Proof.
  destruct res as [data | n | m]; cbn.
  - destruct data; cbn; discriminate.
  - destruct (Z.eqb n 0); cbn; discriminate.
  - discriminate.
Qed.

Lemma dispatch_decoded L a w raw st v :
  Json.loads L (span raw) = Some v ->
  answer_of (result (dispatch L a w raw st)) <> Returned parse_failure.
Proof.
  intro H.
  assert (Hcases : (exists kvs act, v = VDict kvs /\ field "action" kvs (VStr "") = VStr act)
                   \/ (forall kvs act, v = VDict kvs ->
                                       field "action" kvs (VStr "") <> VStr act)).
  { destruct v as [| b | z | x | s | l | kvs]; try (right; intros; discriminate).
    destruct (field "action" kvs (VStr "")) as [| b | z | x | s | l | d] eqn:E;
      try (right; intros ? ? Hk; inversion Hk; subst; congruence).
    left. eauto. }
  destruct Hcases as [(kvs & act & -> & Ha) | Hbad].
  - rewrite (dispatch_object L a w raw st H Ha).
    destruct (String.eqb (upper L act) "HELP"); [cbn; discriminate |].
    destruct (truthy L (field "needs_data" kvs VNone));
      [apply collect_never_parse_failure |].
    destruct (truthy L (field "sql" kvs VNone)); [| cbn; discriminate].
    pose proof (execute_sql_no_decode_error L w (field "sql" kvs VNone) None st) as Hn.
    unfold rendered.
    destruct (execute_sql L w (field "sql" kvs VNone) None st) as [[res | e] tr st'];
      cbn in *.
    + intro Hc. inversion Hc. now apply (render_never_parse_failure L (upper L act) res).
    + destruct e; cbn; try discriminate. congruence.
  - destruct (dispatch_malformed L a w raw st H Hbad) as [msg ->]. cbn. discriminate.
Qed.

(** ** Slices without a brace pair *)

Lemma substring_none n s : String.substring n 0 s = "".
Proof.
  revert s. induction n as [|n IH]; intro s; destruct s; try reflexivity.
  apply IH.
Qed.

Lemma substring_empty n m : String.substring n m "" = "".
Proof. destruct n, m; reflexivity. Qed.

Lemma find_from_range c s : forall i,
  find_from c s i = (-1)%Z \/
  (i <= find_from c s i < i + Z.of_nat (String.length s))%Z.
Proof.
  induction s as [|d s IH]; intro i; cbn [find_from String.length].
  - now left.
  - destruct (Ascii.eqb c d); [right; lia |].
    destruct (IH (i + 1)%Z) as [H | H]; [now left | right; lia].
Qed.

Lemma rfind_from_range c s : forall i last,
  rfind_from c s i last = last \/
  (i <= rfind_from c s i last < i + Z.of_nat (String.length s))%Z.
Proof.
  induction s as [|d s IH]; intros i last; cbn [rfind_from String.length].
  - now left.
  - destruct (IH (i + 1)%Z (if Ascii.eqb c d then i else last)) as [H | H].
    + rewrite H. destruct (Ascii.eqb c d); [right; lia | now left].
    + right; lia.
Qed.

(** When the last index found is the last index of the text, the text
    ends with the needle. *)
Lemma rfind_from_last c s : forall i last,
  s <> "" ->
  (last < i)%Z ->
  rfind_from c s i last = (i + Z.of_nat (String.length s) - 1)%Z ->
  String.substring (String.length s - 1) 1 s = String c "".
Proof.
  induction s as [|d s IH]; intros i last Hne Hlt H; [congruence |].
  cbn [rfind_from String.length] in H.
  destruct s as [|e s].
  - cbn in H. cbn.
    destruct (Ascii.eqb_spec c d) as [-> | _]; [reflexivity | lia].
  - assert (Hs : String.substring (String.length (String e s) - 1) 1 (String e s)
                 = String c "").
    { apply (IH (i + 1)%Z (if Ascii.eqb c d then i else last)).
      - discriminate.
      - destruct (Ascii.eqb c d); lia.
      - rewrite H. lia. }
    replace (String.length (String d (String e s)) - 1)
      with (S (String.length (String e s) - 1)) by (cbn [String.length]; lia).
    exact Hs.
Qed.

Lemma span_without_pair raw :
  (find "{" raw = -1 \/ rfind "}" raw < find "{" raw)%Z ->
  span raw = "" \/ span raw = "}".
Proof.
  intro H. unfold span, slice, clamp.
  set (n := Z.of_nat (String.length raw)).
  pose proof (find_from_range "{" raw 0) as Hf. fold (find "{" raw) in Hf.
  pose proof (rfind_from_range "}" raw 0 (-1)) as Hr. fold (rfind "}" raw) in Hr.
  fold n in Hf, Hr.
  assert (Hb : (rfind "}" raw + 1 <? 0)%Z = false) by (apply Z.ltb_ge; lia).
  rewrite Hb.
  destruct (Z.eq_dec (find "{" raw) (-1)) as [E | E].
  - rewrite E. cbn [Z.ltb Z.compare].
    destruct (string_dec raw "") as [-> | Hne]; [left; apply substring_empty |].
    assert (Hn : (1 <= n)%Z).
    { subst n. destruct raw; [congruence | cbn [String.length]; lia]. }
    destruct (Z.eq_dec (rfind "}" raw) (n - 1)) as [E' | E'].
    + right.
      replace (Z.to_nat (Z.max 0 (-1 + n))) with (String.length raw - 1) by (subst n; lia).
      replace (Z.to_nat (Z.min (rfind "}" raw + 1) n - Z.max 0 (-1 + n))) with 1 by lia.
      apply (@rfind_from_last "}" raw 0 (-1)); [exact Hne | lia |].
      fold (rfind "}" raw). lia.
    + left.
      replace (Z.to_nat (Z.min (rfind "}" raw + 1) n - Z.max 0 (-1 + n))) with 0 by lia.
      apply substring_none.
  - left.
    assert (Hf0 : (find "{" raw <? 0)%Z = false) by (apply Z.ltb_ge; lia).
    rewrite Hf0.
    replace (Z.to_nat (Z.min (rfind "}" raw + 1) n - Z.min (find "{" raw) n)) with 0 by lia.
    apply substring_none.
Qed.

Lemma loads_without_pair L raw :
  (find "{" raw = -1 \/ rfind "}" raw < find "{" raw)%Z ->
  Json.decode L (span raw) = Json.Malformed.
Proof.
  intro H. destruct (span_without_pair raw H) as [-> | ->]; reflexivity.
Qed.

Lemma value_loads L s v : Json.decode L s = Json.Value v -> Json.loads L s = Some v.
Proof. unfold Json.loads. now intros ->. Qed.

(** C4.  Once the decoder has produced an object whose action is a
    string (or is absent), the dispatcher tests in this order, and each
    branch ends the turn.  Upper-cased action HELP: the answer is the
    explanation behind a light bulb, and nothing else happens.  Else a
    truthy needs_data: the collector runs and its message is the answer,
    whatever sql says.  Else a truthy sql: [execute_sql] runs on it and
    its result is rendered.  Else, sql being absent, null, or empty: the
    fixed "no SQL generated" answer, and no call of the driver. *)
Theorem dispatcher_order L a w u st raw kvs act :
  let r0 := ask_llm L a w (build_prompt (schema a) u) st in
  let r := process_user_request L a w u st in
  result r0 = Returned raw ->
  Json.loads L (span raw) = Some (VDict kvs) ->
  field "action" kvs (VStr "") = VStr act ->
  (upper L act = "HELP" ->
   r = Run (Returned ("💡 " ++ py_str L (field "explanation" kvs VNone)))
           (trace r0) (final r0))
  /\
  (upper L act <> "HELP" ->
   truthy L (field "needs_data" kvs VNone) = true ->
   let c := _collect_data_for_insert L a w (final r0) in
   r = Run (answer_of (result c)) (trace r0 ++ trace c)%list (final c) /\
   (forall msg, result c = Returned msg -> result r = Returned msg))
  /\
  (upper L act <> "HELP" ->
   truthy L (field "needs_data" kvs VNone) = false ->
   truthy L (field "sql" kvs VNone) = true ->
   let x := execute_sql L w (field "sql" kvs VNone) None (final r0) in
   trace r = (trace r0 ++ trace x)%list /\
   final r = final x /\
   (forall res, result x = Returned res ->
                result r = Returned (render L (upper L act) res)))
  /\
  (upper L act <> "HELP" ->
   truthy L (field "needs_data" kvs VNone) = false ->
   truthy L (field "sql" kvs VNone) = false ->
   r = Run (Returned "❌ No SQL generated") (trace r0) (final r0)).
Proof.
  intros r0 r Hraw Hobj Hact. subst r.
  rewrite (process_user_request_run L a w u st Hraw). fold r0.
  rewrite (dispatch_object L a w raw (final r0) Hobj Hact).
  destruct (String.eqb_spec (upper L act) "HELP") as [Hh | Hh].
  - split; [| split; [| split]]; try (intros Hn; contradiction).
    intros _. cbn. now rewrite app_nil_r.
  - split; [intro; contradiction |].
    destruct (truthy L (field "needs_data" kvs VNone)).
    + split; [| split]; try (intros _ Hd; discriminate).
      intros _ _. cbn zeta. split; [reflexivity |].
      intros msg Hm. cbn [result]. now rewrite Hm.
    + split; [intros _ Hd; discriminate |].
      destruct (truthy L (field "sql" kvs VNone)).
      * split; [| intros _ _ Hd; discriminate]. intros _ _ _. cbn zeta.
        unfold rendered.
        destruct (execute_sql L w (field "sql" kvs VNone) None (final r0))
          as [[res | e] tr st']; cbn; split; [reflexivity | split; [reflexivity |] | reflexivity | split; [reflexivity |]].
        -- intros res' Hr. now inversion Hr.
        -- intros res' Hr. discriminate.
      * split; [intros _ _ Hd; discriminate |]. intros _ _ _. cbn. now rewrite app_nil_r.
Qed.

Lemma dispatcher_order_witness :
  process_user_request plain_lib agent0 (steady (healthy [] [] 0) (says reply_help))
    "what can you do?" (start [])
  = Run (Returned "💡 Ask me about employees.")
        [EvPost "llama3.2" (build_prompt employees "what can you do?")]
        {| stdin := []; tick := 1 |}.
Proof.
  exact (proj1 (@dispatcher_order plain_lib agent0
                  (steady (healthy [] [] 0) (says reply_help))
                  "what can you do?" (start [])
                  reply_help
                  [("action", VStr "help"); ("sql", VNone);
                   ("explanation", VStr "Ask me about employees.");
                   ("needs_data", VBool false)]
                  "help" eq_refl eq_refl eq_refl) eq_refl).
Defined.

(** C4, counterexample.  A reply whose sql is present and not null but
    empty: the statement executor is not invoked; the answer is the
    "no SQL generated" error and the driver is never called. *)
Lemma dispatcher_skips_empty_sql :
  let w := steady (healthy ["id"; "name"] [] 0) (says reply_with_empty_sql) in
  let r := process_user_request plain_lib agent0 w "run it" (start []) in
  (exists kvs,
      Json.loads plain_lib (span reply_with_empty_sql) = Some (VDict kvs) /\
      dict_get "action" kvs = Some (VStr "SELECT") /\
      dict_get "needs_data" kvs = Some (VBool false) /\
      dict_get "sql" kvs = Some (VStr "")) /\
  result r = Returned "❌ No SQL generated" /\
  trace r = [EvPost "llama3.2" (build_prompt employees "run it")].
Proof.
  cbn zeta. split; [| split].
  - eexists. repeat split; reflexivity.
  - vm_compute. reflexivity.
  - vm_compute. reflexivity.
Qed.

(** C2.  The turn ends with the parse failure exactly when [json.loads]
    raises JSONDecodeError on the slice from the first opening brace to
    the last closing brace; this is the case of every text without an
    opening brace followed by a closing one.  A slice on which the
    decoder meets a limit of the interpreter instead (an integer with
    too many digits, containers nested too deep) is no parse failure: the
    answer is the message of that exception behind the generic error
    marker.  An object without 'action' decodes: its action counts as
    the empty string.  An action that is present is upper-cased before
    it is compared: help, Help and HELP all take the HELP branch. *)
Theorem parser_fails_iff_undecodable L a w u st raw :
  let r0 := ask_llm L a w (build_prompt (schema a) u) st in
  let r := process_user_request L a w u st in
  result r0 = Returned raw ->
  (result r = Returned parse_failure <-> Json.decode L (span raw) = Json.Malformed) /\
  ((find "{" raw = -1 \/ rfind "}" raw < find "{" raw)%Z ->
   r = Run (Returned parse_failure) (trace r0) (final r0)) /\
  (forall cls msg,
     Json.decode L (span raw) = Json.Refused cls msg ->
     r = Run (Returned ("❌ Error: " ++ msg)) (trace r0) (final r0)) /\
  (forall kvs,
     Json.loads L (span raw) = Some (VDict kvs) ->
     dict_get "action" kvs = None ->
     result r <> Returned parse_failure) /\
  (forall kvs act,
     Json.loads L (span raw) = Some (VDict kvs) ->
     dict_get "action" kvs = Some (VStr act) ->
     upper L act = "HELP" ->
     result r = Returned ("💡 " ++ py_str L (field "explanation" kvs VNone))).
Proof.
  intros r0 r Hraw. subst r.
  rewrite (process_user_request_run L a w u st Hraw). fold r0. cbn [result].
  assert (Hfail : Json.decode L (span raw) = Json.Malformed ->
                  Run (answer_of (result (dispatch L a w raw (final r0))))
                      (trace r0 ++ trace (dispatch L a w raw (final r0)))%list
                      (final (dispatch L a w raw (final r0)))
                  = Run (Returned parse_failure) (trace r0) (final r0)).
  { intro Hn. rewrite (dispatch_undecodable L a w raw (final r0) Hn). cbn.
    now rewrite app_nil_r. }
  split; [| split; [| split; [| split]]].
  - split.
    + intro H. destruct (Json.decode L (span raw)) as [v | | c m] eqn:E; [| reflexivity |].
      * exfalso. exact (dispatch_decoded L a w raw (final r0) (value_loads _ _ E) H).
      * exfalso. rewrite (dispatch_refused L a w raw (final r0) E) in H.
        cbn in H. unfold parse_failure in H. inversion H.
    + intro Hn. rewrite (dispatch_undecodable L a w raw (final r0) Hn). reflexivity.
  - intro H. apply Hfail. now apply loads_without_pair.
  - intros cls msg E. rewrite (dispatch_refused L a w raw (final r0) E). cbn.
    now rewrite app_nil_r.
  - intros kvs Hobj _. exact (dispatch_decoded L a w raw (final r0) Hobj).
  - intros kvs act Hobj Hact Hup.
    assert (Hf : field "action" kvs (VStr "") = VStr act)
      by (unfold field; now rewrite Hact).
    rewrite (dispatch_object L a w raw (final r0) Hobj Hf), Hup. reflexivity.
Qed.

Lemma parser_fails_iff_undecodable_witness :
  process_user_request plain_lib agent0
    (steady (healthy [] [] 0) (says "I am sorry, I cannot help with that."))
    "drop everything" (start [])
  = Run (Returned parse_failure)
        [EvPost "llama3.2" (build_prompt employees "drop everything")]
        {| stdin := []; tick := 1 |}.
Proof.
  refine (proj1 (proj2 (@parser_fails_iff_undecodable plain_lib agent0
                  (steady (healthy [] [] 0) (says "I am sorry, I cannot help with that."))
                  "drop everything" (start [])
                  "I am sorry, I cannot help with that." eq_refl)) _).
  left. reflexivity.
Defined.

(** C2, counterexample.  A reply whose object has no 'action' is no
    parse failure: the statement is run and its result is the answer. *)
Lemma parser_accepts_missing_action :
  let w := steady (healthy ["id"; "name"] [] 0) (says reply_without_action) in
  let r := process_user_request plain_lib agent0 w "list everyone" (start []) in
  (exists kvs,
      Json.loads plain_lib (span reply_without_action) = Some (VDict kvs) /\
      dict_get "action" kvs = None) /\
  result r = Returned "📋 No records found" /\
  result r <> Returned parse_failure /\
  In (EvExecute (VStr "SELECT * FROM employees ORDER BY id") []) (trace r).
Proof.
  cbn zeta. split; [| split; [| split]].
  - eexists. split; reflexivity.
  - vm_compute. reflexivity.
  - vm_compute. discriminate.
  - vm_compute. repeat (first [left; reflexivity | right]).
Qed.

(* ===================================================================== *)
(** * Further properties of the code *)
(* ===================================================================== *)

(** ** execute_sql: the life of a connection *)

(** X1.  Every call of [execute_sql] asks for exactly one connection and
    moves the world on by one tick, reading nothing from the terminal.
    If [connect] raises, nothing else is called.  If it returns, the
    connection is closed exactly once and [close] is the last driver
    call, on every path: a result, a driver error, any other
    exception. *)
Theorem execute_sql_closes_what_it_opens L w sql params st :
  let d := db w (tick st) in
  let r := execute_sql L w sql params st in
  final r = ticked st /\
  hd_error (trace r) = Some EvConnect /\
  List.length (filter opens (trace r)) = 1 /\
  (forall f, connect d = Some f -> trace r = [EvConnect]) /\
  (connect d = None ->
   last (trace r) EvConnect = EvClose /\
   List.length (filter closes (trace r)) = 1).
Proof.
  cbn zeta. unfold ticked. run_unfold; cbn.
  repeat (split_match; try discriminate);
    repeat split; try reflexivity; intros; try discriminate; try congruence.
Qed.

Lemma execute_sql_closes_what_it_opens_witness :
  trace (execute_sql plain_lib (steady (failing (Crash "TypeError" "bad statement")) (Reply 200 ""))
           (VStr "DELETE FROM employees") None (start []))
  = [EvConnect; EvCursor; EvExecute (VStr "DELETE FROM employees") []; EvClose]
  /\
  last (trace (execute_sql plain_lib (steady (failing (Crash "TypeError" "bad statement"))
                              (Reply 200 ""))
                 (VStr "DELETE FROM employees") None (start []))) EvConnect
  = EvClose.
Proof.
  split; [reflexivity |].
  exact (proj1 (proj2 (proj2 (proj2 (proj2
    (execute_sql_closes_what_it_opens plain_lib
       (steady (failing (Crash "TypeError" "bad statement")) (Reply 200 ""))
       (VStr "DELETE FROM employees") None (start []))))) eq_refl)).
Defined.

(** X2.  A statement that is no string (the model answered a number, a list
    or an object for 'sql') is still handed to [cursor.execute]; once
    the driver has taken it, [sql.strip()] raises AttributeError, which
    the [except Error] clause does not catch.  Such a call never fetches,
    never commits, and never returns a Select or a Modify. *)
Theorem execute_sql_non_string_statement L w sql params st :
  (forall s, sql <> VStr s) ->
  let d := db w (tick st) in
  let r := execute_sql L w sql params st in
  (forall res, result r = Returned res -> exists m, res = Error m) /\
  ~ In EvFetchall (trace r) /\
  ~ In EvCommit (trace r) /\
  (connect d = None -> cursor d = None -> execute d sql (args_of params) = None ->
   close d = None ->
   result r = Raised (attribute_error sql "strip") /\
   trace r = [EvConnect; EvCursor; EvExecute sql (args_of params); EvClose]).
Proof.
  intros Hs. cbn zeta. unfold args_of.
  destruct sql; try (exfalso; eapply Hs; reflexivity); clear Hs;
    run_unfold; cbn;
    repeat (split_match; try discriminate);
    repeat split; try reflexivity; intros; try discriminate; try congruence;
    try (cbn; intuition discriminate);
    match goal with
    | H : Returned _ = Returned _ |- _ => inversion H; eexists; reflexivity
    end.
Qed.

Lemma execute_sql_non_string_statement_witness :
  result (execute_sql plain_lib (steady (healthy [] [] 0) (Reply 200 "")) (VInt 7) None (start []))
  = Raised (PyException "AttributeError" "'int' object has no attribute 'strip'").
Proof.
  refine (proj1 (proj2 (proj2 (proj2
    (@execute_sql_non_string_statement plain_lib
       (steady (healthy [] [] 0) (Reply 200 "")) (VInt 7) None (start []) _)))
    eq_refl eq_refl eq_refl eq_refl)).
  intros s; discriminate.
Defined.

(** ** Characters, trimming and case *)

Lemma chars_ascii c r :
  is_ascii c = true -> chars (String c r) = String c "" :: chars r.
Proof.
  intro H. cbn [chars]. destruct (chars r); [reflexivity |].
  rewrite H. reflexivity.
Qed.

Lemma concat_chars s : String.concat "" (chars s) = s.
Proof.
  induction s as [|c r IH]; [reflexivity |].
  cbn [chars]. destruct (chars r) as [|x xs].
  - cbn in IH. subst r. reflexivity.
  - destruct (negb (is_ascii c) && opens_with_cont x).
    + rewrite concat_empty_cons in *. cbn [append]. now rewrite IH.
    + rewrite concat_empty_cons. cbn [append]. now rewrite IH.
Qed.










Lemma rstrip_keeps_head x r :
  is_space x = false -> exists t, rstrip (x :: r) = x :: t.
Proof.
  intro H. cbn [rstrip]. destruct (rstrip r); [rewrite H |]; eexists; reflexivity.
Qed.


Lemma lstrip_fixed x r : is_space x = false -> lstrip (x :: r) = x :: r.
Proof. intro H. cbn [lstrip]. rewrite H. reflexivity. Qed.



Lemma strip_head c r :
  is_ascii c = true -> is_space (String c "") = false ->
  exists t, strip (String c r) = String c t.
Proof.
  intros Ha Hs. unfold strip. rewrite (@chars_ascii c r Ha), (@lstrip_fixed _ (chars r) Hs).
  destruct (@rstrip_keeps_head (String c "") (chars r) Hs) as [t ->].
  rewrite concat_empty_cons. eexists; reflexivity.
Qed.

Lemma upper_head L c t :
  is_ascii c = true -> upper L (String c t) = String (upper_char c) (upper L t).
Proof.
  intro Ha. unfold upper. rewrite (@chars_ascii c t Ha). cbn [map upper_of].
  rewrite Ha, concat_empty_cons. reflexivity.
Qed.

(** ** ask_llm *)



(** ** The slice between the braces *)

Lemma length_app (a b : string) :
  String.length (a ++ b) = String.length a + String.length b.
Proof. induction a as [|c a IH]; cbn; [reflexivity | now rewrite IH]. Qed.

Lemma substring_app (a b c : string) :
  String.substring (String.length a) (String.length b) (a ++ b ++ c) = b.
Proof.
  induction a as [|x a IH]; cbn; [| exact IH].
  induction b as [|y b IHb]; cbn.
  - destruct c; reflexivity.
  - now rewrite IHb.
Qed.

Lemma find_from_app c pre r : forall i,
  (0 <= i)%Z ->
  find_from c pre i = (-1)%Z ->
  find_from c (pre ++ String c r) i = (i + Z.of_nat (String.length pre))%Z.
Proof.
  induction pre as [|d p IH]; intros i Hi H; cbn in *.
  - rewrite Ascii.eqb_refl. lia.
  - destruct (Ascii.eqb c d); [lia |].
    rewrite IH by (lia || assumption). lia.
Qed.

Lemma rfind_from_app c a b : forall i last,
  rfind_from c (a ++ b) i last
  = rfind_from c b (i + Z.of_nat (String.length a))%Z (rfind_from c a i last).
Proof.
  induction a as [|d a IH]; intros i last; cbn [append rfind_from String.length].
  - f_equal. cbn. lia.
  - rewrite IH. f_equal. lia.
Qed.

Lemma rfind_from_absent c s : forall i last,
  (last < i)%Z ->
  rfind_from c s i last = last ->
  forall j l, rfind_from c s j l = l.
Proof.
  induction s as [|d s IH]; intros i last Hi H j l; cbn in *; [reflexivity |].
  destruct (Ascii.eqb c d).
  - exfalso. destruct (rfind_from_range c s (i + 1) i) as [E | E]; lia.
  - apply (IH (i + 1)%Z last); [lia | exact H].
Qed.

Lemma find_from_get c s : forall i,
  (0 <= i)%Z ->
  find_from c s i = (-1)%Z \/
  exists k, find_from c s i = (i + Z.of_nat k)%Z /\ String.get k s = Some c.
Proof.
  induction s as [|d s IH]; intros i Hi; cbn [find_from]; [left; reflexivity |].
  destruct (Ascii.eqb_spec c d) as [-> | Hn].
  - right. exists 0. split; [lia | reflexivity].
  - destruct (@IH (i + 1)%Z ltac:(lia)) as [E | (k & E & G)]; [left; exact E |].
    right. exists (S k). split; [lia | exact G].
Qed.

Lemma substring_get c s : forall k n,
  String.get k s = Some c ->
  String.substring k (S n) s = String c (String.substring (S k) n s).
Proof.
  induction s as [|d s IH]; intros k n H; [destruct k; discriminate |].
  destruct k as [|k]; cbn in H.
  - inversion H; subst. cbn. destruct s; destruct n; reflexivity.
  - cbn [String.substring]. rewrite (@IH k n H). reflexivity.
Qed.

Lemma span_opens_with_brace raw :
  (0 <= find "{" raw <= rfind "}" raw)%Z ->
  exists t, span raw = String "{" t.
Proof.
  unfold span, slice, find, rfind, clamp. intros [H0 H1].
  destruct (@find_from_get "{" raw 0%Z ltac:(lia)) as [E | (k & E & G)]; [lia |].
  pose proof (find_from_range "{" raw 0) as Hf.
  pose proof (rfind_from_range "}" raw 0 (-1)) as Hr.
  set (f := find_from "{" raw 0) in *.
  set (r := rfind_from "}" raw 0 (-1)) in *.
  set (len := Z.of_nat (String.length raw)) in *.
  assert (Hlt : (f <? 0)%Z = false) by (apply Z.ltb_ge; lia).
  assert (Hlt' : (r + 1 <? 0)%Z = false) by (apply Z.ltb_ge; lia).
  rewrite Hlt, Hlt'.
  replace (Z.to_nat (Z.min f len)) with k by lia.
  replace (Z.to_nat (Z.min (r + 1) len - Z.min f len))
    with (S (Z.to_nat (r - f))) by lia.
  rewrite (@substring_get _ _ _ _ G). eexists; reflexivity.
Qed.

(** ** What the decoder makes of a text that opens with a brace *)

Lemma parse_done_empty L v ts x :
  Json.parse L (Json.MDone v) [] ts = Json.Value x -> x = v.
Proof.
  destruct ts as [|t ts]; cbn; [congruence |].
  destruct t; discriminate.
Qed.

Lemma parse_inside_object L ts : forall m stk f x,
  object_frame (last stk f) -> stk <> [] ->
  Json.parse L m stk ts = Json.Value x ->
  exists d, x = VDict d.
Proof.
  induction ts as [|t ts IH]; intros m stk f x Hb Hne H.
  - cbn in H. destruct m; try discriminate. destruct stk; [congruence | discriminate].
  - cbn [Json.parse] in H.
    destruct (Json.step L m stk t) as [m' stk' | | c msg] eqn:E; try discriminate.
    destruct stk as [|top rest]; [congruence |].
    assert (Hcases :
      (stk' <> [] /\ object_frame (last stk' f)) \/
      (stk' = [] /\ exists d, m' = Json.MDone (VDict d))).
    { unfold Json.step, Json.open_value in E.
      destruct rest as [|g rest].
      - cbn in Hb.
        destruct m, t, top; cbn in E; try discriminate; try contradiction;
          repeat match type of E with
                 | context [if ?b then _ else _] => destruct b
                 end; try discriminate;
          inversion E; subst; cbn;
          first [ left; split; [discriminate | exact I]
                | right; split; [reflexivity | eexists; reflexivity] ].
      - left.
        assert (Hl : object_frame (last (g :: rest) f)) by exact Hb.
        destruct m, t, top; cbn in E; try discriminate;
          repeat match type of E with
                 | context [if ?b then _ else _] => destruct b
                 end; try discriminate;
          inversion E; subst;
          (split; [discriminate |]);
          try exact Hl; try exact Hb;
          change (object_frame (last (g :: rest) f)); exact Hl. }
    destruct Hcases as [[Hne' Hb'] | [-> [d ->]]].
    + exact (IH m' stk' f x Hb' Hne' H).
    + exists d. exact (@parse_done_empty L _ _ _ H).
Qed.

Lemma loads_brace L t v :
  Json.loads L (String "{" t) = Some v -> exists d, v = VDict d.
Proof.
  intro H. apply loads_value in H. revert H.
  unfold Json.decode. cbn [Json.lex].
  change (Json.is_ws "{") with false. cbn [Json.parse Json.step Json.open_value].
  change (Ascii.eqb "{" "{") with true. cbn iota.
  cbn [Json.parse Json.step Json.open_value].
  destruct (Json.too_deep L []); [discriminate |].
  intro H.
  apply (@parse_inside_object L (Json.lex 0 t) Json.MKeyOrClose [Json.FObject []]
           (Json.FObject []) v);
    [exact I | discriminate | exact H].
Qed.

(** X4.  A reply that wraps its object in prose is read as the object alone:
    when no opening brace comes before the object and no closing brace
    after it, the slice handed to the decoder is the object, whatever
    the text around it and whatever braces the object has inside. *)
Theorem span_recovers_object pre body post :
  find "{" pre = (-1)%Z ->
  rfind "}" post = (-1)%Z ->
  span (pre ++ "{" ++ body ++ "}" ++ post) = "{" ++ body ++ "}".
Proof.
  intros Hpre Hpost. unfold span, find, rfind in *.
  change ("{" ++ body ++ "}" ++ post) with (String "{" (body ++ "}" ++ post)).
  rewrite (@find_from_app "{" pre (body ++ "}" ++ post) 0%Z ltac:(lia) Hpre).
  assert (Hr : rfind_from "}" (pre ++ String "{" (body ++ "}" ++ post)) 0 (-1)
               = Z.of_nat (String.length pre + 1 + String.length body)).
  { replace (pre ++ String "{" (body ++ "}" ++ post))
      with ((pre ++ "{" ++ body) ++ String "}" post)
      by (rewrite !append_assoc; reflexivity).
    rewrite rfind_from_app. cbn [rfind_from]. rewrite Ascii.eqb_refl.
    rewrite (@rfind_from_absent "}" post 0%Z (-1)%Z ltac:(lia) Hpost).
    rewrite !length_app. cbn [String.length]. lia. }
  rewrite Hr. unfold slice, clamp.
  set (raw := pre ++ String "{" (body ++ "}" ++ post)).
  assert (Hlen : String.length raw
                 = String.length pre + (String.length body + 2) + String.length post).
  { unfold raw. rewrite length_app. cbn [String.length]. rewrite !length_app.
    cbn [String.length]. lia. }
  rewrite Hlen.
  replace ((0 + Z.of_nat (String.length pre) <? 0)%Z) with false
    by (symmetry; apply Z.ltb_ge; lia).
  replace ((Z.of_nat (String.length pre + 1 + String.length body) + 1 <? 0)%Z) with false
    by (symmetry; apply Z.ltb_ge; lia).
  match goal with
  | |- String.substring ?a ?b _ = _ =>
      replace a with (String.length pre) by lia;
      replace b with (String.length ("{" ++ body ++ "}"))
        by (cbn [append String.length]; rewrite length_app; cbn [String.length]; lia)
  end.
  unfold raw.
  replace (String "{" (body ++ "}" ++ post)) with (("{" ++ body ++ "}") ++ post)
    by (cbn [append]; rewrite append_assoc; reflexivity).
  apply substring_app.
Qed.

Lemma span_recovers_object_witness :
  span ("Sure! Here it is: {" ++ q "action" ++ ": " ++ q "HELP" ++ "} Anything else?")
  = "{" ++ q "action" ++ ": " ++ q "HELP" ++ "}".
Proof.
  exact (@span_recovers_object "Sure! Here it is: " (q "action" ++ ": " ++ q "HELP")
           " Anything else?" eq_refl eq_refl).
Defined.

Lemma span_decodes_object L raw v :
  Json.loads L (span raw) = Some v ->
  (0 <= find "{" raw <= rfind "}" raw)%Z /\ exists kvs, v = VDict kvs.
Proof.
  intro H. pose proof (loads_value _ _ H) as Hd.
  assert (Hr : (0 <= find "{" raw <= rfind "}" raw)%Z).
  { destruct (Z_lt_dec (rfind "}" raw) (find "{" raw)) as [Hlt | Hge].
    - rewrite loads_without_pair in Hd by (right; exact Hlt). discriminate.
    - destruct (Z.eq_dec (find "{" raw) (-1)) as [He | Hne].
      + rewrite loads_without_pair in Hd by (left; exact He). discriminate.
      + pose proof (find_from_range "{" raw 0) as Hf. unfold find in *. lia. }
  split; [exact Hr |].
  destruct (span_opens_with_brace raw Hr) as [t Ht].
  rewrite Ht in H. exact (@loads_brace L _ _ H).
Qed.

(** X5.  Whatever [process_user_request] gets out of the decoder is an
    object: the slice it decodes opens with the first brace of the
    reply, so a reply that is a bare list, number or string never
    reaches [result.get]. *)
Theorem decoded_reply_is_object L raw v :
  Json.loads L (span raw) = Some v ->
  (0 <= find "{" raw <= rfind "}" raw)%Z /\ exists kvs, v = VDict kvs.
Proof. exact (@span_decodes_object L raw v). Qed.

Lemma decoded_reply_is_object_witness :
  exists kvs, VDict [("action", VStr "HELP")] = VDict kvs.
Proof.
  exact (proj2 (@decoded_reply_is_object plain_lib
                  ("[1, 2] {" ++ q "action" ++ ": " ++ q "HELP" ++ "} done")
                  (VDict [("action", VStr "HELP")]) eq_refl)).
Defined.

(** ** process_user_request: what the user is told *)

Lemma execute_sql_driver_error L w sql params st m :
  driver_error L (db w (tick st)) sql (args_of params) m ->
  result (execute_sql L w sql params st) = Returned (Error m).
Proof.
  intro H. unfold args_of in H.
  destruct H; subst; run_unfold; cbn;
    repeat match goal with
           | H : ?x = _ |- context [?x] => rewrite H; cbn
           end; try reflexivity.
  all: repeat (split_match; try discriminate; try reflexivity).
Qed.

Lemma collect_raises_exception L a w st e :
  result (_collect_data_for_insert L a w st) = Raised e -> is_Exception e = true.
Proof.
  destruct (collect_fields (insertable (schema a)) [] st) as [[[m | d] | x] tr st'] eqn:E.
  - rewrite collect_run_early by (intro d; rewrite E; discriminate).
    rewrite E. cbn. discriminate.
  - rewrite (collect_run_filled L a w st E). cbn [result].
    pose proof (@execute_sql_raises_exception L w (VStr (insert_statement d))
                  (Some (values d)) st') as Hx.
    destruct (result (execute_sql L w _ _ st')) as [[| |]| x]; cbn; try discriminate.
    intro H. inversion H; subst. now apply Hx.
  - rewrite collect_run_early by (intro d; rewrite E; discriminate).
    rewrite E. cbn. destruct x; cbn; intro H; inversion H; reflexivity.
Qed.

Lemma dispatch_action_not_string L a w raw st kvs v :
  Json.loads L (span raw) = Some (VDict kvs) ->
  dict_get "action" kvs = Some v ->
  (forall s, v <> VStr s) ->
  dispatch L a w raw st = Run (Raised (attribute_error v "upper")) [] st.
Proof.
  intros H Ha Hv. unfold dispatch, json_loads. fold (span raw).
  rewrite (loads_value _ _ H).
  unfold get_method, upper_method. unfold bind at 1. cbn. unfold bind at 1. cbn.
  rewrite Ha.
  destruct v; try reflexivity. exfalso. now apply (Hv s).
Qed.

Lemma dispatch_raises_exception L a w raw st e :
  result (dispatch L a w raw st) = Raised e -> is_Exception e = true.
Proof.
  destruct (Json.loads L (span raw)) as [v |] eqn:H.
  - destruct (proj2 (span_decodes_object L raw H)) as [kvs ->].
    destruct (field "action" kvs (VStr "")) as [| b | z | x | s | l | d] eqn:Ha.
    all: try (assert (Hbad : forall kvs' act, VDict kvs = VDict kvs' ->
                               field "action" kvs' (VStr "") <> VStr act)
                by (intros ? ? Hk; inversion Hk; subst; congruence);
              destruct (dispatch_malformed L a w raw st H Hbad) as [msg ->];
              cbn; intro Hr; inversion Hr; reflexivity).
    rewrite (dispatch_object L a w raw st H Ha).
    destruct (String.eqb (upper L s) "HELP"); [cbn; discriminate |].
    destruct (truthy L (field "needs_data" kvs VNone));
      [apply collect_raises_exception |].
    destruct (truthy L (field "sql" kvs VNone)); [| cbn; discriminate].
    pose proof (@execute_sql_raises_exception L w (field "sql" kvs VNone) None st) as Hx.
    unfold rendered.
    destruct (execute_sql L w (field "sql" kvs VNone) None st) as [[res | x] tr st'];
      cbn in *; [discriminate |].
    intro Hr. inversion Hr; subst. now apply Hx.
  - destruct (loads_none _ _ H) as [Hm | (c & msg & Hm)].
    + rewrite (dispatch_undecodable L a w raw st Hm). cbn.
      intro Hr. inversion Hr; reflexivity.
    + rewrite (dispatch_refused L a w raw st Hm). cbn.
      intro Hr. inversion Hr; reflexivity.
Qed.

Lemma ask_llm_unreachable_trace L a w prompt st cls msg :
  llm w (tick st) (llm_model a) prompt = Unreachable cls msg ->
  trace (ask_llm L a w prompt st)
  = [EvPost (llm_model a) prompt;
     EvLogError "LLM request failed: " (PyException cls msg)].
Proof.
  intro H. unfold ask_llm. run_unfold; cbn. rewrite H; cbn. reflexivity.
Qed.






(** X7.  When the model cannot be reached the user is told that its reply
    could not be parsed: [ask_llm] logs the failure and hands back an
    empty string, and the empty string has no braces to decode.  The
    database is not touched.  The same answer is given whenever the
    reply comes back empty for any other reason. *)
Theorem unreachable_model_is_parse_failure L a w u st :
  let prompt := build_prompt (schema a) u in
  (forall cls msg,
      llm w (tick st) (llm_model a) prompt = Unreachable cls msg ->
      process_user_request L a w u st
      = Run (Returned parse_failure)
            [EvPost (llm_model a) prompt;
             EvLogError "LLM request failed: " (PyException cls msg)]
            (ticked st)) /\
  (result (ask_llm L a w prompt st) = Returned "" ->
   process_user_request L a w u st
   = Run (Returned parse_failure) (trace (ask_llm L a w prompt st)) (ticked st)).
Proof.
  cbn zeta.
  assert (Hempty : result (ask_llm L a w (build_prompt (schema a) u) st) = Returned "" ->
                   process_user_request L a w u st
                   = Run (Returned parse_failure)
                         (trace (ask_llm L a w (build_prompt (schema a) u) st)) (ticked st)).
  { intro H. rewrite (process_user_request_run L a w u st H).
    rewrite dispatch_undecodable by reflexivity. cbn.
    rewrite app_nil_r, ask_llm_final. reflexivity. }
  split; [| exact Hempty].
  intros cls msg H. rewrite Hempty by (eapply ask_llm_unreachable; eauto).
  rewrite (ask_llm_unreachable_trace L a w _ st H). reflexivity.
Qed.

Lemma unreachable_model_is_parse_failure_witness :
  process_user_request plain_lib agent0
    (steady (healthy [] [] 0) (Unreachable "ConnectionError" "refused"))
    "list everyone" (start [])
  = Run (Returned parse_failure)
        [EvPost "llama3.2" (build_prompt employees "list everyone");
         EvLogError "LLM request failed: " (PyException "ConnectionError" "refused")]
        {| stdin := []; tick := 1 |}.
Proof.
  exact (proj1 (unreachable_model_is_parse_failure plain_lib agent0
                  (steady (healthy [] [] 0) (Unreachable "ConnectionError" "refused"))
                  "list everyone" (start []))
               "ConnectionError" "refused" eq_refl).
Defined.

(** X8.  An 'action' that is present but is no string (a number, null, a
    list, an object) is not a parse failure and is not treated as
    empty: [action.upper()] raises, and the answer is the text of that
    AttributeError behind the generic error marker.  Nothing is
    executed and nothing is asked of the user. *)
Theorem action_not_string_is_reported L a w u st raw kvs v :
  let r0 := ask_llm L a w (build_prompt (schema a) u) st in
  result r0 = Returned raw ->
  Json.loads L (span raw) = Some (VDict kvs) ->
  dict_get "action" kvs = Some v ->
  (forall s, v <> VStr s) ->
  process_user_request L a w u st
  = Run (Returned ("❌ Error: '" ++ type_name v ++ "' object has no attribute 'upper'"))
        (trace r0) (final r0).
Proof.
  intros r0 Hraw Hobj Ha Hv.
  rewrite (process_user_request_run L a w u st Hraw). fold r0.
  rewrite (@dispatch_action_not_string L a w raw (final r0) kvs v Hobj Ha Hv).
  cbn. rewrite app_nil_r. reflexivity.
Qed.

(** X9.  A statement that fails is reported, never raised.  When the driver
    fails with its own error [m] the answer is the database-error line
    carrying [m]; when [execute_sql] raises anything else (a statement
    that is no string, a driver call that crashes) the answer is the
    text of that exception behind the generic error marker. *)
Theorem statement_failure_is_reported L a w u st raw kvs act :
  let r0 := ask_llm L a w (build_prompt (schema a) u) st in
  let sql := field "sql" kvs VNone in
  let x := execute_sql L w sql None (final r0) in
  result r0 = Returned raw ->
  Json.loads L (span raw) = Some (VDict kvs) ->
  field "action" kvs (VStr "") = VStr act ->
  upper L act <> "HELP" ->
  truthy L (field "needs_data" kvs VNone) = false ->
  truthy L sql = true ->
  (forall m, driver_error L (db w (S (tick st))) sql [] m ->
     result (process_user_request L a w u st) = Returned ("❌ Database Error: " ++ m)) /\
  (forall e, result x = Raised e ->
     result (process_user_request L a w u st) = Returned ("❌ Error: " ++ exn_str e)) /\
  trace (process_user_request L a w u st) = (trace r0 ++ trace x)%list.
Proof.
  intros r0 sql x Hraw Hobj Hact Hh Hn Hs.
  rewrite (process_user_request_run L a w u st Hraw). fold r0.
  rewrite (dispatch_object L a w raw (final r0) Hobj Hact).
  destruct (String.eqb_spec (upper L act) "HELP") as [? | _]; [contradiction |].
  rewrite Hn. fold sql. rewrite Hs. fold x. cbn [result trace].
  assert (Hd : forall m, driver_error L (db w (S (tick st))) sql [] m ->
                         result x = Returned (Error m)).
  { intros m Hm. unfold x. apply execute_sql_driver_error.
    unfold r0. rewrite ask_llm_final. exact Hm. }
  pose proof (@execute_sql_raises_exception L w sql None (final r0)) as Hx.
  pose proof (execute_sql_no_decode_error L w sql None (final r0)) as Hj.
  fold x in Hx, Hj. unfold rendered.
  destruct x as [[res | e] tr st']; cbn in *.
  - split; [| split; [intros e He; discriminate | reflexivity]].
    intros m Hm. specialize (Hd m Hm). inversion Hd; subst. reflexivity.
  - split; [| split; [| reflexivity]].
    + intros m Hm. specialize (Hd m Hm). discriminate.
    + intros e' He. inversion He; subst. specialize (Hx e' eq_refl).
      destruct e'; cbn in *; try reflexivity; [congruence | discriminate].
Qed.

Lemma action_not_string_is_reported_witness :
  process_user_request plain_lib agent0
    (steady (healthy [] [] 0) (says reply_numeric_action)) "how many?" (start [])
  = Run (Returned "❌ Error: 'int' object has no attribute 'upper'")
        [EvPost "llama3.2" (build_prompt employees "how many?")]
        {| stdin := []; tick := 1 |}.
Proof.
  refine (@action_not_string_is_reported plain_lib agent0
            (steady (healthy [] [] 0) (says reply_numeric_action)) "how many?" (start [])
            reply_numeric_action [("action", VInt 7); ("sql", VNone)] (VInt 7)
            eq_refl eq_refl eq_refl _).
  intros s; discriminate.
Defined.

Lemma statement_failure_is_reported_witness :
  result (process_user_request plain_lib agent0
            (steady (failing (DriverError "syntax error")) (says reply_bad_delete))
            "delete them" (start []))
  = Returned "❌ Database Error: syntax error".
Proof.
  refine (proj1 (@statement_failure_is_reported plain_lib agent0
            (steady (failing (DriverError "syntax error")) (says reply_bad_delete))
            "delete them" (start [])
            reply_bad_delete
            [("action", VStr "DELETE"); ("sql", VStr "DELETE FROM");
             ("needs_data", VBool false)]
            "DELETE" eq_refl eq_refl eq_refl _ eq_refl eq_refl) "syntax error" _).
  - vm_compute; discriminate.
  - apply at_execute; reflexivity.
Defined.

(** ** The insert collector: interrupts, closed terminals, outcomes *)

Lemma collect_fields_interrupted fields : forall pre data rest t,
  List.length pre < List.length fields ->
  Forall (fun v => ~ blank v) pre ->
  collect_fields fields data {| stdin := map Line pre ++ Interrupt :: rest; tick := t |}
  = Run (Raised KeyboardInterrupt)
        (prompts (firstn (S (List.length pre)) fields))
        {| stdin := rest; tick := t |}.
Proof.
  induction fields as [|f fields IH]; intros pre data rest t Hlen Hall.
  - cbn in Hlen. lia.
  - destruct pre as [|p pre]; cbn [map app].
    + reflexivity.
    + rewrite collect_fields_line.
      inversion Hall as [|? ? Hp Hps]; subst.
      destruct (String.eqb (strip p) "") eqn:E.
      * apply eqb_blank in E. contradiction.
      * cbn in Hlen.
        rewrite (IH pre (dict_set f (strip p) data) rest t); auto. lia.
Qed.

Lemma collect_fields_eof fields : forall pre data rest t,
  List.length pre < List.length fields ->
  Forall (fun v => ~ blank v) pre ->
  at_eof rest ->
  collect_fields fields data {| stdin := map Line pre ++ rest; tick := t |}
  = Run (Raised eof_error)
        (prompts (firstn (S (List.length pre)) fields))
        {| stdin := tl rest; tick := t |}.
Proof.
  induction fields as [|f fields IH]; intros pre data rest t Hlen Hall He.
  - cbn in Hlen. lia.
  - destruct pre as [|p pre]; cbn [map app].
    + destruct rest as [|[s| |] rest]; try contradiction; reflexivity.
    + rewrite collect_fields_line.
      inversion Hall as [|? ? Hp Hps]; subst.
      destruct (String.eqb (strip p) "") eqn:E.
      * apply eqb_blank in E. contradiction.
      * cbn in Hlen.
        rewrite (IH pre (dict_set f (strip p) data) rest t); auto. lia.
Qed.

Lemma collect_fields_asks fields : forall data st ev,
  In ev (trace (collect_fields fields data st)) -> In ev (prompts fields).
Proof.
  induction fields as [|f fields IH]; intros data st ev H.
  - destruct H.
  - destruct (collect_fields_step f fields data st)
      as [(s & rest & _ & E) | (e & st' & E & _)]; rewrite E in H.
    + rewrite trace_after in H. destruct H as [<- | H]; [now left |].
      right. destruct (String.eqb (strip s) ""); [destruct H | exact (IH _ _ _ H)].
    + cbn in H. destruct H as [<- | []]. now left.
Qed.

Lemma dict_get_combine (k : string) cols : forall (vals : list string),
  List.length vals = List.length cols ->
  NoDup cols ->
  (forall i, nth_error cols i = Some k ->
     dict_get k (combine cols vals) = Some (nth i vals "")) /\
  (~ In k cols -> dict_get k (combine cols vals) = None).
Proof.
  induction cols as [|c cols IH]; intros vals Hlen Hnd.
  - split; [intros [|i] H; discriminate | reflexivity].
  - destruct vals as [|v vals]; [discriminate |].
    inversion Hnd as [|? ? Hc Hnd']; subst.
    destruct (IH vals ltac:(now inversion Hlen) Hnd') as [IH1 IH2].
    cbn [combine dict_get]. split.
    + intros [|i] H; cbn in H.
      * inversion H; subst. now rewrite String.eqb_refl.
      * destruct (String.eqb_spec k c) as [-> | Hne].
        -- exfalso. apply Hc. eapply nth_error_In; eauto.
        -- cbn [nth]. now apply IH1.
    + intro H. destruct (String.eqb_spec k c) as [-> | Hne].
      * exfalso. apply H. now left.
      * apply IH2. intro Hin. apply H. now right.
Qed.

Lemma insert_is_no_select L rest :
  startswith "SELECT" (upper L (strip ("INSERT INTO employees (" ++ rest))) = false.
Proof.
  cbn [append].
  destruct (@strip_head "I" ("NSERT INTO employees (" ++ rest) eq_refl eq_refl)
    as [t Ht].
  cbn [append] in Ht. rewrite Ht, upper_head by reflexivity. reflexivity.
Qed.

Lemma execute_sql_write_never_fetches L w s params st :
  startswith "SELECT" (upper L (strip s)) = false ->
  ~ In EvFetchall (trace (execute_sql L w (VStr s) params st)).
Proof.
  intro Hs. run_unfold; cbn. rewrite Hs.
  repeat (split_match; try discriminate); cbn; intuition discriminate.
Qed.

Lemma execute_sql_write_run L w s params st :
  let d := db w (tick st) in
  startswith "SELECT" (upper L (strip s)) = false ->
  connect d = None -> cursor d = None -> execute d (VStr s) (args_of params) = None ->
  commit d = None -> close d = None ->
  execute_sql L w (VStr s) params st
  = Run (Returned (Modify (rowcount d (VStr s))))
        [EvConnect; EvCursor; EvExecute (VStr s) (args_of params); EvCommit; EvClose]
        (ticked st).
Proof.
  intros d Hs Hc Hu He Hm Hx. unfold args_of, ticked in *. subst d. run_unfold; cbn.
  rewrite Hc; cbn. rewrite Hu; cbn. rewrite He; cbn. rewrite Hs; cbn.
  rewrite Hm; cbn. rewrite Hx; cbn. reflexivity.
Qed.

(** X10.  Ctrl-C at any prompt of the collector cancels the insert: the
    answer is the cancellation message, what was typed before is
    dropped, and the driver is never called. *)
Theorem collector_interrupt_cancels L a w st pre rest :
  stdin st = (map Line pre ++ Interrupt :: rest)%list ->
  List.length pre < List.length (insertable (schema a)) ->
  Forall (fun v => ~ blank v) pre ->
  _collect_data_for_insert L a w st
  = Run (Returned "❌ Insert cancelled")
        (banner :: prompts (firstn (S (List.length pre)) (insertable (schema a))))
        {| stdin := rest; tick := tick st |}.
Proof.
  intros Hst Hlen Hall. destruct st as [inp t]; cbn in Hst; subst inp.
  pose proof (@collect_fields_interrupted (insertable (schema a)) pre [] rest t
                Hlen Hall) as Hrun.
  rewrite collect_run_early by (intro d; rewrite Hrun; discriminate).
  rewrite Hrun. reflexivity.
Qed.

Lemma collector_interrupt_cancels_witness :
  _collect_data_for_insert plain_lib agent0 (steady (healthy [] [] 1) (Reply 200 ""))
    (start [Line "Ann"; Interrupt; Line "100"])
  = Run (Returned "❌ Insert cancelled")
        [banner; EvInput "Enter name: "; EvInput "Enter department: "]
        {| stdin := [Line "100"]; tick := 0 |}.
Proof.
  refine (@collector_interrupt_cancels plain_lib agent0 (steady (healthy [] [] 1) (Reply 200 ""))
            (start [Line "Ann"; Interrupt; Line "100"]) ["Ann"] [Line "100"]
            eq_refl _ _).
  - vm_compute. lia.
  - repeat constructor. vm_compute. discriminate.
Defined.

(** X11.  A terminal that is closed while the collector is asking (Ctrl-D, or
    a standard input that has run out) is not handled by the collector:
    EOFError leaves it, after the prompt that met the end of input, and
    the driver is never called.  The [except Exception] clause of
    [process_user_request] then turns it into an answer. *)
Theorem collector_end_of_input_raises L a w st pre rest :
  stdin st = (map Line pre ++ rest)%list ->
  at_eof rest ->
  List.length pre < List.length (insertable (schema a)) ->
  Forall (fun v => ~ blank v) pre ->
  _collect_data_for_insert L a w st
  = Run (Raised eof_error)
        (banner :: prompts (firstn (S (List.length pre)) (insertable (schema a))))
        {| stdin := tl rest; tick := tick st |}
  /\ answer_of (result (_collect_data_for_insert L a w st))
     = Returned "❌ Error: EOF when reading a line".
Proof.
  intros Hst He Hlen Hall. destruct st as [inp t]; cbn in Hst; subst inp.
  pose proof (@collect_fields_eof (insertable (schema a)) pre [] rest t
                Hlen Hall He) as Hrun.
  rewrite collect_run_early by (intro d; rewrite Hrun; discriminate).
  rewrite Hrun. split; reflexivity.
Qed.

Lemma collector_end_of_input_raises_witness :
  _collect_data_for_insert plain_lib agent0 (steady (healthy [] [] 1) (Reply 200 ""))
    (start [Line "Ann"; Line "IT"])
  = Run (Raised eof_error)
        [banner; EvInput "Enter name: "; EvInput "Enter department: ";
         EvInput "Enter salary: "]
        {| stdin := []; tick := 0 |}.
Proof.
  refine (proj1 (@collector_end_of_input_raises plain_lib agent0
            (steady (healthy [] [] 1) (Reply 200 ""))
            (start [Line "Ann"; Line "IT"]) ["Ann"; "IT"] [] eq_refl I _ _)).
  - vm_compute. lia.
  - repeat constructor; vm_compute; discriminate.
Defined.

(** X12.  The collector asks only for columns of the schema, and never for
    the columns named id and hire_date. *)
Theorem collector_never_asks_generated_columns L a w st p :
  In (EvInput p) (trace (_collect_data_for_insert L a w st)) ->
  exists f, p = "Enter " ++ f ++ ": " /\ In f (columns (schema a)) /\
            f <> "id" /\ f <> "hire_date".
Proof.
  intro Hin.
  assert (Hp : In (EvInput p) (prompts (insertable (schema a)))).
  { destruct (collect_fields (insertable (schema a)) [] st) as [[[m | d] | e] tr st'] eqn:E.
    2: { rewrite (collect_run_filled L a w st E) in Hin. cbn [trace] in Hin.
         destruct Hin as [Hin | Hin]; [discriminate |].
         apply in_app_or in Hin. destruct Hin as [Hin | Hin].
         - apply (@collect_fields_asks _ [] st). rewrite E. exact Hin.
         - exfalso.
           pose proof (execute_sql_quiet L w (VStr (insert_statement d))
                         (Some (values d)) st') as Hq.
           rewrite Forall_forall in Hq. exact (proj2 (Hq _ Hin) I). }
    all: rewrite collect_run_early in Hin by (intro d; rewrite E; discriminate).
    all: cbn [trace] in Hin; destruct Hin as [Hin | Hin]; [discriminate |].
    all: apply (@collect_fields_asks _ [] st); exact Hin. }
  unfold prompts in Hp. apply in_map_iff in Hp. destruct Hp as (f & Hf & Hi).
  inversion Hf; subst. exists f. split; [reflexivity |].
  unfold insertable in Hi. apply filter_In in Hi. destruct Hi as [Hc Hb].
  split; [exact Hc |].
  apply negb_true_iff, orb_false_iff in Hb. destruct Hb as [H1 H2].
  apply String.eqb_neq in H1, H2. tauto.
Qed.

Lemma collector_never_asks_generated_columns_witness :
  exists f, "Enter name: " = "Enter " ++ f ++ ": " /\ In f (columns (schema agent0)) /\
            f <> "id" /\ f <> "hire_date".
Proof.
  refine (@collector_never_asks_generated_columns plain_lib agent0
            (steady (healthy [] [] 1) (Reply 200 "")) (start [Line "Ann"])
            "Enter name: " _).
  vm_compute. right. left. reflexivity.
Defined.

(** X13.  Once every field has a value the insert is attempted and its
    outcome is the answer.  The statement is always committed, never
    fetched (it opens with INSERT).  A driver error [m] gives the
    insert-failed line carrying [m]; when the driver's calls return the
    answer names the employee by the trimmed value typed for the column
    name, or by nothing at all when the table has no such column. *)
Theorem collector_reports_the_insert L a w st vals rest :
  let cols := insertable (schema a) in
  let d := db w (tick st) in
  let args := map strip vals in
  let r := _collect_data_for_insert L a w st in
  stdin st = (map Line vals ++ rest)%list ->
  List.length vals = List.length cols ->
  Forall (fun v => ~ blank v) vals ->
  NoDup cols ->
  ~ In EvFetchall (trace r) /\
  (forall m, driver_error L d (insert_for cols) args m ->
     result r = Returned ("❌ Insert failed: " ++ m)) /\
  (connect d = None -> cursor d = None -> execute d (insert_for cols) args = None ->
   commit d = None -> close d = None ->
   trace r = (banner :: prompts cols
              ++ [EvConnect; EvCursor; EvExecute (insert_for cols) args;
                  EvCommit; EvClose])%list /\
   exists name,
     result r = Returned ("✅ Employee " ++ name ++ " added!") /\
     (forall i, nth_error cols i = Some "name" -> name = strip (nth i vals "")) /\
     (~ In "name" cols -> name = "")).
Proof.
  intros cols d args r Hst Hlen Hall Hnd. subst r.
  destruct st as [inp t]; cbn in Hst; subst inp. cbn [tick] in d.
  pose proof (@collect_fields_all cols vals [] rest t Hlen Hall) as Hrun.
  rewrite fill_distinct in Hrun by (auto; intros f _ []). cbn [app] in Hrun.
  set (data := combine cols (map strip vals)) in *.
  assert (Hk : keys data = cols)
    by (apply keys_combine; now rewrite length_map).
  assert (Hv : values data = args)
    by (apply values_combine; unfold args; now rewrite length_map).
  assert (Hl : List.length data = List.length cols)
    by (rewrite <- Hk; unfold keys; now rewrite length_map).
  assert (Hs : VStr (insert_statement data) = insert_for cols)
    by (unfold insert_statement, insert_for; now rewrite Hk, Hl).
  rewrite (collect_run_filled L a w _ Hrun). rewrite Hs, Hv. cbn [result trace].
  assert (Hsel : exists s, insert_for cols = VStr s /\
                           startswith "SELECT" (upper L (strip s)) = false).
  { eexists. split; [reflexivity | apply insert_is_no_select]. }
  destruct Hsel as (s & Es & Hsel). rewrite Es in *.
  split; [| split].
  - intros [Hin | Hin]; [discriminate |].
    apply in_app_or in Hin. destruct Hin as [Hin | Hin].
    + unfold prompts in Hin. apply in_map_iff in Hin.
      destruct Hin as (f & Hf & _). discriminate.
    + exact (@execute_sql_write_never_fetches L w s (Some args) _ Hsel Hin).
  - intros m Hm.
    rewrite (@execute_sql_driver_error L w (VStr s) (Some args)
               {| stdin := rest; tick := t |} m Hm).
    reflexivity.
  - intros Hc Hu He Hm Hx.
    pose proof (@execute_sql_write_run L w s (Some args) {| stdin := rest; tick := t |}
                  Hsel Hc Hu He Hm Hx) as Hr.
    rewrite Hr. cbn [result trace insert_answer]. split; [reflexivity |].
    eexists. split; [reflexivity |].
    destruct (@dict_get_combine "name" cols (map strip vals)
                ltac:(now rewrite length_map) Hnd) as [H1 H2].
    fold data in H1, H2. split.
    + intros i Hi. rewrite (H1 i Hi).
      change "" with (strip "") at 1. now rewrite map_nth.
    + intro Hn. now rewrite (H2 Hn).
Qed.

Lemma collector_reports_the_insert_witness :
  exists name,
    result (_collect_data_for_insert plain_lib agent0 (steady (healthy [] [] 1) (Reply 200 ""))
              (start [Line " Ann "; Line "IT"; Line "100"]))
    = Returned ("✅ Employee " ++ name ++ " added!") /\
    (forall i, nth_error (insertable employees) i = Some "name" ->
               name = strip (nth i [" Ann "; "IT"; "100"] "")) /\
    (~ In "name" (insertable employees) -> name = "").
Proof.
  refine (proj2 (proj2 (proj2 (@collector_reports_the_insert plain_lib agent0
            (steady (healthy [] [] 1) (Reply 200 ""))
            (start [Line " Ann "; Line "IT"; Line "100"])
            [" Ann "; "IT"; "100"] [] eq_refl eq_refl _ _))
            eq_refl eq_refl eq_refl eq_refl eq_refl)).
  - repeat constructor; vm_compute; discriminate.
  - vm_compute. repeat constructor; cbn; intuition discriminate.
Defined.

(** ** The startup self-test on an odd result set *)

(** X14.  A COUNT read that succeeds but hands back no row, or a first row
    without a column named count, fails the self-test as well: reading
    the count raises inside the [try], the failure is printed with the
    text of the exception, the answer is False and the model is not
    asked. *)
Theorem self_test_needs_a_count_row L a w st rows :
  let x := execute_sql L w count_statement None st in
  result x = Returned (Select rows) ->
  (rows = [] ->
   test_connections L a w st
   = Run (Returned false)
         (EvPrint "🔍 Testing connections..." :: trace x
            ++ [EvPrint "❌ DB Test Failed: list index out of range"])%list
         (final x)) /\
  (forall first rest,
     rows = first :: rest -> dict_get "count" first = None ->
     test_connections L a w st
     = Run (Returned false)
           (EvPrint "🔍 Testing connections..." :: trace x
              ++ [EvPrint "❌ DB Test Failed: 'count'"])%list
           (final x)).
Proof.
  intros x H. subst x.
  unfold test_connections. fold count_statement. comb_unfold.
  destruct (execute_sql L w count_statement None st) as [res tr st']; cbn in *.
  subst res. split.
  - intros ->. cbn. rewrite ?app_nil_r. reflexivity.
  - intros first rest -> Hc. cbn. rewrite Hc. cbn. rewrite ?app_nil_r. reflexivity.
Qed.

Lemma self_test_needs_a_count_row_witness :
  test_connections plain_lib agent0 (steady (healthy ["count"] [] 0) (Reply 200 "")) (start [])
  = Run (Returned false)
        [EvPrint "🔍 Testing connections..."; EvConnect; EvCursor;
         EvExecute count_statement []; EvFetchall; EvClose;
         EvPrint "❌ DB Test Failed: list index out of range"]
        {| stdin := []; tick := 1 |}.
Proof.
  exact (proj1 (@self_test_needs_a_count_row plain_lib agent0
                  (steady (healthy ["count"] [] 0) (Reply 200 "")) (start []) []
                  eq_refl) eq_refl).
Defined.

(** ** _get_table_info *)

Lemma describe_rows_returned cols : forall st cells,
  result (describe_rows cols st) = Returned cells ->
  cells = map (fun r => (cell 0 r, cell 1 r)) cols.
Proof.
  induction cols as [|c cols IH]; intros st cells H.
  - cbn in H. inversion H. reflexivity.
  - destruct c as [|name [|ty c]]; try discriminate.
    change (describe_rows ((name :: ty :: c) :: cols))
      with (xs <- describe_rows cols ;; ret ((name, ty) :: xs)) in H.
    unfold bind, after in H. specialize (IH st).
    destruct (describe_rows cols st) as [[xs | e] tr st']; cbn in *; [| discriminate].
    inversion H; subst. rewrite (IH xs eq_refl). reflexivity.
Qed.

Lemma str_items_returned items : forall i st names,
  result (str_items i items st) = Returned names ->
  items = map DbStr names.
Proof.
  induction items as [|v items IH]; intros i st names H.
  - cbn in H. inversion H. reflexivity.
  - destruct v; try discriminate.
    change (str_items i (DbStr s :: items))
      with (xs <- str_items (S i) items ;; ret (s :: xs)) in H.
    unfold bind, after in H. specialize (IH (S i) st).
    destruct (str_items (S i) items st) as [[xs | e] tr st']; cbn in *; [| discriminate].
    inversion H; subst. rewrite (IH xs eq_refl). reflexivity.
Qed.

Lemma describe_rows_raises cols : forall st e,
  result (describe_rows cols st) = Raised e -> is_Exception e = true.
Proof.
  induction cols as [|c cols IH]; intros st e H.
  - discriminate.
  - destruct c as [|name [|ty c]]; try (inversion H; reflexivity).
    change (describe_rows ((name :: ty :: c) :: cols))
      with (xs <- describe_rows cols ;; ret ((name, ty) :: xs)) in H.
    unfold bind, after in H. specialize (IH st).
    destruct (describe_rows cols st) as [[xs | x] tr st']; cbn in *; [discriminate |].
    inversion H; subst. now apply IH.
Qed.

Lemma str_items_raises items : forall i st e,
  result (str_items i items st) = Raised e -> is_Exception e = true.
Proof.
  induction items as [|v items IH]; intros i st e H.
  - discriminate.
  - destruct v; try (inversion H; reflexivity).
    change (str_items i (DbStr s :: items))
      with (xs <- str_items (S i) items ;; ret (s :: xs)) in H.
    unfold bind, after in H. specialize (IH (S i) st).
    destruct (str_items (S i) items st) as [[xs | x] tr st']; cbn in *; [discriminate |].
    inversion H; subst. now apply IH.
Qed.

Lemma get_table_info_run w st :
  exists x tr,
    _get_table_info w st = Run x tr (ticked st) /\
    match x with
    | Raised e =>
        e = schema_error /\
        exists cause, last tr EvConnect = EvLogError "❌ Schema detection failed: " cause
    | Returned sch =>
        exists rows,
          fetchall (db w (tick st)) describe_statement = inr rows /\
          rows <> [] /\
          table sch = "employees" /\
          map DbStr (columns sch) = map (cell 0) rows /\
          structure sch = join ", " (map column_text rows) /\
          In (EvLogInfo ("📋 Detected columns: " ++ join ", " (columns sch))) tr
    end.
Proof.
  unfold _get_table_info, with_connection, next_tick, describe_statement, ticked.
  comb_unfold; cbn.
  repeat (split_match; try discriminate).
  all: repeat match goal with
           | E : is_Exception (exn_of ?f) = false |- _ =>
               rewrite exn_of_is_Exception in E; discriminate
           | H : describe_rows ?c ?s = Run (Raised ?x) _ _, E : is_Exception ?x = false |- _ =>
               let P := fresh in
               pose proof (@describe_rows_raises c s x) as P;
               rewrite H in P; specialize (P eq_refl); congruence
           | H : str_items ?i ?c ?s = Run (Raised ?x) _ _, E : is_Exception ?x = false |- _ =>
               let P := fresh in
               pose proof (@str_items_raises c i s x) as P;
               rewrite H in P; specialize (P eq_refl); congruence
           end.
  all: repeat match goal with
           | H : describe_rows ?c ?s = Run ?x _ _ |- _ =>
               let P := fresh in let P' := fresh in
               pose proof (describe_rows_pure c s) as [P P'];
               rewrite H in P, P'; cbn in P, P'; subst;
               let Q := fresh "Hd" in
               assert (Q : result (describe_rows c s) = x) by (rewrite H; reflexivity);
               clear H
           | H : str_items ?i ?c ?s = Run ?x _ _ |- _ =>
               let P := fresh in let P' := fresh in
               pose proof (str_items_pure c i s) as [P P'];
               rewrite H in P, P'; cbn in P, P'; subst;
               let Q := fresh "Hs" in
               assert (Q : result (str_items i c s) = x) by (rewrite H; reflexivity);
               clear H
           end.
  all: do 2 eexists; (split; [reflexivity |]); cbn.
  all: try (split; [reflexivity | eexists; reflexivity]).
  all: eexists; (split; [reflexivity |]); (split; [discriminate |]);
    (split; [reflexivity |]).
  all: match goal with
       | Hd : result (describe_rows _ _) = Returned _ |- _ =>
           apply describe_rows_returned in Hd; subst
       end.
  all: match goal with
       | Hs : result (str_items _ _ _) = Returned _ |- _ =>
           apply str_items_returned in Hs
       end.
  all: rewrite map_map in *; cbn [fst snd] in *.
  all: split; [symmetry; assumption |]; split; [reflexivity |].
  all: cbn; repeat (first [left; reflexivity | right]).
Qed.




(** X16.  A schema that is returned is the DESCRIBE result and nothing else:
    the table name is fixed, there is at least one column, the columns
    are the first cells of the rows, in order, and they are all text;
    the structure text joins name(type) for every row; and the detected
    columns have been logged. *)
Theorem schema_lists_describe_rows w st sch :
  let d := db w (tick st) in
  let r := _get_table_info w st in
  result r = Returned sch ->
  exists rows,
    fetchall d describe_statement = inr rows /\
    rows <> [] /\
    table sch = "employees" /\
    map DbStr (columns sch) = map (cell 0) rows /\
    structure sch = join ", " (map column_text rows) /\
    In (EvLogInfo ("📋 Detected columns: " ++ join ", " (columns sch))) (trace r).
Proof.
  cbn zeta. intro H.
  destruct (get_table_info_run w st) as (x & tr & E & Hx).
  rewrite E in H |- *. cbn in H |- *. subst x. exact Hx.
Qed.

Lemma schema_lists_describe_rows_witness :
  exists rows,
    fetchall describe_only describe_statement = inr rows /\
    rows <> [] /\
    "employees" = "employees" /\
    map DbStr ["id"; "name"] = map (cell 0) rows /\
    "id(int), name(varchar(100))" = join ", " (map column_text rows) /\
    In (EvLogInfo ("📋 Detected columns: " ++ join ", " ["id"; "name"]))
       (trace (_get_table_info (steady describe_only (Reply 200 "")) (start []))).
Proof.
  exact (@schema_lists_describe_rows (steady describe_only (Reply 200 "")) (start [])
           {| table := "employees"; columns := ["id"; "name"];
              structure := "id(int), name(varchar(100))" |} eq_refl).
Defined.

(** ** main and its loop *)

(** X17.  Without a schema there is no agent: when [_get_table_info] raises,
    [main] ends with that RuntimeError right after its two greeting
    lines.  Nothing catches it; the self-test is not run and the user
    is never prompted. *)
Theorem main_needs_the_schema L fuel model w st e :
  let r0 := _get_table_info w st in
  result r0 = Raised e ->
  main L fuel model w st
  = Run (Raised schema_error) (greeting ++ trace r0)%list (final r0)
  /\ Forall (fun ev => ~ is_prompt ev) (trace (main L fuel model w st)).
Proof.
  intros r0 H.
  assert (He : e = schema_error).
  { destruct (get_table_info_run w st) as (x & tr & E & Hx).
    unfold r0 in H. rewrite E in H. cbn in H. subst x. exact (proj1 Hx). }
  subst e.
  assert (Hm : main L fuel model w st
               = Run (Raised schema_error) (greeting ++ trace r0)%list (final r0)).
  { unfold main. rewrite !bind_print. rewrite (bind_raised _ _ _ H). fold r0.
    reflexivity. }
  split; [exact Hm |]. rewrite Hm. cbn [trace greeting app].
  repeat (constructor; [cbn; tauto |]). apply get_table_info_quiet.
Qed.

Lemma main_needs_the_schema_witness :
  main plain_lib 3 "llama3.2" (steady (refusing "Access denied") (Reply 200 ""))
    (start [Line "list everyone"])
  = Run (Raised schema_error)
        (greeting ++ [EvConnect;
                      EvLogError "❌ Schema detection failed: " (MySQLError "Access denied")])%list
        {| stdin := [Line "list everyone"]; tick := 1 |}.
Proof.
  exact (proj1 (@main_needs_the_schema plain_lib 3 "llama3.2"
                  (steady (refusing "Access denied") (Reply 200 ""))
                  (start [Line "list everyone"]) schema_error eq_refl)).
Defined.

(** X18.  When the schema is read and the self-test passes, [main] prints the
    invitation and hands over to the loop, with an agent that carries
    the model name and the schema read at startup; everything the run
    does from there on is what the loop does. *)
Theorem main_enters_the_loop L fuel model w st sch :
  let r0 := _get_table_info w st in
  let agent := {| llm_model := model; schema := sch |} in
  let rt := test_connections L agent w (final r0) in
  result r0 = Returned sch ->
  result rt = Returned true ->
  main L fuel model w st
  = after (greeting ++ trace r0 ++ trace rt
             ++ [EvPrint (nl ++ "💬 Ask anything. Type 'quit' to exit." ++ nl)])%list
      (interactive_loop L fuel agent w (final rt)).
Proof.
  intros r0 agent rt H0 Ht. unfold main. rewrite !bind_print.
  rewrite (bind_returned _ _ _ H0). fold r0.
  rewrite (bind_returned _ _ _ Ht). fold agent rt. cbn [negb].
  rewrite bind_print.
  destruct r0 as [x0 tr0 st0], rt as [xt trt stt]; cbn [trace final].
  destruct (interactive_loop L fuel agent w stt) as [x tr st']. cbn.
  rewrite <- !app_assoc. reflexivity.
Qed.

Lemma main_enters_the_loop_witness :
  result (main plain_lib 2 "llama3.2"
            (steady (healthy ["count"] [[DbStr "id"; DbStr "int"]] 0) (says "OK"))
            (start [Line "quit"]))
  = Returned Exited.
Proof.
  refine (eq_trans (f_equal (@result main_end)
            (@main_enters_the_loop plain_lib 2 "llama3.2"
               (steady (healthy ["count"] [[DbStr "id"; DbStr "int"]] 0) (says "OK"))
               (start [Line "quit"])
               {| table := "employees"; columns := ["id"]; structure := "id(int)" |}
               eq_refl eq_refl)) _).
  vm_compute. reflexivity.
Defined.

Lemma quit_word_eqb L s :
  quit_word L s <->
  String.eqb (lower L (strip s)) "exit" || String.eqb (lower L (strip s)) "quit"
  || String.eqb (lower L (strip s)) "q" = true.
Proof.
  unfold quit_word. rewrite !orb_true_iff, !String.eqb_eq. tauto.
Qed.

Lemma blank_is_no_quit_word L s : blank s -> ~ quit_word L s.
Proof.
  unfold blank, quit_word. intros ->. cbn. intuition discriminate.
Qed.

Lemma loop_on_line L k a w st s rest :
  stdin st = Line s :: rest ->
  let st1 := {| stdin := rest; tick := tick st |} in
  interactive_loop L (S k) a w st
  = after [you]
      (if String.eqb (lower L (strip s)) "exit" || String.eqb (lower L (strip s)) "quit"
          || String.eqb (lower L (strip s)) "q"
       then Run (Returned Exited) [EvPrint "👋 Goodbye!"] st1
       else if negb (String.eqb (strip s) "") then
         match process_user_request L a w (strip s) st1 with
         | Run (Returned answer) tr st2 =>
             after (tr ++ [EvPrint (nl ++ "🤖 " ++ answer)]) (interactive_loop L k a w st2)
         | Run (Raised KeyboardInterrupt) tr st2 =>
             Run (Returned Exited) (tr ++ [EvPrint (nl ++ "👋 Exiting.")]) st2
         | Run (Raised e) tr st2 =>
             after (tr ++ [EvPrint ("❌ Unexpected Error: " ++ exn_str e)])
                   (interactive_loop L k a w st2)
         end
       else interactive_loop L k a w st1).
Proof.
  intros H st1. subst st1.
  change (interactive_loop L (S k) a w st)
    with ((again <-
             try_except
               (line <- input "🗣️ You: " ;;
                let user_input := strip line in
                let cmd := lower L user_input in
                if String.eqb cmd "exit" || String.eqb cmd "quit" || String.eqb cmd "q"
                then print "👋 Goodbye!" ;; ret false
                else if negb (String.eqb user_input "") then
                  response <- process_user_request L a w user_input ;;
                  print (nl ++ "🤖 " ++ response) ;;
                  ret true
                else ret true)
               (fun e =>
                  match e with
                  | KeyboardInterrupt => Some (print (nl ++ "👋 Exiting.") ;; ret false)
                  | _ => Some (print ("❌ Unexpected Error: " ++ exn_str e) ;; ret true)
                  end) ;;
           if again then interactive_loop L k a w else ret Exited) st).
  unfold bind at 1, try_except, bind at 1, input. rewrite H. cbn zeta.
  destruct (String.eqb (lower L (strip s)) "exit" || String.eqb (lower L (strip s)) "quit"
            || String.eqb (lower L (strip s)) "q").
  - reflexivity.
  - destruct (String.eqb (strip s) ""); cbn [negb].
    + cbn. destruct (interactive_loop L k a w _); reflexivity.
    + unfold bind, print, emit, ret, after.
      destruct (process_user_request L a w (strip s) _) as [[answer | e] tr st2].
      * cbn. destruct (interactive_loop L k a w st2). cbn.
        rewrite ?app_nil_r, <- ?app_assoc. reflexivity.
      * destruct e; cbn; rewrite ?app_nil_r;
          try (destruct (interactive_loop L k a w st2); cbn;
               rewrite ?app_nil_r, <- ?app_assoc); reflexivity.
Qed.

Lemma loop_without_line L k a w st :
  (forall s rest, stdin st <> Line s :: rest) ->
  let st1 := {| stdin := tl (stdin st); tick := tick st |} in
  interactive_loop L (S k) a w st
  = match stdin st with
    | Interrupt :: _ => Run (Returned Exited) [you; EvPrint (nl ++ "👋 Exiting.")] st1
    | [] => after eof_turn (interactive_loop L k a w st)
    | _ => after eof_turn (interactive_loop L k a w st1)
    end.
Proof.
  intros H st1. subst st1.
  change (interactive_loop L (S k) a w st)
    with ((again <-
             try_except
               (line <- input "🗣️ You: " ;;
                let user_input := strip line in
                let cmd := lower L user_input in
                if String.eqb cmd "exit" || String.eqb cmd "quit" || String.eqb cmd "q"
                then print "👋 Goodbye!" ;; ret false
                else if negb (String.eqb user_input "") then
                  response <- process_user_request L a w user_input ;;
                  print (nl ++ "🤖 " ++ response) ;;
                  ret true
                else ret true)
               (fun e =>
                  match e with
                  | KeyboardInterrupt => Some (print (nl ++ "👋 Exiting.") ;; ret false)
                  | _ => Some (print ("❌ Unexpected Error: " ++ exn_str e) ;; ret true)
                  end) ;;
           if again then interactive_loop L k a w else ret Exited) st).
  unfold bind at 1, try_except, bind at 1, input.
  destruct st as [inp t]; cbn [stdin tick] in *.
  destruct inp as [|[s| |] rest]; cbn.
  - destruct (interactive_loop L k a w _); reflexivity.
  - exfalso. eapply H; eauto.
  - reflexivity.
  - destruct (interactive_loop L k a w _); reflexivity.
Qed.

(** X19.  The loop ends on exit, quit or q, in any letter case and with
    blanks around: it prints the goodbye and returns, and the model is
    not asked. *)
Theorem loop_leaves_on_quit_word L k a w st s rest :
  stdin st = Line s :: rest ->
  quit_word L s ->
  interactive_loop L (S k) a w st
  = Run (Returned Exited) [you; EvPrint "👋 Goodbye!"]
        {| stdin := rest; tick := tick st |}.
Proof.
  intros H Hq. rewrite (loop_on_line L k a w st H).
  apply quit_word_eqb in Hq. rewrite Hq. reflexivity.
Qed.

Lemma loop_leaves_on_quit_word_witness :
  interactive_loop plain_lib 1 agent0 (steady (healthy [] [] 0) (Reply 200 ""))
    (start [Line (nbsp ++ " QUIT "); Line "list everyone"])
  = Run (Returned Exited) [you; EvPrint "👋 Goodbye!"]
        {| stdin := [Line "list everyone"]; tick := 0 |}.
Proof.
  refine (@loop_leaves_on_quit_word plain_lib 0 agent0
            (steady (healthy [] [] 0) (Reply 200 ""))
            (start [Line (nbsp ++ " QUIT "); Line "list everyone"])
            (nbsp ++ " QUIT ") [Line "list everyone"] eq_refl _).
  right. left. reflexivity.
Defined.


(** X20.  A line that is empty once trimmed is ignored: the loop prompts
    again and neither the model nor the database is called. *)
Theorem loop_skips_blank_line L k a w st s rest :
  stdin st = Line s :: rest ->
  blank s ->
  interactive_loop L (S k) a w st
  = after [you] (interactive_loop L k a w {| stdin := rest; tick := tick st |}).
Proof.
  intros H Hb. rewrite (loop_on_line L k a w st H).
  destruct (String.eqb (lower L (strip s)) "exit" || String.eqb (lower L (strip s)) "quit"
            || String.eqb (lower L (strip s)) "q") eqn:E.
  - exfalso. apply quit_word_eqb in E. exact (blank_is_no_quit_word Hb E).
  - unfold blank in Hb. rewrite Hb. reflexivity.
Qed.

Lemma loop_skips_blank_line_witness :
  interactive_loop plain_lib 2 agent0 (steady (healthy [] [] 0) (Reply 200 ""))
    (start [Line (wide_space ++ " "); Line "q"])
  = after [you]
      (interactive_loop plain_lib 1 agent0 (steady (healthy [] [] 0) (Reply 200 ""))
         {| stdin := [Line "q"]; tick := 0 |}).
Proof.
  exact (@loop_skips_blank_line plain_lib 1 agent0
           (steady (healthy [] [] 0) (Reply 200 ""))
           (start [Line (wide_space ++ " "); Line "q"]) (wide_space ++ " ") [Line "q"] eq_refl eq_refl).
Defined.





(** X22.  Ctrl-C at the prompt ends the loop with the exit line. *)
Theorem loop_leaves_on_interrupt L k a w st rest :
  stdin st = Interrupt :: rest ->
  interactive_loop L (S k) a w st
  = Run (Returned Exited) [you; EvPrint (nl ++ "👋 Exiting.")]
        {| stdin := rest; tick := tick st |}.
Proof.
  intro H. rewrite (@loop_without_line L) by (rewrite H; discriminate).
  rewrite H. reflexivity.
Qed.

Lemma loop_leaves_on_interrupt_witness :
  interactive_loop plain_lib 1 agent0 (steady (healthy [] [] 0) (Reply 200 ""))
    (start [Interrupt; Line "list everyone"])
  = Run (Returned Exited) [you; EvPrint (nl ++ "👋 Exiting.")]
        {| stdin := [Line "list everyone"]; tick := 0 |}.
Proof.
  exact (@loop_leaves_on_interrupt plain_lib 0 agent0
           (steady (healthy [] [] 0) (Reply 200 ""))
           (start [Interrupt; Line "list everyone"]) [Line "list everyone"] eq_refl).
Defined.


(** X23.  The end of input does not end the loop.  EOFError is caught by the
    [except Exception] clause, reported, and the loop prompts again; on
    a terminal that stays closed it does so for ever, however many
    turns are followed, and never calls the model or the database. *)
Theorem loop_spins_on_closed_terminal L a w st :
  (forall k rest, stdin st = Eof :: rest ->
     interactive_loop L (S k) a w st
     = after eof_turn (interactive_loop L k a w {| stdin := rest; tick := tick st |})) /\
  (stdin st = [] ->
   forall fuel,
     interactive_loop L fuel a w st
     = Run (Returned Looping) (concat (repeat eof_turn fuel)) st).
Proof.
  split.
  - intros k rest H. rewrite (@loop_without_line L) by (rewrite H; discriminate).
    rewrite H. reflexivity.
  - intros H fuel. induction fuel as [|k IH]; [reflexivity |].
    rewrite (@loop_without_line L) by (rewrite H; discriminate).
    rewrite H, IH. reflexivity.
Qed.

Lemma loop_spins_on_closed_terminal_witness :
  interactive_loop plain_lib 3 agent0 (steady (healthy [] [] 0) (Reply 200 "")) (start [])
  = Run (Returned Looping) (eof_turn ++ eof_turn ++ eof_turn)%list (start []).
Proof.
  exact (proj2 (loop_spins_on_closed_terminal plain_lib agent0
                  (steady (healthy [] [] 0) (Reply 200 "")) (start []))
               eq_refl 3).
Defined.


(** ** fetch_employees_by_department and the tool built on it *)

Lemma fetch_unconnected w dept st f :
  connect (db w (tick st)) = Some f ->
  fetch_employees_by_department w dept st = Run (Raised unbound_conn) [EvConnect] (ticked st).
Proof.
  intro H. unfold fetch_employees_by_department, next_tick, ticked, unbound_conn.
  comb_unfold; cbn. rewrite H; cbn. destruct f; reflexivity.
Qed.

Lemma employee_lines_full rows : forall st,
  Forall (fun r => 3 <= List.length r) rows ->
  employee_lines rows st = Run (Returned (map employee_text rows)) [] st.
Proof.
  induction rows as [|r rows IH]; intros st H; [reflexivity |].
  inversion H as [|? ? Hr Hrs]; subst.
  destruct r as [|i [|name [|dept r]]]; cbn in Hr; try lia.
  cbn [employee_lines employee_line]. unfold bind at 1. cbn.
  unfold bind at 1. rewrite (IH st Hrs). reflexivity.
Qed.

(** X24.  When the query goes through, the rows come back as the driver gave
    them and the connection is closed if it still reports itself
    connected.  The department travels as the one bound parameter of a
    fixed statement: it is never spliced into the SQL text. *)
Theorem fetch_returns_the_rows w dept st rows :
  let d := db w (tick st) in
  let r := fetch_employees_by_department w dept st in
  (forall sql args, In (EvExecute sql args) (trace r) ->
     sql = department_statement /\ args = [dept]) /\
  (connect d = None -> is_connected d 0 = true -> cursor d = None ->
   execute d department_statement [dept] = None ->
   fetchall d department_statement = inr rows ->
   (is_connected d 1 = true -> close d = None ->
    r = Run (Returned (FetchRows rows))
            [EvConnect; EvCursor; EvExecute department_statement [dept]; EvFetchall; EvClose]
            (ticked st)) /\
   (is_connected d 1 = false ->
    r = Run (Returned (FetchRows rows))
            [EvConnect; EvCursor; EvExecute department_statement [dept]; EvFetchall]
            (ticked st))).
Proof.
  cbn zeta. split.
  - intros sql args.
    unfold fetch_employees_by_department, next_tick, department_statement.
    comb_unfold; cbn.
    repeat (split_match; try discriminate); cbn;
      intuition (try discriminate);
      match goal with
      | H : EvExecute _ _ = EvExecute _ _ |- _ => inversion H; reflexivity
      end.
  - intros Hc Hi Hu He Hf.
    unfold fetch_employees_by_department, next_tick, ticked, department_statement in *.
    comb_unfold; cbn. rewrite Hc; cbn. rewrite Hi; cbn. rewrite Hu; cbn.
    rewrite He; cbn. rewrite Hf; cbn.
    split.
    + intros H1 Hx. rewrite H1; cbn. rewrite Hx; cbn. reflexivity.
    + intros H1. rewrite H1; cbn. reflexivity.
Qed.

Lemma fetch_returns_the_rows_witness :
  fetch_employees_by_department
    (steady (healthy ["id"; "name"; "department"] [[DbInt 1; DbStr "Ann"; DbStr "IT"]] 0)
            (Reply 200 ""))
    "IT" (start [])
  = Run (Returned (FetchRows [[DbInt 1; DbStr "Ann"; DbStr "IT"]]))
        [EvConnect; EvCursor; EvExecute department_statement ["IT"]; EvFetchall; EvClose]
        {| stdin := []; tick := 1 |}.
Proof.
  exact (proj1 (proj2 (@fetch_returns_the_rows
           (steady (healthy ["id"; "name"; "department"]
                            [[DbInt 1; DbStr "Ann"; DbStr "IT"]] 0) (Reply 200 ""))
           "IT" (start []) [[DbInt 1; DbStr "Ann"; DbStr "IT"]])
           eq_refl eq_refl eq_refl eq_refl eq_refl) eq_refl eq_refl).
Defined.

(** X25.  Once the connection is made, an error of the driver during the
    query is returned as the text MySQL Error: ... when the [finally]
    block goes through; but an error raised by [close] in that block is
    not caught by anything and leaves the function, whatever the query
    did. *)
Theorem fetch_reports_query_errors w dept st :
  let d := db w (tick st) in
  let r := fetch_employees_by_department w dept st in
  (forall m, connect d = None -> is_connected d 0 = true ->
     query_error d dept m ->
     (is_connected d 1 = false \/ close d = None) ->
     result r = Returned (FetchMessage ("MySQL Error: " ++ m))) /\
  (forall f, connect d = None -> is_connected d 1 = true -> close d = Some f ->
     result r = Raised (exn_of f)).
Proof.
  cbn zeta. split.
  - intros m Hc Hi Hq Hx.
    unfold fetch_employees_by_department, next_tick, query_error,
      department_statement in *.
    comb_unfold; cbn. rewrite Hc; cbn. rewrite Hi; cbn.
    destruct Hq as [Hu | [[Hu He] | (Hu & He & Hf)]];
      rewrite Hu; cbn; try (rewrite He; cbn); try (rewrite Hf; cbn);
      destruct Hx as [H1 | Hx];
      try (rewrite H1; reflexivity);
      destruct (is_connected (db w (tick st)) 1); cbn; try rewrite Hx; reflexivity.
  - intros f Hc H1 Hx.
    unfold fetch_employees_by_department, next_tick. comb_unfold; cbn.
    rewrite Hc; cbn. rewrite H1, Hx.
    repeat (split_match; try discriminate); reflexivity.
Qed.

Lemma fetch_reports_query_errors_witness :
  result (fetch_employees_by_department
            (steady (failing (DriverError "Unknown column 'department'")) (Reply 200 ""))
            "IT" (start []))
  = Returned (FetchMessage "MySQL Error: Unknown column 'department'").
Proof.
  refine (proj1 (@fetch_reports_query_errors
            (steady (failing (DriverError "Unknown column 'department'")) (Reply 200 ""))
            "IT" (start [])) "Unknown column 'department'" eq_refl eq_refl _ _).
  - right. left. split; reflexivity.
  - right. reflexivity.
Defined.

(** X26.  A connection that is made but does not report itself connected
    sends no query: the function falls off its end and hands back None;
    no cursor is opened. *)
Theorem fetch_without_connection_is_none w dept st :
  let d := db w (tick st) in
  let r := fetch_employees_by_department w dept st in
  connect d = None -> is_connected d 0 = false ->
  (is_connected d 1 = false \/ close d = None) ->
  result r = Returned FetchNone /\
  ~ In EvCursor (trace r) /\
  (forall sql args, ~ In (EvExecute sql args) (trace r)).
Proof.
  cbn zeta. intros Hc Hi Hx.
  unfold fetch_employees_by_department, next_tick. comb_unfold; cbn.
  rewrite Hc; cbn. rewrite Hi; cbn.
  destruct (is_connected (db w (tick st)) 1) eqn:H1; cbn.
  - destruct Hx as [Hx | Hx]; [discriminate |]. rewrite Hx; cbn.
    repeat split; try intros ? ?; cbn; intuition discriminate.
  - repeat split; try intros ? ?; cbn; intuition discriminate.
Qed.

Lemma fetch_without_connection_is_none_witness :
  result (fetch_employees_by_department (steady dropped (Reply 200 "")) "IT" (start []))
  = Returned FetchNone.
Proof.
  exact (proj1 (@fetch_without_connection_is_none (steady dropped (Reply 200 "")) "IT"
                  (start []) eq_refl eq_refl (or_introl eq_refl))).
Defined.

(** X27.  The tool adds nothing but the rendering.  An error text of the
    fetch is passed on as it is; no rows, or no result at all, give the
    no-employees sentence naming the department; rows give one line per
    row, joined by newlines, in the order of the result; and an
    exception of the fetch leaves the tool untouched, since the tool has
    no handler of its own. *)
Theorem tool_renders_fetch_result w dept st :
  let f := fetch_employees_by_department w dept st in
  let r := get_employees_by_department w dept st in
  (forall t, result f = Returned (FetchMessage t) ->
     r = Run (Returned t) (trace f) (final f)) /\
  (result f = Returned FetchNone \/ result f = Returned (FetchRows []) ->
   r = Run (Returned ("No employees found in " ++ dept ++ " department."))
           (trace f) (final f)) /\
  (forall rows, result f = Returned (FetchRows rows) -> rows <> [] ->
     Forall (fun row => 3 <= List.length row) rows ->
     r = Run (Returned (join nl (map employee_text rows))) (trace f) (final f)) /\
  (forall e, result f = Raised e -> r = Run (Raised e) (trace f) (final f)).
Proof.
  cbn zeta. unfold get_employees_by_department, bind.
  destruct (fetch_employees_by_department w dept st) as [[res | e] tr st']; cbn.
  - split; [| split; [| split]].
    + intros t H. inversion H; subst. cbn. now rewrite app_nil_r.
    + intros [H | H]; inversion H; subst; cbn; now rewrite app_nil_r.
    + intros rows H Hne Hall. inversion H; subst.
      destruct rows as [|row rows]; [contradiction |].
      rewrite (employee_lines_full st' Hall). cbn. now rewrite app_nil_r.
    + intros e H. discriminate.
  - split; [| split; [| split]]; try (intros; discriminate).
    + intros [H | H]; discriminate.
    + intros e' H. inversion H; subst. reflexivity.
Qed.

Lemma tool_renders_fetch_result_witness :
  get_employees_by_department
    (steady (healthy ["id"; "name"; "department"] it_rows 0) (Reply 200 "")) "IT" (start [])
  = Run (Returned ("ID: 1, Name: Ann, Dept: IT" ++ nl ++ "ID: 4, Name: Bob, Dept: IT"))
        [EvConnect; EvCursor; EvExecute department_statement ["IT"]; EvFetchall; EvClose]
        {| stdin := []; tick := 1 |}.
Proof.
  refine (proj1 (proj2 (proj2 (@tool_renders_fetch_result
            (steady (healthy ["id"; "name"; "department"] it_rows 0) (Reply 200 ""))
            "IT" (start []))))
            it_rows eq_refl _ _).
  - discriminate.
  - repeat constructor.
Defined.

(** X28.  The tool cannot report a failed connection.  When [connect] raises,
    whatever it raises, the fetch dies in its [finally] block with
    UnboundLocalError, and so does the tool: the branch that passes an
    error text on is not reached. *)
Theorem tool_crashes_when_connect_fails w dept st f :
  connect (db w (tick st)) = Some f ->
  get_employees_by_department w dept st
  = Run (Raised unbound_conn) [EvConnect] (ticked st).
Proof.
  intro H. unfold get_employees_by_department, bind.
  rewrite (fetch_unconnected w dept st H). reflexivity.
Qed.

Lemma tool_crashes_when_connect_fails_witness :
  get_employees_by_department (steady (refusing "Access denied") (Reply 200 "")) "IT"
    (start [])
  = Run (Raised unbound_conn) [EvConnect] {| stdin := []; tick := 1 |}.
Proof.
  exact (@tool_crashes_when_connect_fails (steady (refusing "Access denied") (Reply 200 ""))
           "IT" (start []) (DriverError "Access denied") eq_refl).
Defined.
